(** * ds-s3: the uploader core (internal/uploader/uploader.go)

    A shallow embedding of the Key Builder, Plan Builder, Existence Guard,
    Cleanup Engine and Transfer Engine of [internal/uploader/uploader.go],
    together with the properties the specification states about them.
    The configuration ([internal/config/config.go]) and the upload operation
    of the plugin ([handleUpload]), which calls the uploader, are embedded as
    well, with further properties of the code (Part III).

    Go strings are byte sequences: they are modelled as [string], whose
    characters are the bytes.  [strings.TrimSpace] and [strings.Trim] are
    modelled on bytes; the functions of the standard library whose result
    depends on the platform or on its tables, and the state of the disk, are
    parameters ([GoLib], [Disk]).  The storage capabilities are interfaces
    ([Client], [PutUploader]) whose methods return the capability after the
    call; every call is recorded, with its answer, in a log of calls. *)

From Stdlib Require Import ZArith Ascii String List Lia.
From stdpp Require Import base list strings gmap.

Local Open Scope Z_scope.

(* ===================================================================== *)
(** * Part I: definitions                                                 *)
(* ===================================================================== *)

(** ** Bytes of a Go string *)

Abbreviation bytes := list_ascii_of_string.
Abbreviation str := string_of_list_ascii.

(** ** Package [strings] *)

Module GoStrings.

(** [asciiSpace] of strings.go: the ASCII bytes that are white space. *)
Definition asciiSpace : list ascii :=
  ["009"; "010"; "011"; "012"; "013"; " "]%char.

(** The other runes of [unicode.White_Space], as their UTF-8 encodings:
    U+0085, U+00A0, U+1680, U+2000..U+200A, U+2028, U+2029, U+202F,
    U+205F, U+3000. *)
Definition unicodeSpace : list (list ascii) :=
  [ ["194"; "133"]; ["194"; "160"];
    ["225"; "154"; "128"];
    ["226"; "128"; "128"]; ["226"; "128"; "129"]; ["226"; "128"; "130"];
    ["226"; "128"; "131"]; ["226"; "128"; "132"]; ["226"; "128"; "133"];
    ["226"; "128"; "134"]; ["226"; "128"; "135"]; ["226"; "128"; "136"];
    ["226"; "128"; "137"]; ["226"; "128"; "138"];
    ["226"; "128"; "168"]; ["226"; "128"; "169"]; ["226"; "128"; "175"];
    ["226"; "129"; "159"];
    ["227"; "128"; "128"] ]%char.

(** Every rune [r] with [unicode.IsSpace(r)], as a byte sequence. *)
Definition spaceRunes : list (list ascii) :=
  map (λ c, [c]) asciiSpace ++ unicodeSpace.

(** [stripPrefix tok bs]: the rest of [bs] after its prefix [tok]. *)
Fixpoint stripPrefix (tok bs : list ascii) : option (list ascii) :=
  match tok, bs with
  | [], _ => Some bs
  | c :: tok', b :: bs' =>
      if Ascii.eqb c b then stripPrefix tok' bs' else None
  | _ :: _, [] => None
  end.

(** The rest of [bs] after the first of [toks] it starts with. *)
Fixpoint stripAny (toks : list (list ascii)) (bs : list ascii)
  : option (list ascii) :=
  match toks with
  | [] => None
  | tok :: toks' =>
      match stripPrefix tok bs with
      | Some rest => Some rest
      | None => stripAny toks' bs
      end
  end.

(** The scanning loop of [TrimLeftFunc] / [trimLeftByte]: drop leading
    runes of [toks] while there is one.  One round per byte is enough. *)
Fixpoint trimLeftRunes (fuel : nat) (toks : list (list ascii))
  (bs : list ascii) : list ascii :=
  match fuel with
  | O => bs
  | S fuel' =>
      match stripAny toks bs with
      | Some rest => trimLeftRunes fuel' toks rest
      | None => bs
      end
  end.

Definition trimLeft (toks : list (list ascii)) (bs : list ascii) :=
  trimLeftRunes (length bs) toks bs.

(** [TrimRightFunc] / [trimRightByte] scan from the end backwards: the
    same loop on the reversed bytes with the reversed runes. *)
Definition trimRight (toks : list (list ascii)) (bs : list ascii) :=
  reverse (trimLeft (map reverse toks) (reverse bs)).

(** [strings.TrimSpace(s)] = [TrimRightFunc(TrimLeftFunc(s, IsSpace), IsSpace)]. *)
Definition TrimSpace (s : string) : string :=
  str (trimRight spaceRunes (trimLeft spaceRunes (bytes s))).

(** [strings.Trim(s, cutset)] for a cutset of ASCII bytes:
    [trimLeftASCII(trimRightASCII(s, cutset), cutset)]. *)
Definition cutsetRunes (cutset : string) : list (list ascii) :=
  map (λ c, [c]) (bytes cutset).

Definition Trim (s cutset : string) : string :=
  str (trimLeft (cutsetRunes cutset) (trimRight (cutsetRunes cutset) (bytes s))).

(** *** What trimming means *)

(** [Runs toks l]: [l] is a concatenation of runes of [toks]. *)
Inductive Runs (toks : list (list ascii)) : list ascii → Prop :=
| Runs_nil : Runs toks []
| Runs_cons tok l : tok ∈ toks → Runs toks l → Runs toks (tok ++ l).

(** [t] is [s] without a leading and a trailing run of [toks], and
    neither starts nor ends with one of them. *)
Definition IsTrimOf (toks : list (list ascii)) (s t : list ascii) : Prop :=
  ∃ l r, s = l ++ t ++ r ∧ Runs toks l ∧ Runs toks r
         ∧ (∀ tok, tok ∈ toks → ¬ tok `prefix_of` t)
         ∧ (∀ tok, tok ∈ toks → ¬ tok `suffix_of` t).

End GoStrings.

(** ** Key Builder *)

Definition normalizePrefix (prefix : string) : string :=
  let trimmed := GoStrings.TrimSpace prefix in
  GoStrings.Trim trimmed "/".

Definition joinKey (prefix rel : string) : string :=
  let rel := GoStrings.TrimSpace rel in
  let rel := GoStrings.Trim rel "/" in
  if decide (rel = "") then prefix
  else if decide (prefix = "") then rel
  else prefix +:+ "/" +:+ rel.

(** [*string]: [None] is the nil pointer. *)
Definition stringPointer (value : string) : option string :=
  if decide (GoStrings.TrimSpace value = "") then None else Some value.

(** ** Errors

    A Go [error] value: its message and the chain [errors.Unwrap] follows.
    [errorString] is an error without a cause ([errors.New], [fmt.Errorf]
    without [%w], errors of package [os]); [wrapError] is [fmt.Errorf] with
    [%w] (or any other wrapper with [Unwrap], such as
    [smithy.OperationError]); [NotFound] and [NoSuchKey] are the S3 error
    types [*s3types.NotFound] and [*s3types.NoSuchKey]; [GenericAPIError] is
    any other implementation of [smithy.APIError] with its [ErrorCode]. *)
Inductive error : Type :=
| errorString (msg : string)
| wrapError (msg : string) (err : error)
| NotFound (msg : string)
| NoSuchKey (msg : string)
| GenericAPIError (code msg : string).

#[global] Instance error_eq_dec : EqDecision error.
Proof. solve_decision. Defined.

(** [err.Error()] *)
Definition Error (e : error) : string :=
  match e with
  | errorString msg | wrapError msg _ | NotFound msg | NoSuchKey msg
  | GenericAPIError _ msg => msg
  end.

(** [fmt.Errorf(msg)] without a [%w] verb. *)
Definition Errorf (msg : string) : error := errorString msg.

(** [fmt.Errorf(msg + "%w", err)]: the message ends with the cause's. *)
Definition Errorf_w (msg : string) (err : error) : error :=
  wrapError (msg +:+ Error err) err.

(** [io.EOF] *)
Definition EOF : error := errorString "EOF".

(** [errors.Is(err, target)] along the [Unwrap] chain. *)
Fixpoint errorsIs (err target : error) : bool :=
  if decide (err = target) then true
  else match err with
       | wrapError _ inner => errorsIs inner target
       | _ => false
       end.

(** [errors.As(err, &nf)] for [nf *s3types.NotFound]. *)
Fixpoint asNotFound (err : error) : bool :=
  match err with
  | NotFound _ => true
  | wrapError _ inner => asNotFound inner
  | _ => false
  end.

(** [errors.As(err, &ns)] for [ns *s3types.NoSuchKey]. *)
Fixpoint asNoSuchKey (err : error) : bool :=
  match err with
  | NoSuchKey _ => true
  | wrapError _ inner => asNoSuchKey inner
  | _ => false
  end.

(** [errors.As(err, &apiErr)] for [apiErr smithy.APIError]: the
    [ErrorCode()] of the first error of the chain that implements it. *)
Fixpoint asAPIError (err : error) : option string :=
  match err with
  | errorString _ => None
  | wrapError _ inner => asAPIError inner
  | NotFound _ => Some "NotFound"
  | NoSuchKey _ => Some "NoSuchKey"
  | GenericAPIError code _ => Some code
  end.

(** A Go result [(value, error)] of which one side is set. *)
Inductive result (A : Type) : Type :=
| Ok (a : A)
| Err (e : error).
Arguments Ok {A} a.
Arguments Err {A} e.

(** A Go slice: [None] is [nil]. *)
Definition slice (A : Type) : Type := option (list A).

Definition len {A} (s : slice A) : nat :=
  match s with Some l => length l | None => O end.

Definition elems {A} (s : slice A) : list A :=
  match s with Some l => l | None => [] end.

(** Go's [int] (64 bits): addition wraps around. *)
Definition wrapInt (z : Z) : Z := (z + 2 ^ 63) `mod` 2 ^ 64 - 2 ^ 63.
Definition int_add (a b : Z) : Z := wrapInt (a + b).

(** [aws.ToString] *)
Definition ToString (p : option string) : string := default "" p.

(** ** Data model *)

Module FilePlan.
Record t := mk { Source : string; Key : string; Size : Z }.
End FilePlan.

Module UploadResult.
Record t := mk { Source : string; Key : string; Size : Z; ETag : string }.
End UploadResult.

(** ** The standard library and the disk *)

(** Library functions whose result depends on the platform or on tables of
    the installation.  [Rel] is [filepath.Rel], the others carry the name
    they have in [strings], [filepath], [mime] and [net/http]. *)
Class GoLib := {
  ToLower : string → string;
  Clean : string → string;
  Base : string → string;
  Ext : string → string;
  ToSlash : string → string;
  Rel : string → string → result string;
  TypeByExtension : string → string;
  DetectContentType : list ascii → string
}.

Module FileInfo.
Record t := mk { IsDir : bool; Size : Z }.
End FileInfo.

Module DirEntry.
(** [Info] is what [entry.Info()] returns. *)
Record t := mk { IsDir : bool; Info : result FileInfo.t }.
End DirEntry.

(** One call of [filepath.WalkDir] to its function argument. *)
Module Visit.
Record t := mk { current : string; entry : DirEntry.t; walkErr : option error }.
End Visit.

(** What [os.Open] finds at a path: the bytes of the file, and the error
    its [Read] or [Seek] would fail with. *)
Module FileData.
Record t := mk { content : list ascii; readFault : option error;
                 seekFault : option error }.
End FileData.

(** The state of the disk during one call.  [Walk root] lists the calls
    [filepath.WalkDir(root, fn)] makes to [fn], in order, for as long as
    [fn] returns nil. *)
Record Disk := {
  Stat : string → result FileInfo.t;
  Walk : string → list Visit.t;
  Lookup : string → result FileData.t
}.

(** [filepath.WalkDir(root, fn)] for an [fn] that returns nil or an error
    other than [SkipDir] and [SkipAll]: the walk stops at the first error
    and returns it.  [fn] works on a state [St]. *)
Fixpoint walkVisits {St : Type}
  (fn : string → DirEntry.t → option error → St → St * option error)
  (visits : list Visit.t) (st : St) : St * option error :=
  match visits with
  | [] => (st, None)
  | v :: visits' =>
      match fn (Visit.current v) (Visit.entry v) (Visit.walkErr v) st with
      | (st', Some err) => (st', Some err)
      | (st', None) => walkVisits fn visits' st'
      end
  end.

Definition WalkDir {St : Type} (disk : Disk) (root : string)
  (fn : string → DirEntry.t → option error → St → St * option error)
  (st : St) : St * option error :=
  walkVisits fn (Walk disk root) st.

(** [*os.File]: an open file and its read position. *)
Module File.
Record t := mk { name : string; file : FileData.t; pos : nat }.

(** The bytes a reader gets from the handle, from its position on. *)
Definition unread (f : t) : list ascii := drop (pos f) (FileData.content (file f)).

(** [n, err := f.Read(buffer)] with [len(buffer) = size]; the result is
    [buffer[:n]], the error and the handle after the read. *)
Definition Read (f : t) (size : nat) : list ascii * option error * t :=
  match FileData.readFault (file f) with
  | Some err => ([], Some err, f)
  | None =>
      let chunk := take size (unread f) in
      match chunk with
      | [] => ([], Some EOF, f)
      | _ => (chunk, None, mk (name f) (file f) (pos f + length chunk))
      end
  end.

(** [f.Seek(0, io.SeekStart)] *)
Definition SeekStart (f : t) : result t :=
  match FileData.seekFault (file f) with
  | Some err => Err err
  | None => Ok (mk (name f) (file f) 0)
  end.
End File.

(** [os.Open(path)] *)
Definition Open (disk : Disk) (path : string) : result File.t :=
  match Lookup disk path with
  | Err err => Err err
  | Ok d => Ok (File.mk path d 0)
  end.

(** ** Plan Builder *)

Section PlanBuilder.
Context {lib : GoLib} (disk : Disk).

(** The plans so far and the keys already assigned. *)
Definition PlanState : Type := list FilePlan.t * gset string.

(** The function literal passed to [filepath.WalkDir]. *)
Definition walkFn (basePrefix root : string) (current : string)
  (entry : DirEntry.t) (walkErr : option error) (st : PlanState)
  : PlanState * option error :=
  let '(plans, seen) := st in
  match walkErr with
  | Some err =>
      (st, Some (Errorf_w ("failed to traverse " +:+ current +:+ ": ") err))
  | None =>
      if DirEntry.IsDir entry then (st, None)
      else
        match DirEntry.Info entry with
        | Err err =>
            (st, Some (Errorf_w ("failed to inspect " +:+ current +:+ ": ") err))
        | Ok fi =>
            match Rel root current with
            | Err err =>
                (st, Some (Errorf_w ("failed to determine relative path for "
                                     +:+ current +:+ ": ") err))
            | Ok rel =>
                let key := joinKey basePrefix (ToSlash rel) in
                if decide (key ∈ seen)
                then (st, Some (Errorf ("duplicate object key detected: " +:+ key)))
                else ((plans ++ [FilePlan.mk current key (FileInfo.Size fi)],
                       {[key]} ∪ seen), None)
            end
        end
  end.

(** The loop over [paths]. *)
Fixpoint buildLoop (basePrefix : string) (paths : list string) (st : PlanState)
  : slice FilePlan.t * option error :=
  match paths with
  | [] => (Some (fst st), None)
  | candidate :: paths' =>
      let path := GoStrings.TrimSpace candidate in
      if decide (path = "")
      then (None, Some (Errorf "encountered empty source path entry"))
      else
        match Stat disk path with
        | Err err =>
            (None, Some (Errorf_w ("failed to stat " +:+ path +:+ ": ") err))
        | Ok info =>
            if FileInfo.IsDir info then
              let root := Clean path in
              match WalkDir disk root (walkFn basePrefix root) st with
              | (_, Some err) => (None, Some err)
              | (st', None) => buildLoop basePrefix paths' st'
              end
            else
              let key := joinKey basePrefix (ToSlash (Base path)) in
              if decide (key ∈ snd st)
              then (None, Some (Errorf ("duplicate object key detected: " +:+ key)))
              else buildLoop basePrefix paths'
                     (fst st ++ [FilePlan.mk path key (FileInfo.Size info)],
                      {[key]} ∪ snd st)
        end
  end.

Definition BuildPlans (paths : list string) (prefix : string)
  : slice FilePlan.t * option error :=
  if decide (length paths = O)
  then (None, Some (Errorf "at least one source path must be specified"))
  else
    let basePrefix := normalizePrefix prefix in
    buildLoop basePrefix paths ([], ∅).

(** *** The entries of a call, in traversal order *)

(** What the traversal finds at one place: a file that resolves to a plan,
    a directory (no plan), or a failure of the disk. *)
Inductive Entry : Type :=
| Resolved (plan : FilePlan.t)
| Skipped
| Failed (err : error).

Definition visitEntry (basePrefix root : string) (v : Visit.t) : Entry :=
  match Visit.walkErr v with
  | Some err =>
      Failed (Errorf_w ("failed to traverse " +:+ Visit.current v +:+ ": ") err)
  | None =>
      if DirEntry.IsDir (Visit.entry v) then Skipped
      else
        match DirEntry.Info (Visit.entry v) with
        | Err err =>
            Failed (Errorf_w ("failed to inspect " +:+ Visit.current v +:+ ": ") err)
        | Ok fi =>
            match Rel root (Visit.current v) with
            | Err err =>
                Failed (Errorf_w ("failed to determine relative path for "
                                  +:+ Visit.current v +:+ ": ") err)
            | Ok rel =>
                Resolved (FilePlan.mk (Visit.current v)
                            (joinKey basePrefix (ToSlash rel)) (FileInfo.Size fi))
            end
        end
  end.

Definition pathEntries (basePrefix candidate : string) : list Entry :=
  let path := GoStrings.TrimSpace candidate in
  if decide (path = "")
  then [Failed (Errorf "encountered empty source path entry")]
  else
    match Stat disk path with
    | Err err => [Failed (Errorf_w ("failed to stat " +:+ path +:+ ": ") err)]
    | Ok info =>
        if FileInfo.IsDir info
        then map (visitEntry basePrefix (Clean path)) (Walk disk (Clean path))
        else [Resolved (FilePlan.mk path (joinKey basePrefix (ToSlash (Base path)))
                          (FileInfo.Size info))]
    end.

(** All entries of all input paths, in the order given. *)
Definition traversal (paths : list string) (prefix : string) : list Entry :=
  flat_map (pathEntries (normalizePrefix prefix)) paths.

Definition isFailed (e : Entry) : bool :=
  match e with Failed _ => true | _ => false end.

(** The plans among the entries. *)
Definition resolved (es : list Entry) : list FilePlan.t :=
  omap (λ e, match e with Resolved p => Some p | _ => None end) es.

(** The entries read in order, with the duplicate check of [BuildPlans]:
    the state after the last entry, or the first error. *)
Fixpoint scanEntries (es : list Entry) (st : PlanState) : PlanState * option error :=
  match es with
  | [] => (st, None)
  | Failed err :: _ => (st, Some err)
  | Skipped :: es' => scanEntries es' st
  | Resolved p :: es' =>
      if decide (FilePlan.Key p ∈ snd st)
      then (st, Some (Errorf ("duplicate object key detected: " +:+ FilePlan.Key p)))
      else scanEntries es' (fst st ++ [p], {[FilePlan.Key p]} ∪ snd st)
  end.

End PlanBuilder.

(** ** The storage capabilities *)

(** The request and response structures of the S3 SDK, with the fields the
    uploader sets or reads.  A [*string] is an [option string]. *)

Module HeadObjectInput.
Record t := mk { Bucket : option string; Key : option string }.
End HeadObjectInput.

Module HeadObjectOutput.
Record t := mk { }.
End HeadObjectOutput.

Module ListObjectsV2Input.
Record t := mk { Bucket : option string; Prefix : option string;
                 ContinuationToken : option string }.
End ListObjectsV2Input.

Module Object.
Record t := mk { Key : option string }.
End Object.

Module ListObjectsV2Output.
Record t := mk { Contents : list Object.t;
                 NextContinuationToken : option string }.
End ListObjectsV2Output.

Module ObjectIdentifier.
Record t := mk { Key : option string }.
End ObjectIdentifier.

Module Delete.
Record t := mk { Objects : list ObjectIdentifier.t; Quiet : option bool }.
End Delete.

Module DeleteObjectsInput.
Record t := mk { Bucket : option string; Delete : option Delete.t }.
End DeleteObjectsInput.

Module DeleteObjectsOutput.
Record t := mk { }.
End DeleteObjectsOutput.

Module PutObjectInput.
Record t := mk { Bucket : option string; Key : option string; Body : File.t;
                 ContentType : option string }.
End PutObjectInput.

Module UploadOutput.
Record t := mk { ETag : option string }.
End UploadOutput.

(** [Client]: the subset of S3 methods required by [Transport].  A method
    returns its result and the client after the call. *)
Class Client (C : Type) := {
  HeadObject : C → HeadObjectInput.t → result HeadObjectOutput.t * C;
  ListObjectsV2 : C → ListObjectsV2Input.t → result ListObjectsV2Output.t * C;
  DeleteObjects : C → DeleteObjectsInput.t → result DeleteObjectsOutput.t * C
}.

(** [PutUploader]: its method [Upload]. *)
Class PutUploader (U : Type) := {
  PutUpload : U → PutObjectInput.t → result UploadOutput.t * U
}.

(** The calls made to the capabilities and to the disk, with what they
    returned: the record against which the order of calls is stated. *)
Inductive Call : Type :=
| CallHeadObject (input : HeadObjectInput.t) (err : option error)
| CallListObjectsV2 (input : ListObjectsV2Input.t) (out : result ListObjectsV2Output.t)
| CallDeleteObjects (input : DeleteObjectsInput.t) (err : option error)
| CallUpload (input : PutObjectInput.t) (out : result UploadOutput.t)
| CallOpen (path : string)
| CallClose (path : string).

Definition errOf {A} (r : result A) : option error :=
  match r with Ok _ => None | Err err => Some err end.

(** [isNotFound(err)]; [None] is the nil error. *)
Definition isNotFound {lib : GoLib} (err : option error) : bool :=
  match err with
  | None => false
  | Some err =>
      if asNotFound err then true
      else if asNoSuchKey err then true
      else
        match asAPIError err with
        | Some code =>
            bool_decide (ToLower code ∈ ["notfound"; "nosuchkey"; "404"; "no such key"])
        | None => false
        end
  end.

(** [detectContentType(path, file)]: the content type and the handle after
    the call. *)
Definition detectContentType {lib : GoLib} (path : string) (file : File.t)
  : string * File.t :=
  let ext := ToLower (Ext path) in
  if decide (ext ≠ "" ∧ TypeByExtension ext ≠ "")
  then (TypeByExtension ext, file)
  else
    let '(buffer, err, file) := File.Read file 512 in
    match err with
    | Some e => if errorsIs e EOF then (DetectContentType buffer, file) else ("", file)
    | None => (DetectContentType buffer, file)
    end.

Module Transport.
Section WithCapabilities.
Context {C U : Type} {client_ops : Client C} {uploader_ops : PutUploader U}.
Context {lib : GoLib} (disk : Disk).

Record t := mk { client : C; uploader : U; bucket : string; overwrite : bool }.

(** The transport together with the calls made so far. *)
Definition State : Type := t * list Call.

Definition headObject (input : HeadObjectInput.t) (st : State)
  : option error * State :=
  let '(tr, calls) := st in
  let '(out, c) := HeadObject (client tr) input in
  (errOf out, (mk c (uploader tr) (bucket tr) (overwrite tr),
               calls ++ [CallHeadObject input (errOf out)])).

Definition listObjectsV2 (input : ListObjectsV2Input.t) (st : State)
  : result ListObjectsV2Output.t * State :=
  let '(tr, calls) := st in
  let '(out, c) := ListObjectsV2 (client tr) input in
  (out, (mk c (uploader tr) (bucket tr) (overwrite tr),
         calls ++ [CallListObjectsV2 input out])).

Definition deleteObjects (input : DeleteObjectsInput.t) (st : State)
  : option error * State :=
  let '(tr, calls) := st in
  let '(out, c) := DeleteObjects (client tr) input in
  (errOf out, (mk c (uploader tr) (bucket tr) (overwrite tr),
               calls ++ [CallDeleteObjects input (errOf out)])).

Definition putUpload (input : PutObjectInput.t) (st : State)
  : result UploadOutput.t * State :=
  let '(tr, calls) := st in
  let '(out, u) := PutUpload (uploader tr) input in
  (out, (mk (client tr) u (bucket tr) (overwrite tr),
         calls ++ [CallUpload input out])).

Definition logCall (c : Call) (st : State) : State := (fst st, snd st ++ [c]).

(** *** Cleanup *)

(** The prefix [Cleanup] lists under. *)
Definition resolvePrefix (prefix : string) : string :=
  let resolved := normalizePrefix prefix in
  if decide (resolved ≠ "") then resolved +:+ "/" else resolved.

(** How one round of the loop of [Cleanup] ends: with a [return], or at the
    end of the body (or at [continue]) with the next cursor. *)
Inductive Round : Type :=
| Return (total : Z) (err : option error)
| Next (total : Z) (token : option string).

(** The body of the loop. *)
Definition cleanupRound (resolved : string) (total : Z) (token : option string)
  (st : State) : Round * State :=
  let '(out, st) :=
    listObjectsV2 (ListObjectsV2Input.mk (Some (bucket (fst st)))
                     (stringPointer resolved) token) st in
  match out with
  | Err err =>
      (Return total (Some (Errorf_w "failed to list objects for cleanup: " err)), st)
  | Ok response =>
      if decide (length (ListObjectsV2Output.Contents response) = O) then
        match ListObjectsV2Output.NextContinuationToken response with
        | None => (Return total None, st)
        | Some tok => (Next total (Some tok), st)
        end
      else
        let batch :=
          map (λ obj, ObjectIdentifier.mk (Object.Key obj))
              (ListObjectsV2Output.Contents response) in
        let '(err, st) :=
          deleteObjects (DeleteObjectsInput.mk (Some (bucket (fst st)))
                           (Some (Delete.mk batch (Some true)))) st in
        match err with
        | Some err => (Return total (Some (Errorf_w "failed to delete objects: " err)), st)
        | None =>
            let total := int_add total (Z.of_nat (length batch)) in
            match ListObjectsV2Output.NextContinuationToken response with
            | None => (Return total None, st)
            | Some tok => (Next total (Some tok), st)
            end
        end
  end.

(** Where the loop is after some rounds: it has returned, or it is about to
    start another round. *)
Inductive Outcome : Type :=
| Returned (total : Z) (err : option error) (st : State)
| Running (total : Z) (token : option string) (st : State).

(** The loop [for { ... }], run for at most [fuel] rounds. *)
Fixpoint cleanupLoop (fuel : nat) (resolved : string) (total : Z)
  (token : option string) (st : State) : Outcome :=
  match fuel with
  | O => Running total token st
  | S fuel' =>
      match cleanupRound resolved total token st with
      | (Return total err, st') => Returned total err st'
      | (Next total token, st') => cleanupLoop fuel' resolved total token st'
      end
  end.

Definition Cleanup (fuel : nat) (prefix : string) (st : State) : Outcome :=
  cleanupLoop fuel (resolvePrefix prefix) 0 None st.

Definition stateOf (o : Outcome) : State :=
  match o with Returned _ _ st | Running _ _ st => st end.

(** *** Upload *)

Definition ensureAbsent (key : string) (st : State) : option error * State :=
  let '(err, st) :=
    headObject (HeadObjectInput.mk (Some (bucket (fst st))) (Some key)) st in
  match err with
  | None =>
      (Some (Errorf ("object " +:+ key +:+ " already exists and overwrite is disabled")),
       st)
  | Some e =>
      if isNotFound (Some e) then (None, st)
      else (Some (Errorf_w ("failed to check if " +:+ key +:+ " exists: ") e), st)
  end.

(** From [os.Open] to the end of the body of the loop of [Upload]. *)
Definition transfer (plan : FilePlan.t) (st : State)
  : result UploadResult.t * State :=
  match Open disk (FilePlan.Source plan) with
  | Err err =>
      (Err (Errorf_w ("failed to open " +:+ FilePlan.Source plan +:+ ": ") err), st)
  | Ok file =>
      let st := logCall (CallOpen (FilePlan.Source plan)) st in
      let '(contentType, file) := detectContentType (FilePlan.Source plan) file in
      match File.SeekStart file with
      | Err err =>
          let st := logCall (CallClose (FilePlan.Source plan)) st in
          (Err (Errorf_w ("failed to rewind " +:+ FilePlan.Source plan +:+ ": ") err), st)
      | Ok file =>
          let '(output, st) :=
            putUpload (PutObjectInput.mk (Some (bucket (fst st)))
                         (Some (FilePlan.Key plan)) file
                         (stringPointer contentType)) st in
          let st := logCall (CallClose (FilePlan.Source plan)) st in
          match output with
          | Err err =>
              (Err (Errorf_w ("failed to upload " +:+ FilePlan.Source plan +:+ " to "
                              +:+ FilePlan.Key plan +:+ ": ") err), st)
          | Ok output =>
              (Ok (UploadResult.mk (FilePlan.Source plan) (FilePlan.Key plan)
                     (FilePlan.Size plan) (ToString (UploadOutput.ETag output))), st)
          end
      end
  end.

(** The body of the loop of [Upload] for one plan. *)
Definition uploadPlan (plan : FilePlan.t) (st : State)
  : result UploadResult.t * State :=
  if negb (overwrite (fst st)) then
    match ensureAbsent (FilePlan.Key plan) st with
    | (Some err, st) => (Err err, st)
    | (None, st) => transfer plan st
    end
  else transfer plan st.

Fixpoint uploadLoop (plans : list FilePlan.t) (results : list UploadResult.t)
  (st : State) : slice UploadResult.t * option error * State :=
  match plans with
  | [] => (Some results, None, st)
  | plan :: plans' =>
      match uploadPlan plan st with
      | (Err err, st) => (None, Some err, st)
      | (Ok r, st) => uploadLoop plans' (results ++ [r]) st
      end
  end.

Definition Upload (plans : slice FilePlan.t) (st : State)
  : slice UploadResult.t * option error * State :=
  if decide (len plans = O)
  then (None, Some (Errorf "no files provided for upload"), st)
  else uploadLoop (elems plans) [] st.

End WithCapabilities.
End Transport.

(** ** The steps of the Cleanup Engine, as a set of call sequences *)

(** How a sequence of rounds ends: the call returned the count and an
    optional error, or the next round would start from a cursor. *)
Inductive Ending : Type :=
| Finished (count : Z) (err : option error)
| Unfinished (count : Z) (cursor : option string).

Definition endingOf {C U : Type} (o : Transport.Outcome (C := C) (U := U)) : Ending :=
  match o with
  | Transport.Returned total err _ => Finished total err
  | Transport.Running total token _ => Unfinished total token
  end.

(** The listing request for a cursor, and the quiet batch-delete request
    that names every key of a page. *)
Definition listRequest (bucket : string) (scope cursor : option string)
  : ListObjectsV2Input.t :=
  ListObjectsV2Input.mk (Some bucket) scope cursor.

Definition deleteRequest (bucket : string) (page : ListObjectsV2Output.t)
  : DeleteObjectsInput.t :=
  DeleteObjectsInput.mk (Some bucket)
    (Some (Delete.mk (map (λ obj, ObjectIdentifier.mk (Object.Key obj))
                          (ListObjectsV2Output.Contents page))
                     (Some true))).

Definition pageSize (page : ListObjectsV2Output.t) : Z :=
  Z.of_nat (length (ListObjectsV2Output.Contents page)).

(** [CleanupSteps bucket scope cursor count calls ending]: from a cursor and
    a count, the calls [calls] are rounds of the algorithm of the Cleanup
    Engine and lead to [ending]. *)
Inductive CleanupSteps (bucket : string) (scope : option string)
  : option string → Z → list Call → Ending → Prop :=
| steps_unfinished cursor count :
    CleanupSteps bucket scope cursor count [] (Unfinished count cursor)
| steps_list_fails cursor count cause :
    CleanupSteps bucket scope cursor count
      [CallListObjectsV2 (listRequest bucket scope cursor) (Err cause)]
      (Finished count (Some (Errorf_w "failed to list objects for cleanup: " cause)))
| steps_empty_last cursor count page :
    ListObjectsV2Output.Contents page = [] →
    ListObjectsV2Output.NextContinuationToken page = None →
    CleanupSteps bucket scope cursor count
      [CallListObjectsV2 (listRequest bucket scope cursor) (Ok page)]
      (Finished count None)
| steps_empty_more cursor count page next calls ending :
    ListObjectsV2Output.Contents page = [] →
    ListObjectsV2Output.NextContinuationToken page = Some next →
    CleanupSteps bucket scope (Some next) count calls ending →
    CleanupSteps bucket scope cursor count
      (CallListObjectsV2 (listRequest bucket scope cursor) (Ok page) :: calls)
      ending
| steps_delete_fails cursor count page cause :
    ListObjectsV2Output.Contents page ≠ [] →
    CleanupSteps bucket scope cursor count
      [CallListObjectsV2 (listRequest bucket scope cursor) (Ok page);
       CallDeleteObjects (deleteRequest bucket page) (Some cause)]
      (Finished count (Some (Errorf_w "failed to delete objects: " cause)))
| steps_delete_last cursor count page :
    ListObjectsV2Output.Contents page ≠ [] →
    ListObjectsV2Output.NextContinuationToken page = None →
    CleanupSteps bucket scope cursor count
      [CallListObjectsV2 (listRequest bucket scope cursor) (Ok page);
       CallDeleteObjects (deleteRequest bucket page) None]
      (Finished (int_add count (pageSize page)) None)
| steps_delete_more cursor count page next calls ending :
    ListObjectsV2Output.Contents page ≠ [] →
    ListObjectsV2Output.NextContinuationToken page = Some next →
    CleanupSteps bucket scope (Some next) (int_add count (pageSize page)) calls ending →
    CleanupSteps bucket scope cursor count
      (CallListObjectsV2 (listRequest bucket scope cursor) (Ok page)
       :: CallDeleteObjects (deleteRequest bucket page) None :: calls)
      ending.

(** The number of objects named by the batch-delete requests of [calls]
    that succeeded. *)
Fixpoint deletedCount (calls : list Call) : Z :=
  match calls with
  | [] => 0
  | CallDeleteObjects input None :: calls' =>
      Z.of_nat (length (default [] (Delete.Objects <$> DeleteObjectsInput.Delete input)))
      + deletedCount calls'
  | _ :: calls' => deletedCount calls'
  end.

(** A call that failed. *)
Definition callFailed (c : Call) : bool :=
  match c with
  | CallHeadObject _ (Some _) | CallListObjectsV2 _ (Err _)
  | CallDeleteObjects _ (Some _) | CallUpload _ (Err _) => true
  | _ => false
  end.


(** A key is under a listing scope: any key when there is no scope, a key
    that starts with the scope otherwise. *)
Definition underScope (scope : option string) (key : option string) : Prop :=
  match scope with
  | None => True
  | Some p => ∃ k, key = Some k ∧ bytes p `prefix_of` bytes k
  end.

Definition countOf (e : Ending) : Z :=
  match e with Finished count _ | Unfinished count _ => count end.

(** A listing that succeeded returned only keys under the prefix it was
    asked for. *)
Definition honoursPrefix (c : Call) : Prop :=
  match c with
  | CallListObjectsV2 input (Ok page) =>
      Forall (underScope (ListObjectsV2Input.Prefix input))
             (map Object.Key (ListObjectsV2Output.Contents page))
  | _ => True
  end.

(** The error [Cleanup] returns for a call that failed. *)
Definition cleanupFailure (c : Call) : option error :=
  match c with
  | CallListObjectsV2 _ (Err cause) =>
      Some (Errorf_w "failed to list objects for cleanup: " cause)
  | CallDeleteObjects _ (Some cause) =>
      Some (Errorf_w "failed to delete objects: " cause)
  | _ => None
  end.

(** The keys a call names for deletion, and the keys a call lists. *)
Definition deletedKeys (c : Call) : list (option string) :=
  match c with
  | CallDeleteObjects input _ =>
      map ObjectIdentifier.Key
          (default [] (Delete.Objects <$> DeleteObjectsInput.Delete input))
  | _ => []
  end.

Definition listedKeys (c : Call) : list (option string) :=
  match c with
  | CallListObjectsV2 _ (Ok page) => map Object.Key (ListObjectsV2Output.Contents page)
  | _ => []
  end.

(** The listing requests among the calls. *)
Definition listRequests (calls : list Call) : list ListObjectsV2Input.t :=
  omap (λ c, match c with CallListObjectsV2 input _ => Some input | _ => None end)
       calls.

(** *** The calls of a cleanup *)

(** A call that [Cleanup] may make on a bucket: a listing of the bucket, or
    a quiet batch-delete request on it. *)
Definition cleanupCall (bucket : string) (c : Call) : Prop :=
  match c with
  | CallListObjectsV2 input _ => ListObjectsV2Input.Bucket input = Some bucket
  | CallDeleteObjects input _ =>
      DeleteObjectsInput.Bucket input = Some bucket
      ∧ (Delete.Quiet <$> DeleteObjectsInput.Delete input) = Some (Some true)
  | _ => False
  end.

(** The pages that the listings of [calls] returned. *)
Definition listedPages (calls : list Call) : list ListObjectsV2Output.t :=
  omap (λ c, match c with CallListObjectsV2 _ (Ok page) => Some page | _ => None end)
       calls.

(** The pages of a script up to the first one without a cursor. *)
Fixpoint visitedPages (pages : list ListObjectsV2Output.t)
  : list ListObjectsV2Output.t :=
  match pages with
  | [] => []
  | page :: pages' =>
      page :: match ListObjectsV2Output.NextContinuationToken page with
              | None => []
              | Some _ => visitedPages pages'
              end
  end.

Definition totalSize (pages : list ListObjectsV2Output.t) : Z :=
  foldr (λ page n, pageSize page + n) 0 pages.

(** The batch-delete requests among the calls. *)
Definition deleteRequests (calls : list Call) : list DeleteObjectsInput.t :=
  omap (λ c, match c with CallDeleteObjects input _ => Some input | _ => None end)
       calls.

Definition nonEmptyPage (page : ListObjectsV2Output.t) : Prop :=
  length (ListObjectsV2Output.Contents page) ≠ O.

(** The backend serves the pages [pages], one per listing and in order, from
    the client [c] on, whatever is asked, and accepts every batch-delete
    request made in between. *)
Fixpoint servesPages {C : Type} {client_ops : Client C} (c : C)
  (pages : list ListObjectsV2Output.t) : Prop :=
  match pages with
  | [] => True
  | page :: pages' =>
      ∀ input,
        fst (ListObjectsV2 c input) = Ok page
        ∧ if decide (length (ListObjectsV2Output.Contents page) = O)
          then servesPages (snd (ListObjectsV2 c input)) pages'
          else ∀ deletion,
                 errOf (fst (DeleteObjects (snd (ListObjectsV2 c input)) deletion))
                 = None
                 ∧ servesPages
                     (snd (DeleteObjects (snd (ListObjectsV2 c input)) deletion))
                     pages'
  end.

(** The calls of the Cleanup Engine on a sequence of pages, from a cursor:
    for each page the listing from the cursor that the page before it
    returned and, when the page has objects, one quiet batch-delete request
    that names every key of the page. *)
Fixpoint stepsOfPages (bucket : string) (scope cursor : option string)
  (pages : list ListObjectsV2Output.t) : list Call :=
  match pages with
  | [] => []
  | page :: pages' =>
      CallListObjectsV2 (listRequest bucket scope cursor) (Ok page)
      :: (if decide (length (ListObjectsV2Output.Contents page) = O) then []
          else [CallDeleteObjects (deleteRequest bucket page) None])
      ++ stepsOfPages bucket scope
           (ListObjectsV2Output.NextContinuationToken page) pages'
  end.

(** ** The steps of the Transfer Engine, as a set of call sequences *)

(** How the body of the loop of [Upload] ends for one plan. *)
Inductive PlanOutcome : Type :=
| Uploaded (r : UploadResult.t)
| Aborted (err : error).

Definition outcomeOf (r : result UploadResult.t) : PlanOutcome :=
  match r with Ok r => Uploaded r | Err err => Aborted err end.

Section TransferSteps.
Context {lib : GoLib} (disk : Disk) (bucket : string) (overwrite : bool).

Definition probeRequest (plan : FilePlan.t) : HeadObjectInput.t :=
  HeadObjectInput.mk (Some bucket) (Some (FilePlan.Key plan)).

Definition putRequest (plan : FilePlan.t) (contentType : string) (body : File.t)
  : PutObjectInput.t :=
  PutObjectInput.mk (Some bucket) (Some (FilePlan.Key plan)) body
    (stringPointer contentType).

(** Steps 2 to 6 for a plan: open, detect the content type, rewind, put,
    close. *)
Inductive TransferSteps (plan : FilePlan.t) : list Call → PlanOutcome → Prop :=
| transfer_open_fails cause :
    Open disk (FilePlan.Source plan) = Err cause →
    TransferSteps plan []
      (Aborted (Errorf_w ("failed to open " +:+ FilePlan.Source plan +:+ ": ") cause))
| transfer_rewind_fails file cause :
    Open disk (FilePlan.Source plan) = Ok file →
    File.SeekStart (snd (detectContentType (FilePlan.Source plan) file)) = Err cause →
    TransferSteps plan
      [CallOpen (FilePlan.Source plan); CallClose (FilePlan.Source plan)]
      (Aborted (Errorf_w ("failed to rewind " +:+ FilePlan.Source plan +:+ ": ") cause))
| transfer_put_fails file body cause :
    Open disk (FilePlan.Source plan) = Ok file →
    File.SeekStart (snd (detectContentType (FilePlan.Source plan) file)) = Ok body →
    TransferSteps plan
      [CallOpen (FilePlan.Source plan);
       CallUpload
         (putRequest plan (fst (detectContentType (FilePlan.Source plan) file)) body)
         (Err cause);
       CallClose (FilePlan.Source plan)]
      (Aborted (Errorf_w ("failed to upload " +:+ FilePlan.Source plan +:+ " to "
                          +:+ FilePlan.Key plan +:+ ": ") cause))
| transfer_put_ok file body output :
    Open disk (FilePlan.Source plan) = Ok file →
    File.SeekStart (snd (detectContentType (FilePlan.Source plan) file)) = Ok body →
    TransferSteps plan
      [CallOpen (FilePlan.Source plan);
       CallUpload
         (putRequest plan (fst (detectContentType (FilePlan.Source plan) file)) body)
         (Ok output);
       CallClose (FilePlan.Source plan)]
      (Uploaded (UploadResult.mk (FilePlan.Source plan) (FilePlan.Key plan)
                   (FilePlan.Size plan) (ToString (UploadOutput.ETag output)))).

(** Step 1 and what follows it: the existence guard when overwrite is
    disabled, then the transfer. *)
Inductive PlanSteps (plan : FilePlan.t) : list Call → PlanOutcome → Prop :=
| plan_exists :
    overwrite = false →
    PlanSteps plan [CallHeadObject (probeRequest plan) None]
      (Aborted (Errorf ("object " +:+ FilePlan.Key plan
                        +:+ " already exists and overwrite is disabled")))
| plan_probe_fails cause :
    overwrite = false →
    isNotFound (Some cause) = false →
    PlanSteps plan [CallHeadObject (probeRequest plan) (Some cause)]
      (Aborted (Errorf_w ("failed to check if " +:+ FilePlan.Key plan +:+ " exists: ")
                  cause))
| plan_absent cause calls outcome :
    overwrite = false →
    isNotFound (Some cause) = true →
    TransferSteps plan calls outcome →
    PlanSteps plan (CallHeadObject (probeRequest plan) (Some cause) :: calls) outcome
| plan_overwrite calls outcome :
    overwrite = true →
    TransferSteps plan calls outcome →
    PlanSteps plan calls outcome.

(** [BatchSteps plans calls transferred err]: the plans are processed in
    order by the calls [calls]; [transferred] are the results of the plans
    that were uploaded, and [err] is the error of the plan that aborted the
    batch, if one did. *)
Inductive BatchSteps
  : list FilePlan.t → list Call → list UploadResult.t → option error → Prop :=
| batch_done : BatchSteps [] [] [] None
| batch_uploaded plan plans calls r calls' transferred err :
    PlanSteps plan calls (Uploaded r) →
    BatchSteps plans calls' transferred err →
    BatchSteps (plan :: plans) (calls ++ calls') (r :: transferred) err
| batch_aborted plan plans calls e :
    PlanSteps plan calls (Aborted e) →
    BatchSteps (plan :: plans) calls [] (Some e).

(** The order of probes and puts when overwrite is disabled.  [probed] is
    the key of the last probe that found its key absent, if no put followed
    it yet.  A put must be for the key just probed; a probe that found the
    key, or that failed otherwise, must be the last call. *)
Fixpoint guardedFrom (probed : option (option string)) (calls : list Call) : Prop :=
  match calls with
  | [] => True
  | CallHeadObject input err :: calls' =>
      if isNotFound err
      then guardedFrom (Some (HeadObjectInput.Key input)) calls'
      else calls' = []
  | CallUpload input _ :: calls' =>
      probed = Some (PutObjectInput.Key input) ∧ guardedFrom None calls'
  | _ :: calls' => guardedFrom probed calls'
  end.

End TransferSteps.

(** The error [Upload] returns for a probe that did not find its key
    absent. *)
Definition guardFailure {lib : GoLib} (c : Call) : option error :=
  match c with
  | CallHeadObject input None =>
      Some (Errorf ("object " +:+ ToString (HeadObjectInput.Key input)
                    +:+ " already exists and overwrite is disabled"))
  | CallHeadObject input (Some cause) =>
      if isNotFound (Some cause) then None
      else Some (Errorf_w ("failed to check if " +:+ ToString (HeadObjectInput.Key input)
                           +:+ " exists: ") cause)
  | _ => None
  end.

(** A put carries the planned key of one of the plans, its source file,
    read from the start, as the body (so that the bytes streamed are the whole
    content of the file), and the content type detected for it. *)
Definition faithfulPut {lib : GoLib} (disk : Disk) (plans : list FilePlan.t)
  (c : Call) : Prop :=
  match c with
  | CallUpload input _ =>
      ∃ plan data,
        plan ∈ plans
        ∧ Lookup disk (FilePlan.Source plan) = Ok data
        ∧ PutObjectInput.Key input = Some (FilePlan.Key plan)
        ∧ File.pos (PutObjectInput.Body input) = O
        ∧ File.unread (PutObjectInput.Body input) = FileData.content data
        ∧ PutObjectInput.ContentType input
          = stringPointer
              (fst (detectContentType (FilePlan.Source plan)
                      (File.mk (FilePlan.Source plan) data 0)))
  | _ => True
  end.

Definition isProbe (c : Call) : bool :=
  match c with CallHeadObject _ _ => true | _ => false end.

(** The keys of the puts that succeeded. *)
Definition uploadedKeys (calls : list Call) : list (option string) :=
  omap (λ c, match c with
             | CallUpload input (Ok _) => Some (PutObjectInput.Key input)
             | _ => None
             end) calls.

(** The put requests among the calls. *)
Definition putRequests (calls : list Call) : list PutObjectInput.t :=
  omap (λ c, match c with CallUpload input _ => Some input | _ => None end) calls.

(** *** The calls of an upload *)

(** The answers of the puts that succeeded. *)
Definition putOutputs (calls : list Call) : list UploadOutput.t :=
  omap (λ c, match c with CallUpload _ (Ok out) => Some out | _ => None end) calls.

(** The probes among the calls. *)
Definition probeRequests (calls : list Call) : list HeadObjectInput.t :=
  omap (λ c, match c with CallHeadObject input _ => Some input | _ => None end) calls.

(** A call of the Cleanup Engine. *)
Definition isCleanupCall (c : Call) : bool :=
  match c with
  | CallListObjectsV2 _ _ | CallDeleteObjects _ _ => true
  | _ => false
  end.

(** The use of file handles along the calls.  [handle] is the path of the
    file that is open, if one is.  A file is opened only when none is open, a
    put streams the file that is open, a close closes it, a probe is made
    while no file is open, and no file is left open at the end. *)
Fixpoint handlesFrom (handle : option string) (calls : list Call) : Prop :=
  match calls with
  | [] => handle = None
  | CallOpen path :: calls' => handle = None ∧ handlesFrom (Some path) calls'
  | CallClose path :: calls' => handle = Some path ∧ handlesFrom None calls'
  | CallUpload input _ :: calls' =>
      handle = Some (File.name (PutObjectInput.Body input))
      ∧ handlesFrom handle calls'
  | CallHeadObject _ _ :: calls' => handle = None ∧ handlesFrom handle calls'
  | _ :: calls' => handlesFrom handle calls'
  end.

(** A result carries the source, key and size of its plan. *)
Definition resultOfPlan (plan : FilePlan.t) (r : UploadResult.t) : Prop :=
  UploadResult.Source r = FilePlan.Source plan
  ∧ UploadResult.Key r = FilePlan.Key plan
  ∧ UploadResult.Size r = FilePlan.Size plan.


(** ** Configuration (internal/config/config.go) *)

Module Credentials.
Record t := mk { AccessKeyID : string; SecretAccessKey : string;
                 SessionToken : string }.
End Credentials.

(** [rawSettings]: the settings as decoded from the settings map.  A
    pointer field is an [option]; [TLS] is the pointer to the struct that
    holds the pointer [SkipVerify]. *)
Module rawSettings.
Record t := mk { Bucket : string; Region : string; ContextPath : string;
                 Sources : slice string; Cleanup : option bool;
                 Overwrite : option bool; Endpoint : string;
                 ForcePathStyle : option bool; Profile : string;
                 TLS : option (option bool);
                 Credentials : option Credentials.t }.
End rawSettings.

(** What the decoder of [mapstructure] makes of a settings map: it cannot
    be built, it fails on the map, or it fills a [rawSettings]. *)
Inductive Decoding : Type :=
| DecoderFailed (err : error)
| DecodeFailed (err : error)
| Decoded (raw : rawSettings.t).

Module Config.
Record t := mk { Bucket : string; Region : string; ContextPath : string;
                 Sources : slice string; Cleanup : bool; Overwrite : bool;
                 Endpoint : string; ForcePathStyle : bool; SkipTLSVerify : bool;
                 Profile : string; Credentials : Credentials.t;
                 LogLevel : string }.

Definition normalizeContextPath (value : string) : string :=
  let trimmed := GoStrings.TrimSpace value in
  GoStrings.Trim trimmed "/".

(** The loop of [normalizeSources]. *)
Fixpoint cleanSources (values : list string) (cleaned : list string) : list string :=
  match values with
  | [] => cleaned
  | candidate :: values' =>
      let trimmed := GoStrings.TrimSpace candidate in
      if decide (trimmed ≠ "") then cleanSources values' (cleaned ++ [trimmed])
      else cleanSources values' cleaned
  end.

Definition normalizeSources (values : slice string) : slice string :=
  if decide (len values = O) then None
  else
    let cleaned := cleanSources (elems values) [] in
    if decide (length cleaned = O) then None else Some cleaned.

(** [FromSettingsMap]; [decode] is the decoder of [mapstructure] with the
    configuration of [FromSettingsMap], and [None] is the nil map. *)
Definition FromSettingsMap {V : Type} (decode : V → Decoding) (values : option V)
  : option t * option error :=
  let cfg := mk "" "" "" None false true "" false false ""
                (Credentials.mk "" "" "") "" in
  match values with
  | None => (Some cfg, None)
  | Some values =>
      match decode values with
      | DecoderFailed err =>
          (None, Some (Errorf_w "failed to build settings decoder: " err))
      | DecodeFailed err =>
          (None, Some (Errorf_w "failed to decode plugin settings: " err))
      | Decoded raw =>
          (Some
             (mk (GoStrings.TrimSpace (rawSettings.Bucket raw))
                 (GoStrings.TrimSpace (rawSettings.Region raw))
                 (normalizeContextPath (rawSettings.ContextPath raw))
                 (normalizeSources (rawSettings.Sources raw))
                 (default false (rawSettings.Cleanup raw))
                 (default true (rawSettings.Overwrite raw))
                 (GoStrings.TrimSpace (rawSettings.Endpoint raw))
                 (default false (rawSettings.ForcePathStyle raw))
                 (match rawSettings.TLS raw with
                  | Some (Some skip) => skip
                  | _ => false
                  end)
                 (GoStrings.TrimSpace (rawSettings.Profile raw))
                 (match rawSettings.Credentials raw with
                  | Some c =>
                      Credentials.mk
                        (GoStrings.TrimSpace (Credentials.AccessKeyID c))
                        (GoStrings.TrimSpace (Credentials.SecretAccessKey c))
                        (GoStrings.TrimSpace (Credentials.SessionToken c))
                  | None => Credentials.mk "" "" ""
                  end)
                 ""),
           None)
      end
  end.

(** [Validate] *)
Definition Validate (c : t) : option error :=
  if decide (GoStrings.TrimSpace (Bucket c) = "")
  then Some (Errorf "bucket is required")
  else if SkipTLSVerify c && bool_decide (GoStrings.TrimSpace (Endpoint c) = "")
  then Some (Errorf "tls.skip_verify can only be enabled when a custom endpoint is configured")
  else None.

(** [Clone]: the sources are copied when there are any. *)
Definition Clone (c : t) : t :=
  mk (Bucket c) (Region c) (ContextPath c)
     (match Sources c with Some l => Some ([] ++ l) | None => None end)
     (Cleanup c) (Overwrite c) (Endpoint c) (ForcePathStyle c) (SkipTLSVerify c)
     (Profile c) (Credentials c) (LogLevel c).

(** A configuration as [FromSettingsMap] leaves it: the strings are trimmed,
    the context path has no ['/'] around it, and the sources are nil or a
    non-empty list of trimmed, non-empty paths. *)
Definition Normalized (c : t) : Prop :=
  GoStrings.TrimSpace (Bucket c) = Bucket c
  ∧ GoStrings.TrimSpace (Region c) = Region c
  ∧ GoStrings.TrimSpace (Endpoint c) = Endpoint c
  ∧ GoStrings.TrimSpace (Profile c) = Profile c
  ∧ ¬ ["/"%char] `prefix_of` bytes (ContextPath c)
  ∧ ¬ ["/"%char] `suffix_of` bytes (ContextPath c)
  ∧ match Sources c with
    | None => True
    | Some l => l ≠ [] ∧ Forall (λ s, s ≠ "" ∧ GoStrings.TrimSpace s = s) l
    end.

End Config.

(** ** The upload operation of the plugin (handleUpload) *)

(** [types.ExecutionResult] of the host, with the fields the plugin sets. *)
Module ExecutionResult.
Record t := mk { Stdout : string; Stderr : string; ExitCode : Z; Error : string }.
End ExecutionResult.

Module uploadSummary.
Record t := mk { Bucket : string; Region : string; ContextPath : string;
                 CleanupEnabled : bool; ObjectsRemoved : Z;
                 ObjectsUploaded : slice UploadResult.t }.
End uploadSummary.

(** The values of the flags of [handleUpload] after [fs.Parse], and the
    arguments left over ([fs.Args()]). *)
Module Flags.
Record t := mk { bucket : string; region : string; contextPath : string;
                 cleanup : bool; overwrite : bool; endpoint : string;
                 forcePathStyle : bool; skipTLSVerify : bool; profile : string;
                 args : list string }.
End Flags.

(** What [fs.Parse] makes of the arguments: an error, with the text written
    to the buffer of the flag set, or the values of the flags. *)
Inductive Parsed : Type :=
| ParseFailed (stderr : string) (err : error)
| ParseOk (flags : Flags.t).

(** [NewTransport] *)
Definition NewTransport {C U : Type} (client : C) (uploader : U) (bucket : string)
  (overwrite : bool) : Transport.t :=
  Transport.mk client uploader bucket overwrite.

Module Plugin.

Definition uploadUsage : string :=
"Usage: ds s3 upload [flags] <path> [path...]

Uploads one or more files/directories to an S3-compatible bucket.

Flags:
  --bucket <name>            Override target bucket (defaults to configuration)
  --region <name>            Override AWS region
  --context <prefix>         Set object prefix/context path
  --cleanup                  Remove existing objects before uploading
  --overwrite                Overwrite conflicting objects (default true)
  --endpoint <url>           Use a custom S3-compatible endpoint
  --force-path-style         Force path-style addressing
  --skip-tls-verify          Disable TLS verification (requires --endpoint)
  --profile <name>           Shared AWS profile to use
".

(** The first argument asks for help. *)
Definition asksHelp (args : list string) : bool :=
  match args with
  | [] => false
  | arg :: _ =>
      let first := GoStrings.TrimSpace arg in
      bool_decide (first = "-h" ∨ first = "--help" ∨ first = "help")
  end.

(** The source paths: the arguments left over or, without any, a copy of the
    sources of the configuration. *)
Definition sourcesOf (merged : Config.t) (flags : Flags.t) : list string :=
  let sources := Flags.args flags in
  if decide (length sources = O) then [] ++ elems (Config.Sources merged)
  else sources.

(** The copy of the base configuration with the flags written over it: a
    string flag when it is not empty, a boolean flag always (its default is
    the value of the base configuration). *)
Definition mergeFlags (baseCfg : Config.t) (flags : Flags.t) : Config.t :=
  let merged := Config.Clone baseCfg in
  Config.mk
    (if decide (Flags.bucket flags ≠ "") then Flags.bucket flags
     else Config.Bucket merged)
    (if decide (Flags.region flags ≠ "") then Flags.region flags
     else Config.Region merged)
    (if decide (Flags.contextPath flags ≠ "")
     then GoStrings.Trim (Flags.contextPath flags) "/"
     else Config.ContextPath merged)
    (Config.Sources merged)
    (Flags.cleanup flags) (Flags.overwrite flags)
    (if decide (Flags.endpoint flags ≠ "") then Flags.endpoint flags
     else Config.Endpoint merged)
    (Flags.forcePathStyle flags) (Flags.skipTLSVerify flags)
    (if decide (Flags.profile flags ≠ "") then Flags.profile flags
     else Config.Profile merged)
    (Config.Credentials merged) (Config.LogLevel merged).

(** A result with exit code 1 and an error message. *)
Definition failure (message : string) : ExecutionResult.t :=
  ExecutionResult.mk "" "" 1 message.

Section handleUpload.
Context {C U : Type} {client_ops : Client C} {uploader_ops : PutUploader U}.
Context {lib : GoLib} (disk : Disk).

(** The flag set of [handleUpload] on the arguments; the defaults of the
    boolean flags are taken from the base configuration. *)
Variable parse : Config.t → list string → Parsed.

(** [buildAWSConfig], [s3.NewFromConfig] and [manager.NewUploader]: the
    capabilities for a configuration, or the error of [buildAWSConfig]. *)
Variable connect : Config.t → result (C * U).

(** [json.MarshalIndent] on the summary. *)
Variable marshalIndent : uploadSummary.t → result string.

(** The result of [handleUpload] and, when it came to build one, the
    transport it used with the calls it made. *)
Record Run := mkRun { result : ExecutionResult.t;
                      transport : option (Transport.State (C := C) (U := U)) }.

(** [handleUpload] from [uploader.BuildPlans] on; [None] when the loop of
    [Cleanup] has not returned within [fuel] rounds. *)
Definition runTransfer (fuel : nat) (merged : Config.t) (sources : list string)
  (st : Transport.State) : option Run :=
  match BuildPlans disk sources (Config.ContextPath merged) with
  | (_, Some err) => Some (mkRun (failure (Error err)) (Some st))
  | (plans, None) =>
      let cleanup :=
        if Config.Cleanup merged
        then Transport.Cleanup fuel (Config.ContextPath merged) st
        else Transport.Returned 0 None st in
      match cleanup with
      | Transport.Running _ _ _ => None
      | Transport.Returned _ (Some err) st =>
          Some (mkRun (failure ("cleanup failed: " +:+ Error err)) (Some st))
      | Transport.Returned cleaned None st =>
          match Transport.Upload disk plans st with
          | (_, Some err, st) => Some (mkRun (failure (Error err)) (Some st))
          | (results, None, st) =>
              let summary :=
                uploadSummary.mk (Config.Bucket merged) (Config.Region merged)
                  (Config.ContextPath merged) (Config.Cleanup merged) cleaned
                  results in
              match marshalIndent summary with
              | Err err =>
                  Some (mkRun (failure ("failed to encode execution summary: "
                                        +:+ Error err))
                          (Some st))
              | Ok payload =>
                  Some (mkRun (ExecutionResult.mk (payload +:+ String "010" "")
                                 "" 0 "")
                          (Some st))
              end
          end
      end
  end.

(** [handleUpload] *)
Definition handleUpload (fuel : nat) (baseCfg : Config.t) (args : list string)
  : option Run :=
  if asksHelp args
  then Some (mkRun (ExecutionResult.mk uploadUsage "" 0 "") None)
  else
    match parse baseCfg args with
    | ParseFailed stderr err =>
        Some (mkRun (ExecutionResult.mk "" stderr 1 (Error err)) None)
    | ParseOk flags =>
        let merged := mergeFlags baseCfg flags in
        let sources := sourcesOf (Config.Clone baseCfg) flags in
        if decide (length sources = O)
        then
          Some (mkRun
                  (ExecutionResult.mk "" uploadUsage 1
                     (Error (Errorf "at least one source path is required (provide CLI paths or configure sources)")))
                  None)
        else
          match Config.Validate merged with
          | Some err => Some (mkRun (failure (Error err)) None)
          | None =>
              match connect merged with
              | Err err =>
                  Some (mkRun (failure ("failed to configure AWS SDK: " +:+ Error err))
                          None)
              | Ok (client, uploader) =>
                  let transfer :=
                    NewTransport client uploader (Config.Bucket merged)
                      (Config.Overwrite merged) in
                  runTransfer fuel merged sources (transfer, [])
              end
          end
    end.

End handleUpload.
End Plugin.

(** ** Test doubles (uploader_test.go) *)

(** [fakeClient] *)
Module fakeClient.
Record t := mk { headErr : option error; headCalls : list string;
                 listOutputs : list ListObjectsV2Output.t;
                 deleteInputs : list DeleteObjectsInput.t;
                 listCallIndex : nat }.

Definition HeadObject (f : t) (params : HeadObjectInput.t)
  : result HeadObjectOutput.t * t :=
  let f := mk (headErr f) (headCalls f ++ [ToString (HeadObjectInput.Key params)])
              (listOutputs f) (deleteInputs f) (listCallIndex f) in
  match headErr f with
  | Some err => (Err err, f)
  | None => (Ok HeadObjectOutput.mk, f)
  end.

Definition ListObjectsV2 (f : t) (params : ListObjectsV2Input.t)
  : result ListObjectsV2Output.t * t :=
  match listOutputs f !! listCallIndex f with
  | None => (Ok (ListObjectsV2Output.mk [] None), f)
  | Some out =>
      (Ok out, mk (headErr f) (headCalls f) (listOutputs f) (deleteInputs f)
                  (S (listCallIndex f)))
  end.

Definition DeleteObjects (f : t) (params : DeleteObjectsInput.t)
  : result DeleteObjectsOutput.t * t :=
  (Ok DeleteObjectsOutput.mk,
   mk (headErr f) (headCalls f) (listOutputs f) (deleteInputs f ++ [params])
      (listCallIndex f)).
End fakeClient.

#[global] Instance fakeClient_Client : Client fakeClient.t := {
  HeadObject := fakeClient.HeadObject;
  ListObjectsV2 := fakeClient.ListObjectsV2;
  DeleteObjects := fakeClient.DeleteObjects
}.

(** [stubUploader] *)
Module stubUploader.
Record t := mk { uploads : list PutObjectInput.t; err : option error }.

Definition Upload (s : t) (input : PutObjectInput.t) : result UploadOutput.t * t :=
  let s := mk (uploads s ++ [input]) (err s) in
  match err s with
  | Some e => (Err e, s)
  | None => (Ok (UploadOutput.mk (Some "etag")), s)
  end.
End stubUploader.

#[global] Instance stubUploader_PutUploader : PutUploader stubUploader.t := {
  PutUpload := stubUploader.Upload
}.

(** [stubAPIError{code}]: an API error whose code and message are [code]. *)
Definition stubAPIError (code : string) : error := GenericAPIError code code.

(** A client that answers from scripts, one reply per call, so that a
    listing, a deletion or a probe can fail at a chosen call.  Past the end
    of its script a call succeeds (with an empty last page for a listing). *)
Module scriptedClient.
Record t := mk { heads : list (option error);
                 lists : list (result ListObjectsV2Output.t);
                 deletes : list (option error) }.

Definition reply (err : option error) {A} (a : A) : result A :=
  match err with Some e => Err e | None => Ok a end.

Definition HeadObject (s : t) (params : HeadObjectInput.t)
  : result HeadObjectOutput.t * t :=
  match heads s with
  | [] => (Ok HeadObjectOutput.mk, s)
  | r :: rest => (reply r HeadObjectOutput.mk, mk rest (lists s) (deletes s))
  end.

Definition ListObjectsV2 (s : t) (params : ListObjectsV2Input.t)
  : result ListObjectsV2Output.t * t :=
  match lists s with
  | [] => (Ok (ListObjectsV2Output.mk [] None), s)
  | r :: rest => (r, mk (heads s) rest (deletes s))
  end.

Definition DeleteObjects (s : t) (params : DeleteObjectsInput.t)
  : result DeleteObjectsOutput.t * t :=
  match deletes s with
  | [] => (Ok DeleteObjectsOutput.mk, s)
  | r :: rest => (reply r DeleteObjectsOutput.mk, mk (heads s) (lists s) rest)
  end.
End scriptedClient.

#[global] Instance scriptedClient_Client : Client scriptedClient.t := {
  HeadObject := scriptedClient.HeadObject;
  ListObjectsV2 := scriptedClient.ListObjectsV2;
  DeleteObjects := scriptedClient.DeleteObjects
}.

(** A bucket in memory: the keys it holds.  A listing returns the keys
    under the requested prefix in one page; a deletion removes the keys it
    names; a probe finds a key or fails with [NotFound]. *)
Module memoryBucket.
Record t := mk { keys : list string }.

Definition hasPrefix (prefix : option string) (key : string) : bool :=
  match prefix with
  | None => true
  | Some p => bool_decide (bytes p `prefix_of` bytes key)
  end.

Definition HeadObject (b : t) (params : HeadObjectInput.t)
  : result HeadObjectOutput.t * t :=
  if bool_decide (ToString (HeadObjectInput.Key params) ∈ keys b)
  then (Ok HeadObjectOutput.mk, b)
  else (Err (NotFound "NotFound"), b).

Definition ListObjectsV2 (b : t) (params : ListObjectsV2Input.t)
  : result ListObjectsV2Output.t * t :=
  (Ok (ListObjectsV2Output.mk
         (map (λ k, Object.mk (Some k))
              (filter (λ k, hasPrefix (ListObjectsV2Input.Prefix params) k = true)
                      (keys b)))
         None), b).

Definition DeleteObjects (b : t) (params : DeleteObjectsInput.t)
  : result DeleteObjectsOutput.t * t :=
  let named :=
    map ObjectIdentifier.Key
        (default [] (Delete.Objects <$> DeleteObjectsInput.Delete params)) in
  (Ok DeleteObjectsOutput.mk, mk (filter (λ k, Some k ∉ named) (keys b))).
End memoryBucket.

#[global] Instance memoryBucket_Client : Client memoryBucket.t := {
  HeadObject := memoryBucket.HeadObject;
  ListObjectsV2 := memoryBucket.ListObjectsV2;
  DeleteObjects := memoryBucket.DeleteObjects
}.

(** ** A library and a disk for the examples *)

Module Unix.

(** [strings.ToLower] on ASCII letters. *)
Definition lowerByte (c : ascii) : ascii :=
  if (Ascii.leb "A" c && Ascii.leb c "Z")%bool
  then ascii_of_nat (nat_of_ascii c + 32) else c.

Definition ToLower (s : string) : string := str (map lowerByte (bytes s)).

(** The bytes after the last ['/'] of the reversed path [rs]. *)
Fixpoint lastElement (rs acc : list ascii) : list ascii :=
  match rs with
  | [] => acc
  | c :: rs' => if Ascii.eqb c "/" then acc else lastElement rs' (c :: acc)
  end.

(** [filepath.Base] with ['/'] as the separator. *)
Definition Base (path : string) : string :=
  if decide (path = "") then "."
  else
    let stripped := GoStrings.trimRight [["/"%char]] (bytes path) in
    match lastElement (reverse stripped) [] with
    | [] => "/"
    | name => str name
    end.

(** The scan of [filepath.Ext] from the end of the path. *)
Fixpoint extScan (rs acc : list ascii) : list ascii :=
  match rs with
  | [] => []
  | c :: rs' =>
      if Ascii.eqb c "/" then []
      else if Ascii.eqb c "." then c :: acc
      else extScan rs' (c :: acc)
  end.

Definition Ext (path : string) : string := str (extScan (reverse (bytes path)) []).

(** [filepath.Rel(root, current)] for a [current] that the walk of [root]
    reaches: [root] itself or [root + "/" + rel]. *)
Definition Rel (root current : string) : result string :=
  if decide (current = root) then Ok "."
  else
    match GoStrings.stripPrefix (bytes root ++ ["/"%char]) (bytes current) with
    | Some rel => Ok (str rel)
    | None => Err (errorString "Rel: can't make relative")
    end.

(** A small extension table. *)
Definition TypeByExtension (ext : string) : string :=
  if decide (ext = ".txt") then "text/plain; charset=utf-8"
  else if decide (ext = ".json") then "application/json"
  else "".

(** A stand-in for the sniffer of [net/http]. *)
Definition DetectContentType (data : list ascii) : string :=
  match data with
  | [] => "text/plain; charset=utf-8"
  | _ => "application/octet-stream"
  end.

(** Paths are taken to be clean already and to use ['/']. *)
Definition lib : GoLib :=
  Build_GoLib ToLower (λ path, path) Base Ext (λ path, path) Rel
    TypeByExtension DetectContentType.

(** A tree of files; the children of a directory are in the order
    [os.ReadDir] returns them (by name). *)
#[warnings="-register-all"]
Inductive Node : Type :=
| RegularFile (content : list ascii)
| Directory (children : list (string * Node)).

(** The walk of [filepath.WalkDir]: the node, then the trees of its
    children in order, each under [path + "/" + name]. *)
Fixpoint walkNode (path : string) (n : Node) : list (string * Node) :=
  (path, n) ::
  match n with
  | RegularFile _ => []
  | Directory children =>
      (fix walkChildren (cs : list (string * Node)) : list (string * Node) :=
         match cs with
         | [] => []
         | (name, child) :: cs' =>
             walkNode (path +:+ "/" +:+ name) child ++ walkChildren cs'
         end) children
  end.

Definition infoOf (n : Node) : FileInfo.t :=
  match n with
  | RegularFile content => FileInfo.mk false (Z.of_nat (length content))
  | Directory _ => FileInfo.mk true 4096
  end.

Definition visitOf (pn : string * Node) : Visit.t :=
  Visit.mk (fst pn)
    (DirEntry.mk (FileInfo.IsDir (infoOf (snd pn))) (Ok (infoOf (snd pn)))) None.

Fixpoint find (path : string) (all : list (string * Node)) : option Node :=
  match all with
  | [] => None
  | (p, n) :: all' => if decide (p = path) then Some n else find path all'
  end.

Definition ENOENT : error := errorString "no such file or directory".
Definition EISDIR : error := errorString "is a directory".

(** The disk that holds the trees [roots], each under its name. *)
Definition disk (roots : list (string * Node)) : Disk :=
  let all := flat_map (λ pn, walkNode (fst pn) (snd pn)) roots in
  {| Stat path :=
       match find path all with
       | Some n => Ok (infoOf n)
       | None => Err ENOENT
       end;
     Walk root :=
       match find root all with
       | Some n => map visitOf (walkNode root n)
       | None => [Visit.mk root (DirEntry.mk false (Err ENOENT)) (Some ENOENT)]
       end;
     Lookup path :=
       match find path all with
       | Some (RegularFile content) => Ok (FileData.mk content None None)
       | Some (Directory _) => Ok (FileData.mk [] (Some EISDIR) None)
       | None => Err ENOENT
       end |}.

End Unix.

(** A disk with a file, a directory tree with two files, and a directory
    tree without files. *)
Definition exampleDisk : Disk :=
  Unix.disk
    [ ("data.txt", Unix.RegularFile (bytes "one"));
      ("d", Unix.Directory
              [ ("data.txt", Unix.RegularFile (bytes "hello"));
                ("sub", Unix.Directory [("x.bin", Unix.RegularFile (bytes "xyz"))]) ]);
      ("empty", Unix.Directory [("inner", Unix.Directory [])]) ].

(** A transport on the test doubles, and three plans of which the second
    has no source file. *)
Definition exampleTransport (overwrite : bool)
  : Transport.State (C := fakeClient.t) (U := stubUploader.t) :=
  (Transport.mk (fakeClient.mk None [] [] [] O) (stubUploader.mk [] None)
     "bucket" overwrite, []).

Definition threePlans : list FilePlan.t :=
  [ FilePlan.mk "data.txt" "artifact/data.txt" 3;
    FilePlan.mk "missing.txt" "artifact/missing.txt" 1;
    FilePlan.mk "d/data.txt" "artifact/d/data.txt" 5 ].

(** *** A run of the plugin on the test doubles *)

(** The flag set on arguments of which the first is a path (it does not
    start with ['-']): no flag is set, and every argument is left over. *)
Definition parsePaths (baseCfg : Config.t) (args : list string) : Parsed :=
  ParseOk (Flags.mk "" "" "" (Config.Cleanup baseCfg) (Config.Overwrite baseCfg) ""
             (Config.ForcePathStyle baseCfg) (Config.SkipTLSVerify baseCfg) "" args).

(** The test doubles as the capabilities: a bucket that lists one page with
    one object and in which no probed key exists. *)
Definition connectDoubles (cfg : Config.t) : result (fakeClient.t * stubUploader.t) :=
  Ok (fakeClient.mk (Some (stubAPIError "NotFound")) []
        [ListObjectsV2Output.mk [Object.mk (Some "artifact/old.txt")] None] [] O,
      stubUploader.mk [] None).

(** A stand-in for the encoder of [encoding/json]. *)
Definition marshalKeys (summary : uploadSummary.t) : result string :=
  Ok (foldr (λ r s, UploadResult.Key r +:+ " " +:+ s) ""
        (elems (uploadSummary.ObjectsUploaded summary))).

(** A configuration with cleanup enabled and overwrite disabled. *)
Definition exampleConfig : Config.t :=
  Config.mk "bucket" "" "artifact" None true false "" false false ""
    (Credentials.mk "" "" "") "".

(* ===================================================================== *)
(** * Part II: properties                                                 *)
(* ===================================================================== *)

Module GoStringsFacts.
Import GoStrings.

Lemma stripPrefix_Some tok bs rest :
  stripPrefix tok bs = Some rest ↔ bs = tok ++ rest.
Proof.
  revert bs. induction tok as [|c tok IH]; intros bs; simpl.
  - split; congruence.
  - destruct bs as [|b bs]; [split; discriminate|].
    destruct (Ascii.eqb_spec c b) as [->|Hne].
    + rewrite IH. split; congruence.
    + split; [discriminate|]. intros [= ? ?]. congruence.
Qed.

Lemma stripPrefix_None tok bs :
  stripPrefix tok bs = None ↔ ¬ tok `prefix_of` bs.
Proof.
  split.
  - intros Hn [k ->].
    assert (stripPrefix tok (tok ++ k) = Some k) as E
      by (by apply stripPrefix_Some).
    congruence.
  - intros Hn. destruct (stripPrefix tok bs) as [r|] eqn:E; [|done].
    apply stripPrefix_Some in E. destruct Hn. by exists r.
Qed.

Lemma stripAny_Some toks bs rest :
  stripAny toks bs = Some rest → ∃ tok, tok ∈ toks ∧ bs = tok ++ rest.
Proof.
  induction toks as [|tok toks IH]; simpl; [discriminate|].
  destruct (stripPrefix tok bs) as [r|] eqn:E.
  - intros [= ->]. apply stripPrefix_Some in E.
    exists tok. split; [left|done].
  - intros H. destruct (IH H) as (t & Ht & ->).
    exists t. split; [by right|done].
Qed.

Lemma stripAny_None toks bs :
  stripAny toks bs = None ↔ ∀ tok, tok ∈ toks → ¬ tok `prefix_of` bs.
Proof.
  induction toks as [|tok toks IH]; simpl.
  - split; [|done]. intros _ tok Hin. by apply elem_of_nil in Hin.
  - destruct (stripPrefix tok bs) as [r|] eqn:E.
    + split; [discriminate|]. intros H.
      apply stripPrefix_Some in E. destruct (H tok); [left|by exists r].
    + rewrite IH. apply stripPrefix_None in E. split.
      * intros H t [->|Hin]%elem_of_cons; auto.
      * intros H t Hin. apply H. by right.
Qed.

Lemma Runs_app toks l1 l2 : Runs toks l1 → Runs toks l2 → Runs toks (l1 ++ l2).
Proof.
  induction 1 as [|tok l Hin Hl IH]; intros H2; [done|].
  rewrite <- app_assoc. constructor; auto.
Qed.

Lemma Runs_single toks tok : tok ∈ toks → Runs toks tok.
Proof.
  intros Hin. rewrite <- (app_nil_r tok). constructor; [done|constructor].
Qed.

Lemma Runs_rev toks l : Runs (map reverse toks) l → Runs toks (reverse l).
Proof.
  induction 1 as [|tok l Hin Hl IH]; [constructor|].
  rewrite reverse_app. apply Runs_app; [done|].
  apply Runs_single.
  apply list_elem_of_fmap in Hin as (t & -> & Ht).
  by rewrite reverse_involutive.
Qed.

(** With non-empty runes, one round per byte reaches the first byte that
    starts no rune. *)
Lemma trimLeftRunes_spec toks fuel bs :
  (∀ tok, tok ∈ toks → tok ≠ []) →
  (length bs ≤ fuel)%nat →
  ∃ l, bs = l ++ trimLeftRunes fuel toks bs ∧ Runs toks l
       ∧ ∀ tok, tok ∈ toks → ¬ tok `prefix_of` trimLeftRunes fuel toks bs.
Proof.
  intros Hne. revert bs.
  induction fuel as [|fuel IH]; intros bs Hlen; simpl.
  - destruct bs; [|simpl in Hlen; lia].
    exists []. split; [done|]. split; [constructor|].
    intros tok Hin [k Hk]. symmetry in Hk.
    apply app_eq_nil in Hk as [-> _]. by apply (Hne []).
  - destruct (stripAny toks bs) as [rest|] eqn:E.
    + apply stripAny_Some in E as (tok & Hin & ->).
      destruct (IH rest) as (l & Hl & Hr & Hp).
      { specialize (Hne _ Hin). destruct tok; [done|].
        simpl in Hlen. rewrite length_app in Hlen. lia. }
      exists (tok ++ l). split; [|split; [by constructor|done]].
      rewrite <- app_assoc. by rewrite <- Hl.
    + exists []. split; [done|]. split; [constructor|].
      by apply stripAny_None.
Qed.

Lemma trimLeft_spec toks bs :
  (∀ tok, tok ∈ toks → tok ≠ []) →
  ∃ l, bs = l ++ trimLeft toks bs ∧ Runs toks l
       ∧ ∀ tok, tok ∈ toks → ¬ tok `prefix_of` trimLeft toks bs.
Proof. intros Hne. by apply trimLeftRunes_spec. Qed.

Lemma trimRight_spec toks bs :
  (∀ tok, tok ∈ toks → tok ≠ []) →
  ∃ r, bs = trimRight toks bs ++ r ∧ Runs toks r
       ∧ ∀ tok, tok ∈ toks → ¬ tok `suffix_of` trimRight toks bs.
Proof.
  intros Hne. unfold trimRight.
  destruct (trimLeft_spec (map reverse toks) (reverse bs)) as (l & Hl & Hr & Hp).
  { intros tok (t & -> & Ht)%list_elem_of_fmap E.
    apply (Hne t Ht). by rewrite <- (reverse_involutive t), E. }
  exists (reverse l). split; [|split; [by apply Runs_rev|]].
  - rewrite <- reverse_app, <- Hl. by rewrite reverse_involutive.
  - intros tok Hin [k Hk]. apply (Hp (reverse tok)).
    + apply list_elem_of_fmap. by exists tok.
    + exists (reverse k). rewrite <- reverse_app, <- Hk.
      by rewrite reverse_involutive.
Qed.

End GoStringsFacts.

Module KeyBuilderFacts.
Import GoStrings GoStringsFacts.

Lemma bytes_str l : bytes (str l) = l.
Proof. apply list_ascii_of_string_of_list_ascii. Qed.

Lemma str_bytes s : str (bytes s) = s.
Proof. apply string_of_list_ascii_of_string. Qed.

Lemma bytes_inj s1 s2 : bytes s1 = bytes s2 → s1 = s2.
Proof. intros H. by rewrite <- (str_bytes s1), H, str_bytes. Qed.

Lemma bytes_app s1 s2 : bytes (s1 +:+ s2) = bytes s1 ++ bytes s2.
Proof. induction s1 as [|c s1 IH]; simpl; [done|]. by rewrite <- IH. Qed.

Lemma spaceRunes_nonempty tok : tok ∈ spaceRunes → tok ≠ [].
Proof.
  revert tok. apply Forall_forall. unfold spaceRunes, asciiSpace, unicodeSpace.
  simpl. repeat (constructor; [discriminate|]). constructor.
Qed.

Lemma cutsetRunes_nonempty cutset tok : tok ∈ cutsetRunes cutset → tok ≠ [].
Proof. by intros (c & -> & _)%list_elem_of_fmap. Qed.

(** [TrimSpace] removes a leading and a trailing run of white-space runes,
    and what is left neither starts nor ends with one. *)
Lemma TrimSpace_spec s : IsTrimOf spaceRunes (bytes s) (bytes (TrimSpace s)).
Proof.
  unfold TrimSpace. rewrite bytes_str.
  destruct (trimLeft_spec spaceRunes (bytes s) spaceRunes_nonempty)
    as (l & Hl & Hrl & Hp).
  destruct (trimRight_spec spaceRunes (trimLeft spaceRunes (bytes s))
              spaceRunes_nonempty) as (r & Hr & Hrr & Hs).
  exists l, r. repeat split; try done.
  - by rewrite <- Hr.
  - intros tok Hin Hpre. apply (Hp tok Hin). rewrite Hr.
    by apply prefix_app_r.
Qed.

(** [Trim] does the same with the bytes of the cutset. *)
Lemma Trim_spec s cutset :
  IsTrimOf (cutsetRunes cutset) (bytes s) (bytes (Trim s cutset)).
Proof.
  unfold Trim. rewrite bytes_str. set (toks := cutsetRunes cutset).
  destruct (trimRight_spec toks (bytes s) (cutsetRunes_nonempty cutset))
    as (r & Hr & Hrr & Hs).
  destruct (trimLeft_spec toks (trimRight toks (bytes s))
              (cutsetRunes_nonempty cutset)) as (l & Hl & Hrl & Hp).
  exists l, r. repeat split; try done.
  - rewrite app_assoc, <- Hl. done.
  - intros tok Hin Hsuf. apply (Hs tok Hin). rewrite Hl.
    by apply suffix_app_r.
Qed.

Lemma joinKey_empty_rel prefix rel :
  Trim (TrimSpace rel) "/" = "" → joinKey prefix rel = prefix.
Proof. intros H. unfold joinKey. by rewrite decide_True. Qed.

Lemma joinKey_empty_prefix rel :
  Trim (TrimSpace rel) "/" ≠ "" → joinKey "" rel = Trim (TrimSpace rel) "/".
Proof. intros H. unfold joinKey. by rewrite decide_False, decide_True. Qed.

Lemma joinKey_both prefix rel :
  Trim (TrimSpace rel) "/" ≠ "" → prefix ≠ "" →
  joinKey prefix rel = prefix +:+ "/" +:+ Trim (TrimSpace rel) "/".
Proof. intros H1 H2. unfold joinKey. by rewrite !decide_False. Qed.

End KeyBuilderFacts.

(** C1. The object key is built as the Key Builder says.  [normalizePrefix]
    first removes the white space around the prefix and then the ['/'] bytes
    around what is left (each trimmed string neither starts nor ends with what
    was trimmed), and maps the empty prefix to itself.  [joinKey] trims the
    relative path the same way; it returns the prefix when the trimmed path is
    empty, the trimmed path when the prefix is empty, and
    [prefix + "/" + path] otherwise.  Equal arguments give equal keys. *)
Theorem C1_key_builder (prefix rel : string) :
  let trimmed := GoStrings.TrimSpace prefix in
  let path := GoStrings.Trim (GoStrings.TrimSpace rel) "/" in
  GoStrings.IsTrimOf GoStrings.spaceRunes (bytes prefix) (bytes trimmed)
  ∧ GoStrings.IsTrimOf [["/"%char]] (bytes trimmed) (bytes (normalizePrefix prefix))
  ∧ normalizePrefix "" = ""
  ∧ GoStrings.IsTrimOf GoStrings.spaceRunes (bytes rel) (bytes (GoStrings.TrimSpace rel))
  ∧ GoStrings.IsTrimOf [["/"%char]] (bytes (GoStrings.TrimSpace rel)) (bytes path)
  ∧ (path = "" → joinKey prefix rel = prefix)
  ∧ (path ≠ "" → prefix = "" → joinKey prefix rel = path)
  ∧ (path ≠ "" → prefix ≠ "" → joinKey prefix rel = prefix +:+ "/" +:+ path)
  ∧ (∀ prefix' rel', prefix' = prefix → rel' = rel →
       joinKey prefix' rel' = joinKey prefix rel).
Proof.
  intros trimmed path. repeat split.
  - apply KeyBuilderFacts.TrimSpace_spec.
  - apply (KeyBuilderFacts.Trim_spec trimmed "/").
  - apply KeyBuilderFacts.TrimSpace_spec.
  - apply (KeyBuilderFacts.Trim_spec (GoStrings.TrimSpace rel) "/").
  - apply KeyBuilderFacts.joinKey_empty_rel.
  - intros Hp ->. by apply KeyBuilderFacts.joinKey_empty_prefix.
  - apply KeyBuilderFacts.joinKey_both.
  - by intros ? ? -> ->.
Qed.

Example normalizePrefix_builds : normalizePrefix " /builds/ " = "builds".
Proof. reflexivity. Qed.

Example normalizePrefix_inner_space : normalizePrefix "/ a /" = " a ".
Proof. reflexivity. Qed.

Example joinKey_nested : joinKey "artifact" "sub/data.txt" = "artifact/sub/data.txt".
Proof. reflexivity. Qed.

Example joinKey_no_prefix : joinKey "" " /data.txt" = "data.txt".
Proof. reflexivity. Qed.

Example joinKey_no_path : joinKey "artifact" " / " = "artifact".
Proof. reflexivity. Qed.

(** U+00A0 (bytes C2 A0) and U+3000 (bytes E3 80 80) are white space too. *)
Example TrimSpace_unicode :
  GoStrings.TrimSpace (str (["194"; "160"; "a"; "227"; "128"; "128"])%char) = "a".
Proof. reflexivity. Qed.

(** ** Plan Builder *)

Module PlanBuilderFacts.
Section WithDisk.
Context {lib : GoLib} (disk : Disk).

Lemma walkVisits_scan basePrefix root visits st :
  walkVisits (walkFn basePrefix root) visits st
  = scanEntries (map (visitEntry basePrefix root) visits) st.
Proof.
  revert st. induction visits as [|v visits IH]; intros [plans seen]; [done|].
  cbn [walkVisits map]. unfold walkFn at 1, visitEntry at 1.
  destruct (Visit.walkErr v) as [err|]; [done|].
  destruct (DirEntry.IsDir (Visit.entry v)); [by rewrite IH|].
  destruct (DirEntry.Info (Visit.entry v)) as [fi|err]; [|done].
  destruct (Rel root (Visit.current v)) as [rel|err]; [|done].
  cbn [scanEntries snd fst FilePlan.Key].
  destruct (decide (_ ∈ seen)); [done|]. by rewrite IH.
Qed.

Lemma scanEntries_app es1 es2 st :
  scanEntries (es1 ++ es2) st
  = match scanEntries es1 st with
    | (st', None) => scanEntries es2 st'
    | (st', Some err) => (st', Some err)
    end.
Proof.
  revert st. induction es1 as [|e es1 IH]; intros st; [done|].
  destruct e as [p| |err]; cbn [app scanEntries]; [|by rewrite IH|done].
  destruct (decide (_ ∈ snd st)); [done|]. by rewrite IH.
Qed.

(** The loop of [BuildPlans] reads the entries of its paths in order. *)
Lemma buildLoop_scan basePrefix paths st :
  buildLoop disk basePrefix paths st
  = match scanEntries (flat_map (pathEntries disk basePrefix) paths) st with
    | (st', None) => (Some (fst st'), None)
    | (_, Some err) => (None, Some err)
    end.
Proof.
  revert st. induction paths as [|candidate paths IH]; intros st; [done|].
  cbn [buildLoop flat_map]. rewrite scanEntries_app. unfold pathEntries at 1.
  destruct (decide (GoStrings.TrimSpace candidate = "")); [done|].
  destruct (Stat disk _) as [info|err]; [|done].
  destruct (FileInfo.IsDir info).
  - unfold WalkDir. rewrite walkVisits_scan.
    destruct (scanEntries _ st) as [st' [err|]]; [done|]. apply IH.
  - cbn [scanEntries FilePlan.Key].
    destruct (decide (_ ∈ snd st)); [done|]. apply IH.
Qed.

Lemma BuildPlans_scan paths prefix :
  paths ≠ [] →
  BuildPlans disk paths prefix
  = match scanEntries (traversal disk paths prefix) ([], ∅) with
    | (st', None) => (Some (fst st'), None)
    | (_, Some err) => (None, Some err)
    end.
Proof.
  intros Hne. unfold BuildPlans.
  destruct (decide (length paths = O)) as [E|_].
  - by destruct paths.
  - apply buildLoop_scan.
Qed.

End WithDisk.

(** Entries that do not fail and whose keys are new and distinct are all
    planned, in order. *)
Lemma scanEntries_fresh es st :
  Forall (λ e, isFailed e = false) es →
  NoDup (map FilePlan.Key (resolved es)) →
  (∀ k, k ∈ map FilePlan.Key (resolved es) → k ∉ snd st) →
  scanEntries es st
  = ((fst st ++ resolved es,
      list_to_set (map FilePlan.Key (resolved es)) ∪ snd st), None).
Proof.
  revert st. induction es as [|e es IH]; intros [plans seen] Hok Hnd Hfresh.
  - cbn. rewrite app_nil_r. f_equal. f_equal. by rewrite (left_id_L ∅ (∪)).
  - apply Forall_cons in Hok as [He Hok].
    destruct e as [p| |err]; [| |done].
    + cbn [scanEntries snd fst]. cbn in Hnd, Hfresh.
      apply NoDup_cons in Hnd as [Hp Hnd].
      rewrite decide_False by (apply Hfresh; left).
      rewrite IH; [| done | done |].
      * cbn [fst snd].
        change (resolved (Resolved p :: es)) with (p :: resolved es).
        cbn [map list_to_set]. rewrite <- app_assoc. cbn [app].
        f_equal. f_equal.
        by rewrite (assoc_L (∪)), (comm_L (∪) _ {[FilePlan.Key p]}).
      * intros k Hk. cbn. intros [->%elem_of_singleton|Hin]%elem_of_union.
        -- done.
        -- revert Hin. apply Hfresh. by right.
    + cbn. by apply IH.
Qed.

(** The first entry whose key was already assigned stops the scan with the
    duplicate-key error for that key. *)
Lemma scanEntries_duplicate pre p post st :
  Forall (λ e, isFailed e = false) pre →
  NoDup (map FilePlan.Key (resolved pre)) →
  (∀ k, k ∈ map FilePlan.Key (resolved pre) → k ∉ snd st) →
  FilePlan.Key p ∈ map FilePlan.Key (resolved pre) ∨ FilePlan.Key p ∈ snd st →
  snd (scanEntries (pre ++ Resolved p :: post) st)
  = Some (Errorf ("duplicate object key detected: " +:+ FilePlan.Key p)).
Proof.
  intros Hok Hnd Hfresh Hdup.
  rewrite scanEntries_app, scanEntries_fresh by done.
  cbn [scanEntries snd]. rewrite decide_True; [done|].
  apply elem_of_union. destruct Hdup as [H|H]; [left|by right].
  by apply elem_of_list_to_set.
Qed.

End PlanBuilderFacts.

(** C2. When the traversal of the input paths reaches an entry whose key an
    earlier entry of the same call already resolved to (the entries before it
    having distinct keys and no failure), [BuildPlans] fails with the
    duplicate-key error that names this key and returns the nil plan list, in
    whichever input paths the two entries were found. *)
Theorem C2_duplicate_key {lib : GoLib} (disk : Disk) (paths : list string)
  (prefix : string) (pre post : list Entry) (p : FilePlan.t) :
  traversal disk paths prefix = pre ++ Resolved p :: post →
  Forall (λ e, isFailed e = false) pre →
  NoDup (map FilePlan.Key (resolved pre)) →
  FilePlan.Key p ∈ map FilePlan.Key (resolved pre) →
  BuildPlans disk paths prefix
  = (None, Some (Errorf ("duplicate object key detected: " +:+ FilePlan.Key p))).
Proof.
  intros Htrav Hok Hnd Hdup.
  assert (paths ≠ []) as Hne.
  { intros ->. by destruct pre. }
  rewrite (PlanBuilderFacts.BuildPlans_scan disk paths prefix Hne), Htrav.
  assert (snd (scanEntries (pre ++ Resolved p :: post) ([], ∅))
          = Some (Errorf ("duplicate object key detected: " +:+ FilePlan.Key p)))
    as H.
  { apply PlanBuilderFacts.scanEntries_duplicate; [done|done| |by left].
    intros k _. apply not_elem_of_empty. }
  destruct (scanEntries _ _) as [st' [err|]]; cbn in H; by simplify_eq.
Qed.

Example BuildPlans_directory :
  BuildPlans (lib := Unix.lib) exampleDisk ["d"] "artifact"
  = (Some [FilePlan.mk "d/data.txt" "artifact/data.txt" 5;
           FilePlan.mk "d/sub/x.bin" "artifact/sub/x.bin" 3], None).
Proof. vm_compute. reflexivity. Qed.

(** [TestBuildPlansRejectsDuplicates]: the same file twice. *)
Example BuildPlans_same_file_twice :
  BuildPlans (lib := Unix.lib) exampleDisk ["data.txt"; "data.txt"] ""
  = (None, Some (Errorf "duplicate object key detected: data.txt")).
Proof. vm_compute. reflexivity. Qed.

(** A file of a directory tree and a file given on its own collide. *)
Lemma C2_duplicate_key_witness :
  let pre := [Skipped; Resolved (FilePlan.mk "d/data.txt" "artifact/data.txt" 5);
              Skipped; Resolved (FilePlan.mk "d/sub/x.bin" "artifact/sub/x.bin" 3)] in
  let p := FilePlan.mk "data.txt" "artifact/data.txt" 3 in
  traversal (lib := Unix.lib) exampleDisk ["d"; "data.txt"] "artifact"
  = pre ++ Resolved p :: []
  ∧ BuildPlans (lib := Unix.lib) exampleDisk ["d"; "data.txt"] "artifact"
    = (None, Some (Errorf "duplicate object key detected: artifact/data.txt")).
Proof.
  intros pre p.
  assert (traversal (lib := Unix.lib) exampleDisk ["d"; "data.txt"] "artifact"
          = pre ++ Resolved p :: []) as Htrav by (vm_compute; reflexivity).
  split; [exact Htrav|].
  apply (C2_duplicate_key (lib := Unix.lib) exampleDisk ["d"; "data.txt"]
           "artifact" pre [] p Htrav).
  - repeat constructor.
  - compute_done.
  - compute_done.
Defined.

(** ** Cleanup Engine *)

Module CleanupFacts.
Section WithClient.
Context {C U : Type} {client_ops : Client C}.
Implicit Types st : Transport.State (C := C) (U := U).

(** A round makes the calls of one step of the algorithm: it ends the
    sequence, or the steps that follow it extend to steps from its start. *)
Lemma cleanupRound_steps resolved total token st :
  ∃ new,
    snd (snd (Transport.cleanupRound resolved total token st)) = snd st ++ new
    ∧ Transport.bucket (fst (snd (Transport.cleanupRound resolved total token st)))
      = Transport.bucket (fst st)
    ∧ match fst (Transport.cleanupRound resolved total token st) with
      | Transport.Return t e =>
          CleanupSteps (Transport.bucket (fst st)) (stringPointer resolved)
            token total new (Finished t e)
      | Transport.Next t tok =>
          ∀ calls ending,
            CleanupSteps (Transport.bucket (fst st)) (stringPointer resolved)
              tok t calls ending →
            CleanupSteps (Transport.bucket (fst st)) (stringPointer resolved)
              token total (new ++ calls) ending
      end.
Proof.
  destruct st as [tr calls]. unfold Transport.cleanupRound, Transport.listObjectsV2.
  cbn [fst snd].
  destruct (ListObjectsV2 (Transport.client tr) _) as [[page|cause] c1] eqn:Hlist.
  2:{ eexists. split; [done|]. split; [done|]. apply steps_list_fails. }
  destruct (decide (length (ListObjectsV2Output.Contents page) = O)) as [Hz|Hnz].
  - apply length_zero_iff_nil in Hz.
    destruct (ListObjectsV2Output.NextContinuationToken page) as [next|] eqn:Hnext.
    + eexists. split; [done|]. split; [done|]. cbn.
      intros calls' ending Hrest. by eapply steps_empty_more.
    + eexists. split; [done|]. split; [done|]. by apply steps_empty_last.
  - assert (ListObjectsV2Output.Contents page ≠ []) as Hne.
    { intros E. by rewrite E in Hnz. }
    unfold Transport.deleteObjects. cbn [fst snd Transport.client Transport.bucket
      Transport.uploader Transport.overwrite].
    destruct (DeleteObjects c1 _) as [[out|cause] c2] eqn:Hdel; cbn [errOf].
    + rewrite length_map.
      destruct (ListObjectsV2Output.NextContinuationToken page) as [next|] eqn:Hnext.
      * eexists. split; [by rewrite <- app_assoc|]. split; [done|]. cbn.
        intros calls' ending Hrest. by eapply steps_delete_more.
      * eexists. split; [by rewrite <- app_assoc|]. split; [done|].
        by apply steps_delete_last.
    + eexists. split; [by rewrite <- app_assoc|]. split; [done|].
      by apply steps_delete_fails.
Qed.

(** Whatever the backend answers and however long the loop runs, the calls
    it has made are steps of the algorithm. *)
Lemma cleanupLoop_steps fuel resolved total token st :
  ∃ new,
    snd (Transport.stateOf (Transport.cleanupLoop fuel resolved total token st))
    = snd st ++ new
    ∧ CleanupSteps (Transport.bucket (fst st)) (stringPointer resolved) token total
        new (endingOf (Transport.cleanupLoop fuel resolved total token st)).
Proof.
  revert total token st. induction fuel as [|fuel IH]; intros total token st.
  - exists []. split; [by rewrite app_nil_r|]. apply steps_unfinished.
  - cbn [Transport.cleanupLoop].
    destruct (cleanupRound_steps resolved total token st) as (new & Hcalls & Hb & Hst).
    destruct (Transport.cleanupRound resolved total token st) as [[t e|t tok] st'].
    + exists new. by split.
    + destruct (IH t tok st') as (new' & Hcalls' & Hst').
      cbn [fst snd] in *. exists (new ++ new'). split.
      * by rewrite Hcalls', Hcalls, <- app_assoc.
      * apply Hst. by rewrite <- Hb.
Qed.

End WithClient.

(** Go's [int] addition wraps only once. *)
Lemma int_add_wrapInt a b : int_add (wrapInt a) b = wrapInt (a + b).
Proof.
  unfold int_add, wrapInt.
  replace ((a + 2 ^ 63) `mod` 2 ^ 64 - 2 ^ 63 + b + 2 ^ 63)
    with ((a + 2 ^ 63) `mod` 2 ^ 64 + b) by lia.
  rewrite Zplus_mod_idemp_l. f_equal. f_equal. lia.
Qed.

Lemma deletedCount_app calls1 calls2 :
  deletedCount (calls1 ++ calls2) = deletedCount calls1 + deletedCount calls2.
Proof.
  induction calls1 as [|c calls1 IH]; [done|].
  destruct c as [| |input [e|]| | |]; cbn [app deletedCount]; lia.
Qed.

End CleanupFacts.

Module CleanupStepsFacts.

(** The count at the end is the number of objects whose deletion
    succeeded, added to the count at the start. *)
Lemma steps_count bucket scope cursor count new ending c0 :
  CleanupSteps bucket scope cursor count new ending →
  count = wrapInt c0 →
  countOf ending = wrapInt (c0 + deletedCount new).
Proof.
  intros Hsteps. revert c0.
  assert (∀ page, Z.of_nat (length (default [] (Delete.Objects <$>
            DeleteObjectsInput.Delete (deleteRequest bucket page))))
          = pageSize page) as Hsize.
  { intros page. cbn. by rewrite length_map. }
  induction Hsteps as [cursor count|cursor count cause|cursor count page Hc Hn
    |cursor count page next calls ending Hc Hn Hrest IH
    |cursor count page cause Hc|cursor count page Hc Hn
    |cursor count page next calls ending Hc Hn Hrest IH]; intros c0 Hc0;
    cbn [countOf deletedCount].
  - rewrite Hc0. f_equal. lia.
  - rewrite Hc0. f_equal. lia.
  - rewrite Hc0. f_equal. lia.
  - by apply IH.
  - rewrite Hc0. f_equal. lia.
  - rewrite Hsize, Hc0, CleanupFacts.int_add_wrapInt. f_equal. lia.
  - rewrite Hsize, (IH (c0 + pageSize page)).
    + f_equal. lia.
    + by rewrite Hc0, CleanupFacts.int_add_wrapInt.
Qed.

(** A sequence of steps has at most one failed call, its last one, and ends
    with the error of that call. *)
Lemma steps_failure bucket scope cursor count new ending :
  CleanupSteps bucket scope cursor count new ending →
  match ending with
  | Finished _ (Some e) =>
      ∃ before failing, new = before ++ [failing]
        ∧ Forall (λ c, callFailed c = false) before
        ∧ cleanupFailure failing = Some e
  | _ => Forall (λ c, callFailed c = false) new
  end.
Proof.
  induction 1 as [cursor count|cursor count cause|cursor count page Hc Hn
    |cursor count page next calls ending Hc Hn Hrest IH
    |cursor count page cause Hc|cursor count page Hc Hn
    |cursor count page next calls ending Hc Hn Hrest IH].
  - constructor.
  - eexists [], _. by repeat split.
  - by repeat constructor.
  - destruct ending as [n [e|]|n tok].
    + destruct IH as (before & failing & -> & Hok & Hf).
      eexists (_ :: before), failing. repeat split; [|done]. by constructor.
    + by constructor.
    + by constructor.
  - eexists [_], _. repeat split. by repeat constructor.
  - by repeat constructor.
  - destruct ending as [n [e|]|n tok].
    + destruct IH as (before & failing & -> & Hok & Hf).
      eexists (_ :: _ :: before), failing. repeat split; [|done].
      by repeat constructor.
    + by repeat constructor.
    + by repeat constructor.
Qed.

(** Every listing is asked under the scope, and a deletion names the keys
    of the page listed just before it. *)
Lemma steps_scoped bucket scope cursor count new ending :
  CleanupSteps bucket scope cursor count new ending →
  Forall (λ input, ListObjectsV2Input.Prefix input = scope) (listRequests new)
  ∧ (Forall honoursPrefix new →
     Forall (λ c, Forall (underScope scope) (deletedKeys c)) new).
Proof.
  assert (∀ page, deletedKeys (CallDeleteObjects (deleteRequest bucket page) None)
                  = map Object.Key (ListObjectsV2Output.Contents page)) as Hkeys.
  { intros page. cbn. rewrite map_map. by apply map_ext. }
  assert (∀ page cause,
            deletedKeys (CallDeleteObjects (deleteRequest bucket page) (Some cause))
            = map Object.Key (ListObjectsV2Output.Contents page)) as Hkeys'.
  { intros page cause. cbn. rewrite map_map. by apply map_ext. }
  induction 1 as [cursor count|cursor count cause|cursor count page Hc Hn
    |cursor count page next calls ending Hc Hn Hrest IH
    |cursor count page cause Hc|cursor count page Hc Hn
    |cursor count page next calls ending Hc Hn Hrest IH].
  - split; [constructor|]. by intros _.
  - split; [by repeat constructor|]. intros _. by repeat constructor.
  - split; [by repeat constructor|]. intros _. by repeat constructor.
  - destruct IH as [IH1 IH2]. split; [by constructor|].
    intros [Hh Hrest']%Forall_cons. constructor; [constructor|by apply IH2].
  - split; [by repeat constructor|].
    intros [Hh _]%Forall_cons. constructor; [constructor|].
    constructor; [|constructor]. by rewrite Hkeys'.
  - split; [by repeat constructor|].
    intros [Hh _]%Forall_cons. constructor; [constructor|].
    constructor; [|constructor]. by rewrite Hkeys.
  - destruct IH as [IH1 IH2]. split; [by constructor|].
    intros [Hh [_ Hrest']%Forall_cons]%Forall_cons.
    constructor; [constructor|]. constructor; [by rewrite Hkeys|by apply IH2].
Qed.

End CleanupStepsFacts.

Module CleanupRunFacts.
Section WithClient.
Context {C U : Type} {client_ops : Client C}.
Implicit Types st : Transport.State (C := C) (U := U).

(** Every round makes exactly one listing. *)
Lemma cleanupRound_listing resolved total token st :
  ∃ new,
    snd (snd (Transport.cleanupRound resolved total token st)) = snd st ++ new
    ∧ length (listRequests new) = 1%nat.
Proof.
  destruct st as [tr calls]. unfold Transport.cleanupRound, Transport.listObjectsV2.
  cbn [fst snd].
  destruct (ListObjectsV2 (Transport.client tr) _) as [[page|cause] c1].
  2:{ by eexists. }
  destruct (decide (length (ListObjectsV2Output.Contents page) = O)).
  - destruct (ListObjectsV2Output.NextContinuationToken page); by eexists.
  - unfold Transport.deleteObjects. cbn [fst snd Transport.client Transport.bucket
      Transport.uploader Transport.overwrite].
    destruct (DeleteObjects c1 _) as [[out|cause] c2]; cbn [errOf].
    + destruct (ListObjectsV2Output.NextContinuationToken page);
        (eexists; split; [by rewrite <- app_assoc|done]).
    + eexists. split; [by rewrite <- app_assoc|done].
Qed.

(** The loop runs round after round: it makes one listing per round, and
    stops before the fuel is used up only by returning. *)
Lemma cleanupLoop_listings fuel resolved total token st :
  ∃ new,
    snd (Transport.stateOf (Transport.cleanupLoop fuel resolved total token st))
    = snd st ++ new
    ∧ (length (listRequests new) ≤ fuel)%nat
    ∧ match Transport.cleanupLoop fuel resolved total token st with
      | Transport.Running _ _ _ => length (listRequests new) = fuel
      | Transport.Returned _ _ _ => (0 < length (listRequests new))%nat
      end.
Proof.
  revert total token st. induction fuel as [|fuel IH]; intros total token st.
  - exists []. cbn. by rewrite app_nil_r.
  - cbn [Transport.cleanupLoop].
    destruct (cleanupRound_listing resolved total token st) as (new & Hcalls & Hone).
    destruct (Transport.cleanupRound resolved total token st) as [[t e|t tok] st'].
    + exists new. cbn [Transport.stateOf fst snd] in *. split; [done|]. lia.
    + destruct (IH t tok st') as (new' & Hcalls' & Hle & Hend).
      cbn [fst snd] in *. exists (new ++ new'). split.
      * by rewrite Hcalls', Hcalls, <- app_assoc.
      * unfold listRequests in *. rewrite omap_app, length_app.
        split; [lia|]. destruct (Transport.cleanupLoop fuel resolved t tok st'); lia.
Qed.

(** On pages served by the backend, all with a cursor but the last one, the
    loop visits every page and returns after the last one. *)
Lemma cleanupLoop_serves resolved pages :
  ∀ final fuel c0 cursor st,
    servesPages (Transport.client (fst st)) (pages ++ [final]) →
    Forall (λ page, ListObjectsV2Output.NextContinuationToken page ≠ None) pages →
    ListObjectsV2Output.NextContinuationToken final = None →
    (length pages < fuel)%nat →
    ∃ st',
      Transport.cleanupLoop fuel resolved (wrapInt c0) cursor st
      = Transport.Returned (wrapInt (c0 + totalSize (pages ++ [final]))) None st'
      ∧ snd st'
        = snd st ++ stepsOfPages (Transport.bucket (fst st)) (stringPointer resolved)
                      cursor (pages ++ [final]).
Proof.
  induction pages as [|page pages IH]; intros final fuel c0 cursor [tr calls]
    Hserves Hcursors Hlast Hfuel; (destruct fuel as [|fuel]; [cbn in Hfuel; lia|]).
  - cbn [app servesPages fst] in Hserves. cbn [Transport.cleanupLoop fst snd app].
    unfold Transport.cleanupRound, Transport.listObjectsV2. cbn [fst snd].
    set (input := ListObjectsV2Input.mk _ _ _).
    destruct (Hserves input) as [Hlist Hdel].
    destruct (ListObjectsV2 (Transport.client tr) input) as [out c1] eqn:E.
    cbn [fst snd] in Hlist, Hdel. subst out. cbn [stepsOfPages totalSize foldr].
    destruct (decide (length (ListObjectsV2Output.Contents final) = O)) as [Hz|Hnz].
    + rewrite Hlast. eexists. split.
      * do 2 f_equal. unfold pageSize. lia.
      * reflexivity.
    + unfold Transport.deleteObjects. cbn [fst snd Transport.client Transport.bucket
        Transport.uploader Transport.overwrite].
      set (deletion := DeleteObjectsInput.mk _ _).
      destruct (Hdel deletion) as [Herr _].
      destruct (DeleteObjects c1 deletion) as [dout c2] eqn:E2.
      cbn [fst snd] in Herr.
      rewrite Herr, Hlast. subst deletion. rewrite length_map. fold (pageSize final).
      rewrite CleanupFacts.int_add_wrapInt. eexists. split.
      * do 2 f_equal. lia.
      * cbn [snd]. by rewrite <- app_assoc.
  - cbn [app servesPages fst] in Hserves. cbn [Transport.cleanupLoop fst snd app].
    unfold Transport.cleanupRound, Transport.listObjectsV2. cbn [fst snd].
    set (input := ListObjectsV2Input.mk _ _ _).
    destruct (Hserves input) as [Hlist Hdel].
    destruct (ListObjectsV2 (Transport.client tr) input) as [out c1] eqn:E.
    cbn [fst snd] in Hlist, Hdel. subst out. cbn [stepsOfPages totalSize foldr].
    apply Forall_cons in Hcursors as [Hnext Hcursors].
    destruct (ListObjectsV2Output.NextContinuationToken page) as [next|]; [|done].
    cbn [length] in Hfuel.
    destruct (decide (length (ListObjectsV2Output.Contents page) = O)) as [Hz|Hnz].
    + match goal with |- context [Transport.cleanupLoop fuel resolved _ _ ?s] =>
        destruct (IH final fuel c0 (Some next) s)
          as (st' & Hrun & Hlog); [done|done|done|lia|]
      end.
      exists st'. rewrite Hrun. split.
      * do 2 f_equal. unfold totalSize, pageSize. lia.
      * rewrite Hlog. cbn [fst snd Transport.bucket]. by rewrite <- app_assoc.
    + unfold Transport.deleteObjects. cbn [fst snd Transport.client Transport.bucket
        Transport.uploader Transport.overwrite].
      set (deletion := DeleteObjectsInput.mk _ _).
      destruct (Hdel deletion) as [Herr Hrest].
      destruct (DeleteObjects c1 deletion) as [dout c2] eqn:E2.
      cbn [fst snd] in Herr, Hrest.
      rewrite Herr. subst deletion. rewrite length_map. fold (pageSize page).
      rewrite CleanupFacts.int_add_wrapInt.
      match goal with |- context [Transport.cleanupLoop fuel resolved _ _ ?s] =>
        destruct (IH final fuel (c0 + pageSize page) (Some next) s)
          as (st' & Hrun & Hlog); [done|done|done|lia|]
      end.
      exists st'. rewrite Hrun. split.
      * do 2 f_equal. unfold totalSize. lia.
      * rewrite Hlog. cbn [fst snd Transport.bucket]. by rewrite <- !app_assoc.
Qed.

End WithClient.
End CleanupRunFacts.

(** C6. One round of the loop of [Cleanup] lists from the cursor and then
    does what the Cleanup Engine says: on a page without objects it makes no
    other call, and returns the count so far when the page has no cursor, or
    goes on from the cursor of the page; on a page with objects it makes one
    quiet batch-delete request that names every key of the page and, when
    that succeeds, adds the size of the page to the count and returns it or
    goes on from the cursor of the page.  [Cleanup] runs these rounds one
    after the other: whatever pages the backend returns, its calls are steps
    of that algorithm from no cursor and the count 0, with one listing per
    round, and it stops before the rounds allowed are used up only by
    returning.  So, on any sequence of pages that the backend serves, all
    with a cursor but the last, [Cleanup] visits every page in order, each
    listing from the cursor of the page before, deletes the objects of every
    page that has some, and returns the number of objects of all pages. *)
Theorem C6_cleanup_steps {C U : Type} {client_ops : Client C}
  (fuel : nat) (prefix : string) (total : Z) (token : option string)
  (st : Transport.State (C := C) (U := U)) :
  let resolved := Transport.resolvePrefix prefix in
  let bucket := Transport.bucket (fst st) in
  let request := listRequest bucket (stringPointer resolved) token in
  let listing := ListObjectsV2 (Transport.client (fst st)) request in
  (∀ page,
     fst listing = Ok page → ListObjectsV2Output.Contents page = [] →
     Transport.cleanupRound resolved total token st
     = (match ListObjectsV2Output.NextContinuationToken page with
        | None => Transport.Return total None
        | Some next => Transport.Next total (Some next)
        end,
        (Transport.mk (snd listing) (Transport.uploader (fst st)) bucket
           (Transport.overwrite (fst st)),
         snd st ++ [CallListObjectsV2 request (Ok page)])))
  ∧ (∀ page,
       fst listing = Ok page → ListObjectsV2Output.Contents page ≠ [] →
       let deletion := DeleteObjects (snd listing) (deleteRequest bucket page) in
       snd (snd (Transport.cleanupRound resolved total token st))
       = snd st ++ [CallListObjectsV2 request (Ok page);
                    CallDeleteObjects (deleteRequest bucket page)
                      (errOf (fst deletion))]
       ∧ (errOf (fst deletion) = None →
          fst (Transport.cleanupRound resolved total token st)
          = match ListObjectsV2Output.NextContinuationToken page with
            | None => Transport.Return (int_add total (pageSize page)) None
            | Some next =>
                Transport.Next (int_add total (pageSize page)) (Some next)
            end))
  ∧ (∃ new,
       snd (Transport.stateOf (Transport.Cleanup fuel prefix st)) = snd st ++ new
       ∧ CleanupSteps bucket (stringPointer resolved) None 0 new
           (endingOf (Transport.Cleanup fuel prefix st))
       ∧ (length (listRequests new) ≤ fuel)%nat
       ∧ match Transport.Cleanup fuel prefix st with
         | Transport.Running _ _ _ => length (listRequests new) = fuel
         | Transport.Returned _ _ _ => (0 < length (listRequests new))%nat
         end)
  ∧ (∀ pages final,
       servesPages (Transport.client (fst st)) (pages ++ [final]) →
       Forall (λ page, ListObjectsV2Output.NextContinuationToken page ≠ None) pages →
       ListObjectsV2Output.NextContinuationToken final = None →
       (length pages < fuel)%nat →
       ∃ st',
         Transport.Cleanup fuel prefix st
         = Transport.Returned (wrapInt (totalSize (pages ++ [final]))) None st'
         ∧ snd st'
           = snd st ++ stepsOfPages bucket (stringPointer resolved) None
                         (pages ++ [final])).
Proof.
  intros resolved bucket request listing. split; [|split; [|split]].
  - intros page Hpage Hempty. subst listing request bucket.
    destruct st as [tr calls]. unfold Transport.cleanupRound, Transport.listObjectsV2.
    cbn [fst snd] in *. unfold listRequest in Hpage.
    destruct (ListObjectsV2 (Transport.client tr) _) as [out c1].
    cbn [fst snd] in *. subst out. rewrite Hempty. cbn [length].
    rewrite decide_True by done.
    by destruct (ListObjectsV2Output.NextContinuationToken page).
  - intros page Hpage Hne deletion. subst deletion listing request bucket.
    destruct st as [tr calls]. unfold Transport.cleanupRound, Transport.listObjectsV2.
    cbn [fst snd] in *. unfold listRequest in Hpage |- *.
    destruct (ListObjectsV2 (Transport.client tr) _) as [out c1].
    cbn [fst snd] in *. subst out.
    rewrite decide_False by (by intros ?%length_zero_iff_nil).
    unfold Transport.deleteObjects, deleteRequest, pageSize.
    cbn [fst snd Transport.client Transport.bucket Transport.uploader
         Transport.overwrite].
    destruct (DeleteObjects c1 _) as [[out|cause] c2]; cbn [fst snd errOf].
    + rewrite length_map. split.
      * destruct (ListObjectsV2Output.NextContinuationToken page);
          by rewrite <- app_assoc.
      * intros _. by destruct (ListObjectsV2Output.NextContinuationToken page).
    + split; [by rewrite <- app_assoc|done].
  - unfold Transport.Cleanup.
    destruct (CleanupFacts.cleanupLoop_steps fuel resolved 0 None st)
      as (new & Hcalls & Hsteps).
    destruct (CleanupRunFacts.cleanupLoop_listings fuel resolved 0 None st)
      as (new' & Hcalls' & Hle & Hend).
    rewrite Hcalls in Hcalls'. apply app_inv_head in Hcalls'. subst new'.
    by exists new.
  - intros pages final Hserves Hcursors Hlast Hfuel.
    exact (CleanupRunFacts.cleanupLoop_serves resolved pages final fuel 0 None st
             Hserves Hcursors Hlast Hfuel).
Qed.

(** A script of three pages against the test double: objects and a cursor,
    no object and a cursor, objects and no cursor. *)
Lemma C6_cleanup_steps_witness :
  let page1 := ListObjectsV2Output.mk
                 [Object.mk (Some "prefix/file1"); Object.mk (Some "prefix/file2")]
                 (Some "t1") in
  let page2 := ListObjectsV2Output.mk [] (Some "t2") in
  let page3 := ListObjectsV2Output.mk [Object.mk (Some "prefix/file3")] None in
  let st : Transport.State (C := fakeClient.t) (U := stubUploader.t) :=
    (Transport.mk (fakeClient.mk None [] [page1; page2; page3] [] O)
       (stubUploader.mk [] None) "bucket" true, []) in
  ∃ st',
    Transport.Cleanup 3 "prefix" st = Transport.Returned 3 None st'
    ∧ snd st'
      = [ CallListObjectsV2 (listRequest "bucket" (Some "prefix/") None) (Ok page1);
          CallDeleteObjects (deleteRequest "bucket" page1) None;
          CallListObjectsV2 (listRequest "bucket" (Some "prefix/") (Some "t1"))
            (Ok page2);
          CallListObjectsV2 (listRequest "bucket" (Some "prefix/") (Some "t2"))
            (Ok page3);
          CallDeleteObjects (deleteRequest "bucket" page3) None ].
Proof.
  intros page1 page2 page3 st.
  destruct (C6_cleanup_steps 3 "prefix" 0 None st) as (_ & _ & _ & Hrun).
  apply (Hrun [page1; page2] page3).
  - cbn. repeat (intros; split; [reflexivity|]). exact I.
  - repeat constructor; discriminate.
  - reflexivity.
  - cbn. lia.
Defined.

(** C7. [Cleanup] returns at the first listing or deletion that fails: the
    failed call is the last call made, and the error wraps its cause.  The
    count that comes with the error (as with any return, and at any round) is
    the number of objects named by the deletions that succeeded so far. *)
Theorem C7_cleanup_partial_count {C U : Type} {client_ops : Client C}
  (fuel : nat) (prefix : string) (st : Transport.State (C := C) (U := U)) :
  ∃ new,
    snd (Transport.stateOf (Transport.Cleanup fuel prefix st)) = snd st ++ new
    ∧ countOf (endingOf (Transport.Cleanup fuel prefix st))
      = wrapInt (deletedCount new)
    ∧ match Transport.Cleanup fuel prefix st with
      | Transport.Returned total (Some e) _ =>
          ∃ before failing, new = before ++ [failing]
            ∧ Forall (λ c, callFailed c = false) before
            ∧ cleanupFailure failing = Some e
            ∧ total = wrapInt (deletedCount before)
      | _ => Forall (λ c, callFailed c = false) new
      end.
Proof.
  destruct (CleanupFacts.cleanupLoop_steps fuel (Transport.resolvePrefix prefix)
              0 None st) as (new & Hcalls & Hsteps).
  fold (Transport.Cleanup fuel prefix st) in Hcalls, Hsteps.
  exists new. split; [done|].
  pose proof (CleanupStepsFacts.steps_count _ _ _ _ _ _ 0 Hsteps eq_refl) as Hcount.
  pose proof (CleanupStepsFacts.steps_failure _ _ _ _ _ _ Hsteps) as Hfail.
  split; [done|].
  destruct (Transport.Cleanup fuel prefix st) as [total [e|] st'|total tok st'];
    cbn in *; [|done|done].
  destruct Hfail as (before & failing & -> & Hok & Hf).
  exists before, failing. repeat split; try done.
  rewrite Hcount, CleanupFacts.deletedCount_app. do 2 f_equal.
  destruct failing as [| |input [cause|]| | |]; cbn in *; try lia; done.
Qed.

Module ScopeFacts.
Import GoStrings GoStringsFacts KeyBuilderFacts.

Lemma Runs_last toks l :
  Runs toks l → l = [] ∨ ∃ l' tok, tok ∈ toks ∧ l = l' ++ tok.
Proof.
  induction 1 as [|tok l Hin Hl IH]; [by left|]. right.
  destruct IH as [->|(l' & tok' & Hin' & ->)].
  - exists [], tok. by rewrite app_nil_r.
  - exists (tok ++ l'), tok'. by rewrite app_assoc.
Qed.

Lemma spaceRunes_last tok : tok ∈ spaceRunes → last tok ≠ Some "/"%char ∧ tok ≠ [].
Proof.
  revert tok. apply Forall_forall. unfold spaceRunes, asciiSpace, unicodeSpace.
  simpl. repeat (constructor; [by split|]). constructor.
Qed.

(** A string that ends with ['/'] is not white space only. *)
Lemma TrimSpace_slash_nonempty s : TrimSpace (s +:+ "/") ≠ "".
Proof.
  intros E.
  destruct (TrimSpace_spec (s +:+ "/")) as (l & r & Heq & Hl & Hr & _).
  rewrite E, bytes_app in Heq. cbn in Heq.
  destruct (Runs_last spaceRunes (l ++ r) (Runs_app _ _ _ Hl Hr))
    as [Hnil|(l' & tok & Hin & Hlr)].
  - rewrite Hnil in Heq. by destruct (bytes s).
  - rewrite Hlr in Heq. apply (f_equal last) in Heq.
    rewrite last_snoc, last_app in Heq.
    destruct (spaceRunes_last tok Hin) as [Hlast Hne].
    destruct (last tok) as [c|] eqn:Ht; [congruence|].
    by apply last_None in Ht.
Qed.

Lemma stringPointer_slash s : stringPointer (s +:+ "/") = Some (s +:+ "/").
Proof.
  unfold stringPointer. rewrite decide_False; [done|].
  apply TrimSpace_slash_nonempty.
Qed.

(** The scope of the listings of [Cleanup]. *)
Lemma scope_empty prefix :
  normalizePrefix prefix = "" →
  stringPointer (Transport.resolvePrefix prefix) = None.
Proof.
  intros E. unfold Transport.resolvePrefix. rewrite E.
  by rewrite decide_False by (by intros H).
Qed.

Lemma scope_folder prefix :
  normalizePrefix prefix ≠ "" →
  stringPointer (Transport.resolvePrefix prefix)
  = Some (normalizePrefix prefix +:+ "/").
Proof.
  intros Hne. unfold Transport.resolvePrefix. rewrite decide_True by done.
  apply stringPointer_slash.
Qed.

End ScopeFacts.

(** C5, as the code has it.  [Cleanup] lists without a prefix (the whole
    bucket) when the prefix argument is empty after normalization (the empty
    prefix, but also a prefix of white space and ['/'] only), and under the
    normalized prefix followed by ['/'] otherwise.  Every listing of the call
    is made under this scope, and if the backend lists only keys under the
    prefix it is asked for, every key named by a batch-delete request is under
    the scope. *)
Theorem C5_cleanup_scope {C U : Type} {client_ops : Client C}
  (fuel : nat) (prefix : string) (st : Transport.State (C := C) (U := U)) :
  let scope := stringPointer (Transport.resolvePrefix prefix) in
  (normalizePrefix prefix = "" → scope = None)
  ∧ (normalizePrefix prefix ≠ "" → scope = Some (normalizePrefix prefix +:+ "/"))
  ∧ ∃ new,
      snd (Transport.stateOf (Transport.Cleanup fuel prefix st)) = snd st ++ new
      ∧ Forall (λ input, ListObjectsV2Input.Prefix input = scope) (listRequests new)
      ∧ (Forall honoursPrefix new →
         Forall (λ c, Forall (underScope scope) (deletedKeys c)) new).
Proof.
  intros scope. split; [apply ScopeFacts.scope_empty|].
  split; [apply ScopeFacts.scope_folder|].
  destruct (CleanupFacts.cleanupLoop_steps fuel (Transport.resolvePrefix prefix)
              0 None st) as (new & Hcalls & Hsteps).
  exists new. split; [done|].
  by apply (CleanupStepsFacts.steps_scoped _ _ _ _ _ _ Hsteps).
Qed.

(** *** Runs against the test doubles *)

(** Against [fakeClient], which has finitely many pages to return, the loop
    returns, without error, after at most one round per page left and one
    more. *)
Lemma cleanupLoop_fakeClient_returns {U : Type} (fuel : nat) (resolved : string) :
  ∀ (total : Z) (token : option string)
    (tr : Transport.t (C := fakeClient.t) (U := U)) (calls : list Call),
    (length (fakeClient.listOutputs (Transport.client tr))
     - fakeClient.listCallIndex (Transport.client tr) < fuel)%nat →
    ∃ t st', Transport.cleanupLoop fuel resolved total token (tr, calls)
             = Transport.Returned t None st'.
Proof.
  induction fuel as [|fuel IH]; intros total token tr calls Hlt; [lia|].
  cbn [Transport.cleanupLoop].
  unfold Transport.cleanupRound, Transport.listObjectsV2. cbn [fst snd].
  cbn [ListObjectsV2 fakeClient_Client]. unfold fakeClient.ListObjectsV2.
  destruct (fakeClient.listOutputs (Transport.client tr)
              !! fakeClient.listCallIndex (Transport.client tr))
    as [page|] eqn:Hpage.
  - apply lookup_lt_Some in Hpage.
    destruct (decide (length (ListObjectsV2Output.Contents page) = O)).
    + destruct (ListObjectsV2Output.NextContinuationToken page); [|by eexists _, _].
      apply IH. cbn. lia.
    + unfold Transport.deleteObjects. cbn.
      destruct (ListObjectsV2Output.NextContinuationToken page); [|by eexists _, _].
      apply IH. cbn. lia.
  - cbn. by eexists _, _.
Qed.

Lemma Cleanup_fakeClient_returns {U : Type} (prefix : string)
  (tr : Transport.t (C := fakeClient.t) (U := U)) (calls : list Call) :
  fakeClient.listCallIndex (Transport.client tr) = O →
  ∃ t st', Transport.Cleanup (S (length (fakeClient.listOutputs (Transport.client tr))))
             prefix (tr, calls)
           = Transport.Returned t None st'.
Proof.
  intros Hz. apply cleanupLoop_fakeClient_returns. rewrite Hz. lia.
Qed.

(** [TestTransportCleanupDeletesObjects] *)
Example Cleanup_fakeClient_one_page :
  ∃ st',
    Transport.Cleanup 2 "prefix"
      (Transport.mk
         (fakeClient.mk None []
            [ListObjectsV2Output.mk
               [Object.mk (Some "prefix/file1"); Object.mk (Some "prefix/file2")] None]
            [] O)
         (stubUploader.mk [] None) "bucket" true, [])
    = Transport.Returned 2 None st'
    ∧ length (fakeClient.deleteInputs (Transport.client (fst st'))) = 1%nat.
Proof. eexists. split; [vm_compute; reflexivity|]. vm_compute. reflexivity. Qed.

(** Three pages, the second one empty but with a cursor: two deletions, and
    the listings follow the cursors. *)
Example Cleanup_fakeClient_three_pages :
  ∃ st',
    Transport.Cleanup 4 "prefix"
      (Transport.mk
         (fakeClient.mk None []
            [ListObjectsV2Output.mk [Object.mk (Some "prefix/a")] (Some "t1");
             ListObjectsV2Output.mk [] (Some "t2");
             ListObjectsV2Output.mk
               [Object.mk (Some "prefix/b"); Object.mk (Some "prefix/c")] None]
            [] O)
         (stubUploader.mk [] None) "bucket" true, [])
    = Transport.Returned 3 None st'
    ∧ length (fakeClient.deleteInputs (Transport.client (fst st'))) = 2%nat
    ∧ map ListObjectsV2Input.ContinuationToken (listRequests (snd st'))
      = [None; Some "t1"; Some "t2"].
Proof.
  eexists. split; [vm_compute; reflexivity|].
  split; vm_compute; reflexivity.
Qed.

(** The second listing fails after the first page was deleted: the count of
    the first page comes back with the error. *)
Example Cleanup_partial_progress :
  ∃ st',
    Transport.Cleanup 5 "prefix"
      (Transport.mk
         (scriptedClient.mk []
            [Ok (ListObjectsV2Output.mk
                   [Object.mk (Some "prefix/a"); Object.mk (Some "prefix/b")]
                   (Some "t1"));
             Err (errorString "connection reset")]
            [])
         (stubUploader.mk [] None) "bucket" true, [])
    = Transport.Returned 2
        (Some (wrapError "failed to list objects for cleanup: connection reset"
                 (errorString "connection reset")))
        st'.
Proof. eexists. vm_compute. reflexivity. Qed.

(** The deletion of the second page fails: the count is that of the first. *)
Example Cleanup_delete_fails :
  ∃ st',
    Transport.Cleanup 5 "prefix"
      (Transport.mk
         (scriptedClient.mk []
            [Ok (ListObjectsV2Output.mk [Object.mk (Some "prefix/a")] (Some "t1"));
             Ok (ListObjectsV2Output.mk [Object.mk (Some "prefix/b")] None)]
            [None; Some (errorString "access denied")])
         (stubUploader.mk [] None) "bucket" true, [])
    = Transport.Returned 1
        (Some (wrapError "failed to delete objects: access denied"
                 (errorString "access denied")))
        st'.
Proof. eexists. vm_compute. reflexivity. Qed.

(** ["builds"] does not reach ["builds-2"]. *)
Example Cleanup_builds :
  ∃ st',
    Transport.Cleanup 1 "builds"
      (Transport.mk (memoryBucket.mk ["builds/a"; "builds-2/b"; "builds/c"])
         (stubUploader.mk [] None) "bucket" true, [])
    = Transport.Returned 2 None st'
    ∧ memoryBucket.keys (Transport.client (fst st')) = ["builds-2/b"]
    ∧ map ListObjectsV2Input.Prefix (listRequests (snd st')) = [Some "builds/"].
Proof.
  eexists. split; [vm_compute; reflexivity|].
  split; vm_compute; reflexivity.
Qed.

Example builds_2_outside_builds :
  ¬ underScope (Some "builds/") (Some "builds-2/b").
Proof. intros (k & [= <-] & Hp). revert Hp. compute_done. Qed.

(** The empty prefix clears the bucket. *)
Example Cleanup_whole_bucket :
  ∃ st',
    Transport.Cleanup 1 ""
      (Transport.mk (memoryBucket.mk ["builds/a"; "builds-2/b"; "c"])
         (stubUploader.mk [] None) "bucket" true, [])
    = Transport.Returned 3 None st'
    ∧ memoryBucket.keys (Transport.client (fst st')) = []
    ∧ map ListObjectsV2Input.Prefix (listRequests (snd st')) = [None].
Proof.
  eexists. split; [vm_compute; reflexivity|].
  split; vm_compute; reflexivity.
Qed.

(** The prefix ["/"] is not empty, yet it is empty after normalization: the
    listing has no prefix and the objects of every folder are deleted. *)
Lemma C5_counterexample :
  ¬ (∀ prefix : string, prefix ≠ "" →
       stringPointer (Transport.resolvePrefix prefix)
       = Some (normalizePrefix prefix +:+ "/"))
  ∧ ∃ st',
      Transport.Cleanup 1 "/"
        (Transport.mk (memoryBucket.mk ["builds/a"; "builds-2/b"])
           (stubUploader.mk [] None) "bucket" true, [])
      = Transport.Returned 2 None st'
      ∧ memoryBucket.keys (Transport.client (fst st')) = []
      ∧ map ListObjectsV2Input.Prefix (listRequests (snd st')) = [None].
Proof.
  split.
  - intros H. specialize (H "/" ltac:(done)). vm_compute in H. discriminate.
  - eexists. split; [vm_compute; reflexivity|].
    split; vm_compute; reflexivity.
Qed.

(** ** Transfer Engine *)

Module UploadFacts.
Section WithCapabilities.
Context {C U : Type} {client_ops : Client C} {uploader_ops : PutUploader U}.
Context {lib : GoLib} (disk : Disk).
Implicit Types st : Transport.State (C := C) (U := U).

(** The guard is one probe, and its answer decides among three outcomes. *)
Lemma ensureAbsent_spec key st :
  let input := HeadObjectInput.mk (Some (Transport.bucket (fst st))) (Some key) in
  let probe := HeadObject (Transport.client (fst st)) input in
  Transport.ensureAbsent key st
  = (match fst probe with
     | Ok _ =>
         Some (Errorf ("object " +:+ key +:+ " already exists and overwrite is disabled"))
     | Err cause =>
         if isNotFound (Some cause) then None
         else Some (Errorf_w ("failed to check if " +:+ key +:+ " exists: ") cause)
     end,
     (Transport.mk (snd probe) (Transport.uploader (fst st))
        (Transport.bucket (fst st)) (Transport.overwrite (fst st)),
      snd st ++ [CallHeadObject input (errOf (fst probe))])).
Proof.
  destruct st as [tr calls]. cbn [fst snd].
  unfold Transport.ensureAbsent, Transport.headObject. cbn [fst snd].
  destruct (HeadObject (Transport.client tr) _) as [[out|cause] c]; cbn [fst snd errOf].
  - done.
  - by destruct (isNotFound (Some cause)).
Qed.

Lemma transfer_steps plan st :
  ∃ new,
    snd (snd (Transport.transfer disk plan st)) = snd st ++ new
    ∧ Transport.bucket (fst (snd (Transport.transfer disk plan st)))
      = Transport.bucket (fst st)
    ∧ Transport.overwrite (fst (snd (Transport.transfer disk plan st)))
      = Transport.overwrite (fst st)
    ∧ TransferSteps disk (Transport.bucket (fst st)) plan new
        (outcomeOf (fst (Transport.transfer disk plan st))).
Proof.
  destruct st as [tr calls]. unfold Transport.transfer. cbn [fst snd].
  destruct (Open disk (FilePlan.Source plan)) as [file|cause] eqn:Hopen.
  2:{ exists []. rewrite app_nil_r. repeat split. by apply transfer_open_fails. }
  destruct (detectContentType (FilePlan.Source plan) file) as [ctype file'] eqn:Hdet.
  destruct (File.SeekStart file') as [body|cause] eqn:Hseek.
  2:{ eexists. unfold Transport.logCall. cbn [fst snd].
      split; [by rewrite <- app_assoc|]. repeat split.
      eapply transfer_rewind_fails; [done|]. by rewrite Hdet. }
  unfold Transport.putUpload, Transport.logCall. cbn [fst snd Transport.uploader
    Transport.bucket Transport.client Transport.overwrite].
  destruct (PutUpload (Transport.uploader tr) _) as [[output|cause] u] eqn:Hput;
    cbn [fst snd Transport.bucket Transport.overwrite outcomeOf].
  - eexists. split; [by rewrite <- !app_assoc|]. repeat split.
    pose proof (transfer_put_ok disk (Transport.bucket tr) plan file body output
                  Hopen) as H.
    rewrite Hdet in H. by apply H.
  - eexists. split; [by rewrite <- !app_assoc|]. repeat split.
    pose proof (transfer_put_fails disk (Transport.bucket tr) plan file body cause
                  Hopen) as H.
    rewrite Hdet in H. by apply H.
Qed.

Lemma uploadPlan_steps plan st :
  ∃ new,
    snd (snd (Transport.uploadPlan disk plan st)) = snd st ++ new
    ∧ Transport.bucket (fst (snd (Transport.uploadPlan disk plan st)))
      = Transport.bucket (fst st)
    ∧ Transport.overwrite (fst (snd (Transport.uploadPlan disk plan st)))
      = Transport.overwrite (fst st)
    ∧ PlanSteps disk (Transport.bucket (fst st)) (Transport.overwrite (fst st)) plan
        new (outcomeOf (fst (Transport.uploadPlan disk plan st))).
Proof.
  unfold Transport.uploadPlan.
  destruct (Transport.overwrite (fst st)) eqn:Hov; cbn [negb].
  - destruct (transfer_steps plan st) as (new & Hcalls & Hb & Ho & Hsteps).
    exists new. rewrite Hov in Ho. repeat split; try done.
    by apply plan_overwrite.
  - rewrite ensureAbsent_spec. cbn zeta.
    destruct (HeadObject (Transport.client (fst st)) _) as [[out|cause] c];
      cbn [fst snd errOf].
    + eexists. repeat split; try done. by apply plan_exists.
    + destruct (isNotFound (Some cause)) eqn:Hnf.
      * match goal with |- context [Transport.transfer disk plan ?s] =>
          destruct (transfer_steps plan s) as (new & Hcalls & Hb & Ho & Hsteps)
        end.
        cbn [fst snd Transport.bucket Transport.overwrite] in *.
        exists (CallHeadObject (probeRequest (Transport.bucket (fst st)) plan)
                  (Some cause) :: new).
        split; [by rewrite Hcalls, <- app_assoc|]. split; [done|].
        split; [congruence|]. by apply plan_absent.
      * eexists. repeat split; try done. by apply plan_probe_fails.
Qed.

(** The loop of [Upload] processes the plans in order and stops at the
    first one that aborts; it returns the results only when none did. *)
Lemma uploadLoop_steps plans results st :
  ∃ new transferred,
    snd (snd (Transport.uploadLoop disk plans results st)) = snd st ++ new
    ∧ BatchSteps disk (Transport.bucket (fst st)) (Transport.overwrite (fst st))
        plans new transferred (snd (fst (Transport.uploadLoop disk plans results st)))
    ∧ fst (fst (Transport.uploadLoop disk plans results st))
      = match snd (fst (Transport.uploadLoop disk plans results st)) with
        | None => Some (results ++ transferred)
        | Some _ => None
        end.
Proof.
  revert results st. induction plans as [|plan plans IH]; intros results st.
  - exists [], []. cbn. rewrite !app_nil_r. repeat split. constructor.
  - cbn [Transport.uploadLoop].
    destruct (uploadPlan_steps plan st) as (new & Hcalls & Hb & Ho & Hsteps).
    destruct (Transport.uploadPlan disk plan st) as [[r|e] st1]; cbn [fst snd] in *.
    + destruct (IH (results ++ [r]) st1) as (new' & transferred & Hcalls' & Hbatch & Hret).
      exists (new ++ new'), (r :: transferred). split; [|split].
      * by rewrite Hcalls', Hcalls, <- app_assoc.
      * rewrite Hb, Ho in Hbatch. by eapply batch_uploaded.
      * rewrite Hret. destruct (snd (fst _)); [done|]. by rewrite <- app_assoc.
    + exists new, []. repeat split; [done|]. by apply batch_aborted.
Qed.

End WithCapabilities.
End UploadFacts.

Module DetectFacts.
Section WithLib.
Context {lib : GoLib}.


(** Otherwise at most 512 bytes are read from the position of the handle
    and sniffed. *)
Lemma detectContentType_sniff path file :
  ToLower (Ext path) = "" ∨ TypeByExtension (ToLower (Ext path)) = "" →
  detectContentType path file
  = match FileData.readFault (File.file file) with
    | Some e => (if errorsIs e EOF then DetectContentType [] else "", file)
    | None =>
        (DetectContentType (take 512 (File.unread file)),
         match take 512 (File.unread file) with
         | [] => file
         | chunk => File.mk (File.name file) (File.file file)
                      (File.pos file + length chunk)
         end)
    end.
Proof.
  intros H. unfold detectContentType.
  rewrite decide_False by (intros [? ?]; by destruct H).
  unfold File.Read. destruct (FileData.readFault (File.file file)) as [e|].
  - by destruct (errorsIs e EOF).
  - by destruct (take 512 (File.unread file)).
Qed.

(** Detection leaves the file itself alone; only the position may move. *)
Lemma detectContentType_file path file :
  File.file (snd (detectContentType path file)) = File.file file
  ∧ File.name (snd (detectContentType path file)) = File.name file.
Proof.
  unfold detectContentType. destruct (decide _); [done|].
  unfold File.Read. destruct (FileData.readFault (File.file file)) as [e|].
  - by destruct (errorsIs e EOF).
  - by destruct (take 512 (File.unread file)).
Qed.

(** After the rewind the handle yields the whole content again. *)
Lemma SeekStart_unread file body :
  File.SeekStart file = Ok body →
  File.unread body = FileData.content (File.file file)
  ∧ File.pos body = O.
Proof.
  unfold File.SeekStart. destruct (FileData.seekFault (File.file file)); [done|].
  by intros [= <-].
Qed.

Lemma Open_fresh disk path file :
  Open disk path = Ok file →
  ∃ data, Lookup disk path = Ok data ∧ file = File.mk path data 0.
Proof.
  unfold Open. destruct (Lookup disk path) as [data|]; [|done].
  intros [= <-]. by exists data.
Qed.

End WithLib.
End DetectFacts.

Module BatchFacts.
Section WithDisk.
Context {lib : GoLib} (disk : Disk) (bucket : string) (overwrite : bool).

(** The calls of a plan by outcome: a plan that was uploaded made one put,
    which succeeded, for its key; a plan that aborted made no put that
    succeeded. *)
Lemma TransferSteps_uploadedKeys plan calls outcome :
  TransferSteps disk bucket plan calls outcome →
  match outcome with
  | Uploaded r =>
      uploadedKeys calls = [Some (FilePlan.Key plan)]
      ∧ UploadResult.Key r = FilePlan.Key plan
      ∧ UploadResult.Source r = FilePlan.Source plan
      ∧ UploadResult.Size r = FilePlan.Size plan
  | Aborted _ => uploadedKeys calls = []
  end.
Proof. by destruct 1. Qed.

Lemma PlanSteps_uploadedKeys plan calls outcome :
  PlanSteps disk bucket overwrite plan calls outcome →
  match outcome with
  | Uploaded r =>
      uploadedKeys calls = [Some (FilePlan.Key plan)]
      ∧ UploadResult.Key r = FilePlan.Key plan
      ∧ UploadResult.Source r = FilePlan.Source plan
      ∧ UploadResult.Size r = FilePlan.Size plan
  | Aborted _ => uploadedKeys calls = []
  end.
Proof.
  destruct 1 as [| |cause calls outcome _ _ Ht|calls outcome _ Ht]; try done.
  - apply TransferSteps_uploadedKeys in Ht. by destruct outcome.
  - by apply TransferSteps_uploadedKeys in Ht.
Qed.

Lemma uploadedKeys_app calls1 calls2 :
  uploadedKeys (calls1 ++ calls2) = uploadedKeys calls1 ++ uploadedKeys calls2.
Proof. apply omap_app. Qed.

(** The plans that were transferred are a prefix of the plans, in order, and
    all of them exactly when no plan aborted. *)
Lemma BatchSteps_order plans calls transferred err :
  BatchSteps disk bucket overwrite plans calls transferred err →
  map UploadResult.Key transferred `prefix_of` map FilePlan.Key plans
  ∧ uploadedKeys calls = map Some (map UploadResult.Key transferred)
  ∧ match err with
    | None => length transferred = length plans
    | Some _ => (length transferred < length plans)%nat
    end.
Proof.
  induction 1 as [|plan plans calls r calls' transferred err Hplan Hbatch IH
                  |plan plans calls e Hplan].
  - by repeat split.
  - apply PlanSteps_uploadedKeys in Hplan as (Hk & Hr & _).
    destruct IH as (Hpre & Hkeys & Hlen). cbn [map length]. split; [|split].
    + rewrite Hr. by apply prefix_cons.
    + by rewrite uploadedKeys_app, Hk, Hkeys, Hr.
    + destruct err; lia.
  - apply PlanSteps_uploadedKeys in Hplan. cbn [map length]. split; [|split].
    + apply prefix_nil.
    + done.
    + lia.
Qed.

End WithDisk.
End BatchFacts.

Module GuardFacts.
Section WithDisk.
Context {lib : GoLib} (disk : Disk) (bucket : string).

Lemma TransferSteps_no_probe plan calls outcome :
  TransferSteps disk bucket plan calls outcome →
  Forall (λ c, isProbe c = false) calls.
Proof. destruct 1; by repeat constructor. Qed.

(** After a probe of its key, the calls of a transfer keep the order of
    probes and puts. *)
Lemma TransferSteps_guarded plan calls outcome rest :
  TransferSteps disk bucket plan calls outcome →
  guardedFrom None rest →
  guardedFrom (Some (Some (FilePlan.Key plan)))
    (calls ++ match outcome with Uploaded _ => rest | Aborted _ => [] end).
Proof. destruct 1; intros Hrest; by cbn. Qed.

Lemma TransferSteps_guardFailure plan calls outcome c :
  TransferSteps disk bucket plan calls outcome →
  c ∈ calls → guardFailure c = None.
Proof.
  destruct 1; intros Hin; repeat (apply elem_of_cons in Hin as [->|Hin]; [done|]);
    by apply elem_of_nil in Hin.
Qed.

Lemma PlanSteps_guarded plan calls outcome rest :
  PlanSteps disk bucket false plan calls outcome →
  guardedFrom None rest →
  guardedFrom None
    (calls ++ match outcome with Uploaded _ => rest | Aborted _ => [] end).
Proof.
  destruct 1 as [_|cause _ Hnf|cause calls outcome _ Hnf Ht|calls outcome Hov Ht];
    intros Hrest.
  - by cbn.
  - cbn [app guardedFrom]. by rewrite Hnf.
  - cbn [app guardedFrom]. rewrite Hnf.
    by apply (TransferSteps_guarded plan calls outcome rest Ht).
  - done.
Qed.

(** A probe that did not find its key absent is the only call of its plan,
    and the plan aborts with the error of the guard. *)
Lemma PlanSteps_guardFailure plan calls outcome c e :
  PlanSteps disk bucket false plan calls outcome →
  c ∈ calls → guardFailure c = Some e →
  outcome = Aborted e ∧ calls = [c].
Proof.
  destruct 1 as [_|cause _ Hnf|cause calls outcome _ Hnf Ht|calls outcome Hov Ht];
    intros Hin Hf.
  - apply list_elem_of_singleton in Hin as ->. cbn in Hf. by simplify_eq.
  - apply list_elem_of_singleton in Hin as ->. cbn [guardFailure] in Hf.
    rewrite Hnf in Hf. cbn in Hf. by simplify_eq.
  - apply elem_of_cons in Hin as [->|Hin].
    + cbn [guardFailure] in Hf. by rewrite Hnf in Hf.
    + by rewrite (TransferSteps_guardFailure plan calls outcome c Ht Hin) in Hf.
  - done.
Qed.

Lemma BatchSteps_guarded plans calls transferred err :
  BatchSteps disk bucket false plans calls transferred err →
  guardedFrom None calls.
Proof.
  induction 1 as [|plan plans calls r calls' transferred err Hplan Hbatch IH
                  |plan plans calls e Hplan].
  - done.
  - apply (PlanSteps_guarded plan calls (Uploaded r) calls' Hplan IH).
  - pose proof (PlanSteps_guarded plan calls (Aborted e) [] Hplan I) as H.
    by rewrite app_nil_r in H.
Qed.

Lemma BatchSteps_guardFailure plans calls transferred err c e :
  BatchSteps disk bucket false plans calls transferred err →
  c ∈ calls → guardFailure c = Some e →
  err = Some e ∧ last calls = Some c.
Proof.
  induction 1 as [|plan plans calls r calls' transferred err Hplan Hbatch IH
                  |plan plans calls e' Hplan]; intros Hin Hf.
  - by apply elem_of_nil in Hin.
  - apply elem_of_app in Hin as [Hin|Hin].
    + by destruct (PlanSteps_guardFailure plan calls (Uploaded r) c e Hplan Hin Hf).
    + destruct (IH Hin Hf) as [-> Hlast]. split; [done|].
      by rewrite last_app, Hlast.
  - destruct (PlanSteps_guardFailure plan calls (Aborted e') c e Hplan Hin Hf)
      as [[= ->] ->].
    done.
Qed.

Lemma BatchSteps_no_probe plans calls transferred err :
  BatchSteps disk bucket true plans calls transferred err →
  Forall (λ c, isProbe c = false) calls.
Proof.
  induction 1 as [|plan plans calls r calls' transferred err Hplan Hbatch IH
                  |plan plans calls e Hplan].
  - constructor.
  - apply Forall_app. split; [|done].
    inversion Hplan; subst; [done|]. by eapply TransferSteps_no_probe.
  - inversion Hplan; subst; try done. by eapply TransferSteps_no_probe.
Qed.

(** Every put carries the whole file of its plan. *)
Lemma TransferSteps_faithful plan calls outcome :
  TransferSteps disk bucket plan calls outcome →
  Forall (faithfulPut disk [plan]) calls.
Proof.
  assert (∀ file body cause_or_output,
            Open disk (FilePlan.Source plan) = Ok file →
            File.SeekStart (snd (detectContentType (FilePlan.Source plan) file))
            = Ok body →
            faithfulPut disk [plan]
              (CallUpload
                 (putRequest bucket plan
                    (fst (detectContentType (FilePlan.Source plan) file)) body)
                 cause_or_output)) as Hput.
  { intros file body out Hopen Hseek.
    apply DetectFacts.Open_fresh in Hopen as (data & Hdata & ->).
    apply DetectFacts.SeekStart_unread in Hseek as [Hunread Hpos].
    destruct (DetectFacts.detectContentType_file (FilePlan.Source plan)
                (File.mk (FilePlan.Source plan) data 0)) as [Hfile _].
    rewrite Hfile in Hunread. exists plan, data.
    split; [by left|]. by repeat split. }
  destruct 1; repeat constructor; by eapply Hput.
Qed.

Lemma faithfulPut_weaken plans plans' c :
  plans ⊆ plans' → faithfulPut disk plans c → faithfulPut disk plans' c.
Proof.
  intros Hsub. destruct c as [| | |input out| |]; try done.
  intros (plan & data & Hin & H). exists plan, data. split; [by apply Hsub|done].
Qed.

Lemma BatchSteps_faithful overwrite plans calls transferred err :
  BatchSteps disk bucket overwrite plans calls transferred err →
  Forall (faithfulPut disk plans) calls.
Proof.
  assert (∀ plan plans calls outcome,
            PlanSteps disk bucket overwrite plan calls outcome →
            Forall (faithfulPut disk (plan :: plans)) calls) as Hplan'.
  { intros plan plans' calls' outcome Hp.
    assert (Forall (faithfulPut disk [plan]) calls') as H.
    { destruct Hp as [| |cause calls' outcome _ _ Ht|calls' outcome _ Ht];
        try (by repeat constructor).
      - constructor; [done|]. by eapply TransferSteps_faithful.
      - by eapply TransferSteps_faithful. }
    eapply Forall_impl; [exact H|]. intros c. apply faithfulPut_weaken.
    intros p ->%list_elem_of_singleton. by left. }
  induction 1 as [|plan plans calls r calls' transferred err Hplan Hbatch IH
                  |plan plans calls e Hplan].
  - constructor.
  - apply Forall_app. split; [by eapply Hplan'|].
    eapply Forall_impl; [exact IH|]. intros c. apply faithfulPut_weaken.
    intros p Hp. by right.
  - by eapply Hplan'.
Qed.

End WithDisk.
End GuardFacts.

(** C3. [Upload] of a non-empty plan list processes the plans in the order
    given and stops at the first plan that fails, at the guard, the open, the
    rewind or the put.  It then returns the error and the nil result list,
    although the plans before the failing one were put to storage; it returns
    results, one per plan and in order, only when no plan failed. *)
Theorem C3_upload_fail_fast {C U : Type} {client_ops : Client C}
  {uploader_ops : PutUploader U} {lib : GoLib} (disk : Disk)
  (plans : list FilePlan.t) (st : Transport.State (C := C) (U := U)) :
  plans ≠ [] →
  ∃ new transferred,
    snd (snd (Transport.Upload disk (Some plans) st)) = snd st ++ new
    ∧ BatchSteps disk (Transport.bucket (fst st)) (Transport.overwrite (fst st))
        plans new transferred (snd (fst (Transport.Upload disk (Some plans) st)))
    ∧ map UploadResult.Key transferred `prefix_of` map FilePlan.Key plans
    ∧ uploadedKeys new = map Some (map UploadResult.Key transferred)
    ∧ match snd (fst (Transport.Upload disk (Some plans) st)) with
      | None =>
          fst (fst (Transport.Upload disk (Some plans) st)) = Some transferred
          ∧ length transferred = length plans
      | Some _ =>
          fst (fst (Transport.Upload disk (Some plans) st)) = None
          ∧ (length transferred < length plans)%nat
      end.
Proof.
  intros Hne. unfold Transport.Upload.
  rewrite decide_False by (by destruct plans).
  cbn [elems].
  destruct (UploadFacts.uploadLoop_steps disk plans [] st)
    as (new & transferred & Hcalls & Hbatch & Hret).
  exists new, transferred. split; [done|]. split; [done|].
  destruct (BatchFacts.BatchSteps_order _ _ _ _ _ _ _ Hbatch) as (Hpre & Hkeys & Hlen).
  split; [done|]. split; [done|].
  rewrite Hret. by destruct (snd (fst _)).
Qed.

(** Three plans of which the second cannot be opened: the first one is put,
    and the call returns the error and no result. *)
Example Upload_three_plans_second_fails :
  ∃ st',
    Transport.Upload (lib := Unix.lib) exampleDisk (Some threePlans)
      (exampleTransport true)
    = (None,
       Some (wrapError "failed to open missing.txt: no such file or directory"
               Unix.ENOENT),
       st')
    ∧ map PutObjectInput.Key (stubUploader.uploads (Transport.uploader (fst st')))
      = [Some "artifact/data.txt"].
Proof.
  eexists. split; [vm_compute; reflexivity|]. vm_compute. reflexivity.
Qed.

Lemma C3_upload_fail_fast_witness :
  threePlans ≠ []
  ∧ ∃ new transferred,
      snd (snd (Transport.Upload (lib := Unix.lib) exampleDisk (Some threePlans)
                  (exampleTransport true)))
      = snd (exampleTransport true) ++ new
      ∧ BatchSteps (lib := Unix.lib) exampleDisk "bucket" true threePlans new
          transferred
          (snd (fst (Transport.Upload (lib := Unix.lib) exampleDisk
                       (Some threePlans) (exampleTransport true))))
      ∧ map UploadResult.Key transferred `prefix_of` map FilePlan.Key threePlans
      ∧ uploadedKeys new = map Some (map UploadResult.Key transferred)
      ∧ match snd (fst (Transport.Upload (lib := Unix.lib) exampleDisk
                          (Some threePlans) (exampleTransport true))) with
        | None =>
            fst (fst (Transport.Upload (lib := Unix.lib) exampleDisk
                        (Some threePlans) (exampleTransport true)))
            = Some transferred
            ∧ length transferred = length threePlans
        | Some _ =>
            fst (fst (Transport.Upload (lib := Unix.lib) exampleDisk
                        (Some threePlans) (exampleTransport true))) = None
            ∧ (length transferred < length threePlans)%nat
        end.
Proof.
  split; [discriminate|].
  apply (C3_upload_fail_fast (lib := Unix.lib) exampleDisk threePlans
           (exampleTransport true)).
  discriminate.
Defined.

(** C4. The existence guard makes one metadata probe of the key and has
    three outcomes: a probe that returns without error (the key exists) gives
    the already-exists error that names the key; a probe that fails with a
    recognized not-found condition gives success; a probe that fails otherwise
    gives an error that wraps the cause.  A not-found condition is recognized
    by the S3 not-found error types along the chain of causes, or by the code
    of the first API error of the chain, compared in lower case. *)
Theorem C4_existence_guard {C U : Type} {client_ops : Client C} {lib : GoLib}
  (key : string) (st : Transport.State (C := C) (U := U)) :
  let input := HeadObjectInput.mk (Some (Transport.bucket (fst st))) (Some key) in
  let probe := fst (HeadObject (Transport.client (fst st)) input) in
  snd (snd (Transport.ensureAbsent key st))
  = snd st ++ [CallHeadObject input (errOf probe)]
  ∧ (∀ out, probe = Ok out →
       fst (Transport.ensureAbsent key st)
       = Some (Errorf ("object " +:+ key +:+ " already exists and overwrite is disabled")))
  ∧ (∀ cause, probe = Err cause → isNotFound (Some cause) = true →
       fst (Transport.ensureAbsent key st) = None)
  ∧ (∀ cause, probe = Err cause → isNotFound (Some cause) = false →
       fst (Transport.ensureAbsent key st)
       = Some (wrapError (("failed to check if " +:+ key +:+ " exists: ")
                          +:+ Error cause) cause))
  ∧ (∀ cause,
       isNotFound (Some cause) = true
       ↔ asNotFound cause = true ∨ asNoSuchKey cause = true
         ∨ ∃ code, asAPIError cause = Some code
                   ∧ ToLower code ∈ ["notfound"; "nosuchkey"; "404"; "no such key"]).
Proof.
  intros input probe. rewrite UploadFacts.ensureAbsent_spec. cbn [fst snd].
  fold input. fold probe. split; [done|].
  split; [by intros out ->|].
  split; [by intros cause -> ->|].
  split; [by intros cause -> ->|].
  intros cause. unfold isNotFound.
  destruct (asNotFound cause); [by split; [left|]|].
  destruct (asNoSuchKey cause); [by split; [right; left|]|].
  destruct (asAPIError cause) as [code|].
  - rewrite bool_decide_eq_true. split.
    + intros H. right. right. by exists code.
    + intros [?|[?|(code' & [= <-] & H)]]; done.
  - split; [done|]. by intros [?|[?|(code' & ? & _)]].
Qed.

(** [TestEnsureAbsentIgnoresNotFound] *)
Example ensureAbsent_ignores_not_found :
  fst (Transport.ensureAbsent (lib := Unix.lib) "missing"
         (Transport.mk (fakeClient.mk (Some (stubAPIError "NoSuchKey")) [] [] [] O)
            (stubUploader.mk [] None) "bucket" false, []))
  = None.
Proof. vm_compute. reflexivity. Qed.

Example ensureAbsent_object_exists :
  fst (Transport.ensureAbsent (lib := Unix.lib) "existing.txt" (exampleTransport false))
  = Some (errorString "object existing.txt already exists and overwrite is disabled").
Proof. vm_compute. reflexivity. Qed.

Example ensureAbsent_other_error :
  fst (Transport.ensureAbsent (lib := Unix.lib) "k"
         (Transport.mk (fakeClient.mk (Some (errorString "boom")) [] [] [] O)
            (stubUploader.mk [] None) "bucket" false, []))
  = Some (wrapError "failed to check if k exists: boom" (errorString "boom")).
Proof. vm_compute. reflexivity. Qed.

Example isNotFound_examples :
  isNotFound (lib := Unix.lib) (Some (stubAPIError "NotFound")) = true
  ∧ isNotFound (lib := Unix.lib) (Some (stubAPIError "No Such Key")) = true
  ∧ isNotFound (lib := Unix.lib) (Some (stubAPIError "404")) = true
  ∧ isNotFound (lib := Unix.lib)
      (Some (wrapError "operation error S3: HeadObject" (NotFound "NotFound"))) = true
  ∧ isNotFound (lib := Unix.lib) (Some (stubAPIError "AccessDenied")) = false
  ∧ isNotFound (lib := Unix.lib) (Some (errorString "boom")) = false
  ∧ isNotFound (lib := Unix.lib) None = false.
Proof. vm_compute. by repeat split. Qed.

Module GuardRunFacts.
Section WithDisk.
Context {lib : GoLib} (disk : Disk) (bucket : string).

Lemma TransferSteps_probeRequests plan calls outcome :
  TransferSteps disk bucket plan calls outcome → probeRequests calls = [].
Proof. by destruct 1. Qed.

(** With overwrite disabled a plan is probed once, for its key, whatever
    becomes of it. *)
Lemma PlanSteps_probeRequests plan calls outcome :
  PlanSteps disk bucket false plan calls outcome →
  probeRequests calls = [probeRequest bucket plan].
Proof.
  destruct 1 as [_|cause _ Hnf|cause calls outcome _ Hnf Ht|calls outcome Hov Ht];
    try done.
  apply TransferSteps_probeRequests in Ht.
  change (probeRequests (CallHeadObject (probeRequest bucket plan) (Some cause)
                         :: calls))
    with (probeRequest bucket plan :: probeRequests calls).
  by rewrite Ht.
Qed.

(** The probes of a batch are those of the plans that were processed, in
    order: the plans that were uploaded and the plan that aborted. *)
Lemma BatchSteps_probeRequests plans calls transferred err :
  BatchSteps disk bucket false plans calls transferred err →
  probeRequests calls
  = map (probeRequest bucket)
        (take (length transferred + match err with Some _ => 1 | None => 0 end)
              plans).
Proof.
  induction 1 as [|plan plans calls r calls' transferred err Hplan Hbatch IH
                  |plan plans calls e Hplan].
  - done.
  - apply PlanSteps_probeRequests in Hplan. unfold probeRequests in *.
    rewrite omap_app, Hplan, IH. done.
  - apply PlanSteps_probeRequests in Hplan. by rewrite Hplan.
Qed.

End WithDisk.
End GuardRunFacts.

(** C8. With overwrite enabled, [Upload] never probes.  With overwrite
    disabled every put is for the key that was probed, and found absent, just
    before it; a probe that finds its key, or that fails otherwise, is the
    last call of [Upload] (no put follows it), and [Upload] returns the error
    of the guard and no result.  And the guard runs for each plan: the calls
    of a non-empty plan list are those of the plans in order, each starting
    with the probe of its key, so that the probes made are exactly those of
    the plans that were uploaded and of the plan that aborted, if one did, in
    the order of the plans. *)
Theorem C8_guard_before_put {C U : Type} {client_ops : Client C}
  {uploader_ops : PutUploader U} {lib : GoLib} (disk : Disk)
  (plans : slice FilePlan.t) (st : Transport.State (C := C) (U := U)) :
  ∃ new,
    snd (snd (Transport.Upload disk plans st)) = snd st ++ new
    ∧ (Transport.overwrite (fst st) = true → Forall (λ c, isProbe c = false) new)
    ∧ (Transport.overwrite (fst st) = false →
       guardedFrom None new
       ∧ (∀ c e, c ∈ new → guardFailure c = Some e →
            last new = Some c
            ∧ fst (Transport.Upload disk plans st) = (None, Some e))
       ∧ (len plans ≠ O →
          ∃ transferred,
            BatchSteps disk (Transport.bucket (fst st)) false (elems plans) new
              transferred (snd (fst (Transport.Upload disk plans st)))
            ∧ probeRequests new
              = map (probeRequest (Transport.bucket (fst st)))
                    (take (length transferred
                           + match snd (fst (Transport.Upload disk plans st)) with
                             | Some _ => 1
                             | None => 0
                             end)
                          (elems plans))
            ∧ uploadedKeys new = map Some (map UploadResult.Key transferred)
            ∧ map UploadResult.Key transferred
              `prefix_of` map FilePlan.Key (elems plans)
            ∧ match snd (fst (Transport.Upload disk plans st)) with
              | None =>
                  fst (fst (Transport.Upload disk plans st)) = Some transferred
                  ∧ length transferred = len plans
              | Some _ =>
                  fst (fst (Transport.Upload disk plans st)) = None
                  ∧ (length transferred < len plans)%nat
              end)).
Proof.
  unfold Transport.Upload. destruct (decide (len plans = O)) as [Hz|Hnz].
  { exists []. cbn [fst snd]. rewrite app_nil_r. split; [done|].
    split; [by constructor|]. intros _. split; [done|]. split; [|done].
    intros c e Hin. by apply elem_of_nil in Hin. }
  destruct (UploadFacts.uploadLoop_steps disk (elems plans) [] st)
    as (new & transferred & Hcalls & Hbatch & Hret).
  exists new. split; [done|]. split.
  - intros Hov. rewrite Hov in Hbatch.
    by eapply GuardFacts.BatchSteps_no_probe.
  - intros Hov. rewrite Hov in Hbatch. split; [|split].
    + by eapply GuardFacts.BatchSteps_guarded.
    + intros c e Hin Hf.
      destruct (GuardFacts.BatchSteps_guardFailure _ _ _ _ _ _ c e Hbatch Hin Hf)
        as [Herr Hlast].
      split; [done|]. rewrite Herr in Hret.
      destruct (Transport.uploadLoop disk (elems plans) [] st) as [[ret err] st'].
      cbn [fst snd] in *. by subst.
    + intros _. exists transferred. split; [done|].
      split; [by eapply GuardRunFacts.BatchSteps_probeRequests|].
      destruct (BatchFacts.BatchSteps_order _ _ _ _ _ _ _ Hbatch)
        as (Hpre & Hkeys & Hlen).
      split; [done|]. split; [done|].
      assert (length (elems plans) = len plans) as <- by (by destruct plans).
      rewrite Hret. by destruct (snd (fst _)).
Qed.

(** Two plans with overwrite disabled, in a bucket where no probed key
    exists. *)
Lemma C8_guard_before_put_witness :
  let plans := [FilePlan.mk "data.txt" "artifact/data.txt" 3;
                FilePlan.mk "d/sub/x.bin" "artifact/x.bin" 3] in
  let st : Transport.State (C := fakeClient.t) (U := stubUploader.t) :=
    (Transport.mk (fakeClient.mk (Some (stubAPIError "NotFound")) [] [] [] O)
       (stubUploader.mk [] None) "bucket" false, []) in
  ∃ new,
    snd (snd (Transport.Upload (lib := Unix.lib) exampleDisk (Some plans) st))
    = snd st ++ new
    ∧ guardedFrom (lib := Unix.lib) None new
    ∧ probeRequests new = map (probeRequest "bucket") plans
    ∧ uploadedKeys new = map (λ plan, Some (FilePlan.Key plan)) plans.
Proof.
  intros plans st.
  destruct (C8_guard_before_put (lib := Unix.lib) exampleDisk (Some plans) st)
    as (new & Hlog & _ & Hoff).
  destruct (Hoff eq_refl) as (Hguard & _ & Hbatch).
  destruct Hbatch as (transferred & _ & Hprobes & Hkeys & _ & Hret); [discriminate|].
  assert (Transport.Upload (lib := Unix.lib) exampleDisk (Some plans) st
          = (Some [UploadResult.mk "data.txt" "artifact/data.txt" 3 "etag";
                   UploadResult.mk "d/sub/x.bin" "artifact/x.bin" 3 "etag"],
             None,
             snd (Transport.Upload (lib := Unix.lib) exampleDisk (Some plans) st)))
    as Hup by (vm_compute; reflexivity).
  rewrite Hup in Hprobes, Hret. cbn [fst snd] in Hprobes, Hret.
  destruct Hret as [[= <-] _].
  exists new. split; [exact Hlog|]. split; [exact Hguard|].
  split; [exact Hprobes|exact Hkeys].
Defined.

(** [TestTransportUploadNoOverwrite]: the object exists, one probe, no put. *)
Example Upload_no_overwrite_existing :
  ∃ st',
    Transport.Upload (lib := Unix.lib) exampleDisk
      (Some [FilePlan.mk "data.txt" "existing.txt" 1]) (exampleTransport false)
    = (None,
       Some (errorString "object existing.txt already exists and overwrite is disabled"),
       st')
    ∧ fakeClient.headCalls (Transport.client (fst st')) = ["existing.txt"]
    ∧ stubUploader.uploads (Transport.uploader (fst st')) = [].
Proof.
  eexists. split; [vm_compute; reflexivity|]. split; vm_compute; reflexivity.
Qed.

(** [TestTransportUploadAllowsMissingObject]: the probe answers not found,
    the file is put and the result carries the token of the backend. *)
Example Upload_no_overwrite_missing :
  ∃ st',
    Transport.Upload (lib := Unix.lib) exampleDisk
      (Some [FilePlan.mk "data.txt" "new.txt" 5])
      (Transport.mk (fakeClient.mk (Some (stubAPIError "NotFound")) [] [] [] O)
         (stubUploader.mk [] None) "bucket" false, [])
    = (Some [UploadResult.mk "data.txt" "new.txt" 5 "etag"], None, st')
    ∧ fakeClient.headCalls (Transport.client (fst st')) = ["new.txt"]
    ∧ map PutObjectInput.Key (stubUploader.uploads (Transport.uploader (fst st')))
      = [Some "new.txt"].
Proof.
  eexists. split; [vm_compute; reflexivity|]. split; vm_compute; reflexivity.
Qed.

Example Upload_overwrite_never_probes :
  ∃ st',
    Transport.Upload (lib := Unix.lib) exampleDisk
      (Some [FilePlan.mk "data.txt" "a.txt" 3; FilePlan.mk "d/data.txt" "b.txt" 5])
      (exampleTransport true)
    = (Some [UploadResult.mk "data.txt" "a.txt" 3 "etag";
             UploadResult.mk "d/data.txt" "b.txt" 5 "etag"], None, st')
    ∧ fakeClient.headCalls (Transport.client (fst st')) = [].
Proof.
  eexists. split; [vm_compute; reflexivity|]. vm_compute. reflexivity.
Qed.

Module ContentFacts.
Section WithDisk.
Context {lib : GoLib} (disk : Disk) (bucket : string) (overwrite : bool).






End WithDisk.
End ContentFacts.



(** A [.txt] file gets the type of the table; a file with an extension the
    table does not know is sniffed; both bodies are the whole files. *)
Example Upload_content_types :
  ∃ st',
    snd (Transport.Upload (lib := Unix.lib) exampleDisk
           (Some [FilePlan.mk "data.txt" "a.txt" 3; FilePlan.mk "d/sub/x.bin" "x" 3])
           (exampleTransport true))
    = st'
    ∧ map PutObjectInput.ContentType (putRequests (snd st'))
      = [Some "text/plain; charset=utf-8"; Some "application/octet-stream"]
    ∧ map (λ input, str (File.unread (PutObjectInput.Body input)))
          (putRequests (snd st'))
      = ["one"; "xyz"].
Proof.
  eexists. split; [vm_compute; reflexivity|]. split; vm_compute; reflexivity.
Qed.

(** The sniff moves the read position; the rewind brings it back. *)
Example detectContentType_moves_position :
  File.pos (snd (detectContentType (lib := Unix.lib) "d/sub/x.bin"
                   (File.mk "d/sub/x.bin" (FileData.mk (bytes "xyz") None None) 0)))
  = 3%nat.
Proof. vm_compute. reflexivity. Qed.

Module EmptyPlanFacts.
Section WithDisk.
Context {lib : GoLib} (disk : Disk).

Lemma scanEntries_skipped es st :
  Forall (λ e, e = Skipped) es → scanEntries es st = (st, None).
Proof.
  induction 1 as [|e es -> _ IH]; [done|]. cbn. apply IH.
Qed.

(** Input paths that are directories in which the walk finds directories
    only give the empty plan list, and no error. *)
Lemma BuildPlans_directories_only paths prefix :
  paths ≠ [] →
  Forall (λ p,
            GoStrings.TrimSpace p ≠ ""
            ∧ ∃ info, Stat disk (GoStrings.TrimSpace p) = Ok info
                      ∧ FileInfo.IsDir info = true
                      ∧ Forall (λ v, Visit.walkErr v = None
                                     ∧ DirEntry.IsDir (Visit.entry v) = true)
                               (Walk disk (Clean (GoStrings.TrimSpace p))))
         paths →
  BuildPlans disk paths prefix = (Some [], None).
Proof.
  intros Hne Hdirs.
  rewrite (PlanBuilderFacts.BuildPlans_scan disk paths prefix Hne).
  rewrite scanEntries_skipped; [done|].
  unfold traversal. apply Forall_flat_map.
  eapply Forall_impl; [exact Hdirs|].
  intros p (Hblank & info & Hstat & Hdir & Hwalk). unfold pathEntries.
  rewrite decide_False by done. rewrite Hstat, Hdir.
  apply Forall_fmap. eapply Forall_impl; [exact Hwalk|].
  intros v [Herr Hd]. unfold visitEntry. cbn. by rewrite Herr, Hd.
Qed.

End WithDisk.
End EmptyPlanFacts.

(** C10. There are input paths, not empty and none of them blank, namely
    directories in which there is no file, for which [BuildPlans] succeeds
    with the empty plan list; [Upload] of that list fails with the
    no-files error and makes no call at all. *)
Theorem C10_empty_plan_gap :
  ∃ (disk : Disk) (paths : list string),
    paths ≠ []
    ∧ Forall (λ p, GoStrings.TrimSpace p ≠ "") paths
    ∧ Forall (λ p, ∃ info, Stat disk p = Ok info
                           ∧ FileInfo.IsDir info = true
                           ∧ Forall (λ v, DirEntry.IsDir (Visit.entry v) = true)
                                    (Walk disk p))
             paths
    ∧ BuildPlans (lib := Unix.lib) disk paths "artifact" = (Some [], None)
    ∧ ∀ (C U : Type) (client_ops : Client C) (uploader_ops : PutUploader U)
        (st : Transport.State (C := C) (U := U)),
        Transport.Upload (lib := Unix.lib) disk
          (fst (BuildPlans (lib := Unix.lib) disk paths "artifact")) st
        = (None, Some (Errorf "no files provided for upload"), st).
Proof.
  exists exampleDisk, ["empty"].
  assert (BuildPlans (lib := Unix.lib) exampleDisk ["empty"] "artifact"
          = (Some [], None)) as Hplans.
  { apply (EmptyPlanFacts.BuildPlans_directories_only (lib := Unix.lib));
      [done|].
    constructor; [|constructor]. split; [by vm_compute|].
    eexists. split; [vm_compute; reflexivity|]. split; [done|].
    vm_compute. by repeat constructor. }
  split; [done|]. split; [by repeat constructor|]. split.
  { constructor; [|constructor]. eexists.
    split; [vm_compute; reflexivity|]. split; [done|].
    vm_compute. by repeat constructor. }
  split; [done|].
  intros C U client_ops uploader_ops st. by rewrite Hplans.
Qed.

(** An empty or nil plan list is refused before any call. *)
Example Upload_nil_plans :
  Transport.Upload (lib := Unix.lib) exampleDisk None (exampleTransport false)
  = (None, Some (errorString "no files provided for upload"), exampleTransport false).
Proof. reflexivity. Qed.

(* ===================================================================== *)
(** * Part III: further properties of the code                            *)
(* ===================================================================== *)

(** ** Plan Builder: when [BuildPlans] succeeds, and with what *)

Module PlanBuilderMoreFacts.

(** A scan that reaches the end met no failure, and the keys it met were new
    and distinct. *)
Lemma scanEntries_success es st st' :
  scanEntries es st = (st', None) →
  Forall (λ e, isFailed e = false) es
  ∧ NoDup (map FilePlan.Key (resolved es))
  ∧ (∀ k, k ∈ map FilePlan.Key (resolved es) → k ∉ snd st).
Proof.
  revert st. induction es as [|e es IH]; intros [plans seen] Hscan.
  - repeat split; [constructor|constructor|]. intros k Hk. by apply elem_of_nil in Hk.
  - destruct e as [p| |err]; cbn [scanEntries snd fst] in Hscan; [| |done].
    + destruct (decide (FilePlan.Key p ∈ seen)) as [|Hnew]; [done|].
      destruct (IH _ Hscan) as (Hok & Hnd & Hfresh). cbn [snd] in Hfresh.
      change (resolved (Resolved p :: es)) with (p :: resolved es). cbn [map].
      split; [by constructor|]. split.
      * apply NoDup_cons. split; [|done]. intros Hin.
        apply (Hfresh _ Hin). apply elem_of_union. left. by apply elem_of_singleton.
      * intros k [->|Hin]%elem_of_cons; [done|].
        intros Hk. apply (Hfresh _ Hin). apply elem_of_union. by right.
    + destruct (IH _ Hscan) as (Hok & Hnd & Hfresh).
      split; [by constructor|]. by split.
Qed.

(** A scan stops at the first failed entry when the entries before it have
    distinct new keys. *)
Lemma scanEntries_first_failure pre e post st :
  Forall (λ e, isFailed e = false) pre →
  NoDup (map FilePlan.Key (resolved pre)) →
  (∀ k, k ∈ map FilePlan.Key (resolved pre) → k ∉ snd st) →
  snd (scanEntries (pre ++ Failed e :: post) st) = Some e.
Proof.
  intros Hok Hnd Hfresh.
  by rewrite PlanBuilderFacts.scanEntries_app, PlanBuilderFacts.scanEntries_fresh.
Qed.

(** The error of a scan is the error of a failed entry or names a
    duplicate key. *)
Lemma scanEntries_error es st st' err :
  scanEntries es st = (st', Some err) →
  Failed err ∈ es
  ∨ ∃ key, err = Errorf ("duplicate object key detected: " +:+ key).
Proof.
  revert st. induction es as [|e es IH]; intros [plans seen]; [done|].
  destruct e as [p| |e]; cbn [scanEntries snd fst].
  - destruct (decide (FilePlan.Key p ∈ seen)).
    + intros [= <- <-]. right. by eexists.
    + intros [H|H]%IH; [left; by right|by right].
  - intros [H|H]%IH; [left; by right|by right].
  - intros [= <- <-]. left. by left.
Qed.

Section WithDisk.
Context {lib : GoLib} (disk : Disk).

Lemma traversal_app paths1 paths2 prefix :
  traversal disk (paths1 ++ paths2) prefix
  = traversal disk paths1 prefix ++ traversal disk paths2 prefix.
Proof. apply flat_map_app. Qed.

(** Every plan of the traversal has a key built by [joinKey] on the
    normalized prefix. *)
Lemma traversal_keys paths prefix p :
  Resolved p ∈ traversal disk paths prefix →
  ∃ rel, FilePlan.Key p = joinKey (normalizePrefix prefix) rel.
Proof.
  unfold traversal. intros Hin. apply list_elem_of_In, in_flat_map in Hin.
  destruct Hin as (candidate & _ & Hin). apply list_elem_of_In in Hin.
  unfold pathEntries in Hin.
  destruct (decide (GoStrings.TrimSpace candidate = "")).
  { by apply list_elem_of_singleton in Hin. }
  destruct (Stat disk _) as [info|err]; [|by apply list_elem_of_singleton in Hin].
  destruct (FileInfo.IsDir info).
  - apply list_elem_of_fmap in Hin as (v & Hv & _). unfold visitEntry in Hv.
    destruct (Visit.walkErr v); [done|].
    destruct (DirEntry.IsDir (Visit.entry v)); [done|].
    destruct (DirEntry.Info (Visit.entry v)); [|done].
    destruct (Rel _ _) as [rel|]; [|done].
    injection Hv as ->. by eexists.
  - apply list_elem_of_singleton in Hin. injection Hin as ->. by eexists.
Qed.

(** The failures of the traversal of paths that are not blank wrap the
    error of the disk or of the library. *)
Lemma traversal_failures paths prefix err :
  Forall (λ candidate, GoStrings.TrimSpace candidate ≠ "") paths →
  Failed err ∈ traversal disk paths prefix →
  ∃ msg cause, err = wrapError msg cause.
Proof.
  unfold traversal. intros Hall Hin. apply list_elem_of_In, in_flat_map in Hin.
  destruct Hin as (candidate & Hc & Hin). apply list_elem_of_In in Hin, Hc.
  rewrite Forall_forall in Hall. specialize (Hall _ Hc).
  unfold pathEntries in Hin. rewrite decide_False in Hin by done.
  destruct (Stat disk _) as [info|cause].
  - destruct (FileInfo.IsDir info).
    + apply list_elem_of_fmap in Hin as (v & Hv & _). unfold visitEntry in Hv.
      destruct (Visit.walkErr v); [injection Hv as ->; by eexists _, _|].
      destruct (DirEntry.IsDir (Visit.entry v)); [done|].
      destruct (DirEntry.Info (Visit.entry v)); [|injection Hv as ->; by eexists _, _].
      destruct (Rel _ _); [done|]. injection Hv as ->. by eexists _, _.
    + by apply list_elem_of_singleton in Hin.
  - apply list_elem_of_singleton in Hin. injection Hin as ->. by eexists _, _.
Qed.

(** [BuildPlans] returns without an error only when there is a path, no
    entry of the traversal failed and the keys of the plans are distinct; it
    then returns the plans of the traversal. *)
Lemma BuildPlans_success_inv paths prefix plans :
  BuildPlans disk paths prefix = (plans, None) →
  paths ≠ []
  ∧ Forall (λ e, isFailed e = false) (traversal disk paths prefix)
  ∧ NoDup (map FilePlan.Key (resolved (traversal disk paths prefix)))
  ∧ plans = Some (resolved (traversal disk paths prefix)).
Proof.
  intros Hb. assert (paths ≠ []) as Hne.
  { intros ->. by cbn in Hb. }
  rewrite (PlanBuilderFacts.BuildPlans_scan disk paths prefix Hne) in Hb.
  destruct (scanEntries _ _) as [st' [err|]] eqn:Hscan; [done|].
  destruct (scanEntries_success _ _ _ Hscan) as (Hok & Hnd & Hfresh).
  rewrite PlanBuilderFacts.scanEntries_fresh in Hscan by done.
  injection Hscan as <-. injection Hb as <-. by repeat split.
Qed.

Lemma BuildPlans_success_intro paths prefix :
  paths ≠ [] →
  Forall (λ e, isFailed e = false) (traversal disk paths prefix) →
  NoDup (map FilePlan.Key (resolved (traversal disk paths prefix))) →
  BuildPlans disk paths prefix = (Some (resolved (traversal disk paths prefix)), None).
Proof.
  intros Hne Hok Hnd.
  rewrite (PlanBuilderFacts.BuildPlans_scan disk paths prefix Hne).
  rewrite PlanBuilderFacts.scanEntries_fresh; [done|done|done|].
  intros k _. apply not_elem_of_empty.
Qed.

End WithDisk.
End PlanBuilderMoreFacts.

(** X1. [BuildPlans] returns plans and no error exactly when at least one
    path was given, no entry of the traversal failed (no blank path, no
    failure of the disk) and the keys of the files found are pairwise
    distinct; the plans are then the files of the traversal, in traversal
    order. *)
Theorem X1_BuildPlans_success {lib : GoLib} (disk : Disk) (paths : list string)
  (prefix : string) (plans : list FilePlan.t) :
  BuildPlans disk paths prefix = (Some plans, None)
  ↔ paths ≠ []
    ∧ Forall (λ e, isFailed e = false) (traversal disk paths prefix)
    ∧ NoDup (map FilePlan.Key (resolved (traversal disk paths prefix)))
    ∧ plans = resolved (traversal disk paths prefix).
Proof.
  split.
  - intros (Hne & Hok & Hnd & [= ->])%PlanBuilderMoreFacts.BuildPlans_success_inv.
    by repeat split.
  - intros (Hne & Hok & Hnd & ->).
    by apply PlanBuilderMoreFacts.BuildPlans_success_intro.
Qed.

(** X2. [BuildPlans] is all or nothing: it returns a plan list whose keys
    are pairwise distinct and no error, or the nil plan list and an error;
    never plans together with an error, and never neither. *)
Theorem X2_BuildPlans_all_or_nothing {lib : GoLib} (disk : Disk)
  (paths : list string) (prefix : string) :
  (∃ plans, BuildPlans disk paths prefix = (Some plans, None)
            ∧ NoDup (map FilePlan.Key plans))
  ∨ (∃ err, BuildPlans disk paths prefix = (None, Some err)).
Proof.
  destruct paths as [|candidate paths]; [right; by eexists|].
  rewrite (PlanBuilderFacts.BuildPlans_scan disk (candidate :: paths) prefix)
    by done.
  destruct (scanEntries _ _) as [st' [err|]] eqn:Hscan; [right; by eexists|].
  left. destruct (PlanBuilderMoreFacts.scanEntries_success _ _ _ Hscan)
    as (Hok & Hnd & Hfresh).
  rewrite PlanBuilderFacts.scanEntries_fresh in Hscan by done.
  injection Hscan as <-. by eexists.
Qed.

(** X3. The error of [BuildPlans] is that of the first entry of the
    traversal that failed: when the entries before a failed entry did not
    fail and have distinct keys, the call returns the nil plan list and the
    error of that entry, whatever follows it. *)
Theorem X3_BuildPlans_first_failure {lib : GoLib} (disk : Disk)
  (paths : list string) (prefix : string) (pre post : list Entry) (err : error) :
  traversal disk paths prefix = pre ++ Failed err :: post →
  Forall (λ e, isFailed e = false) pre →
  NoDup (map FilePlan.Key (resolved pre)) →
  BuildPlans disk paths prefix = (None, Some err).
Proof.
  intros Htrav Hok Hnd.
  assert (paths ≠ []) as Hne.
  { intros ->. by destruct pre. }
  rewrite (PlanBuilderFacts.BuildPlans_scan disk paths prefix Hne), Htrav.
  pose proof (PlanBuilderMoreFacts.scanEntries_first_failure pre err post ([], ∅)
                Hok Hnd) as H.
  destruct (scanEntries _ _) as [st' [e|]]; cbn in H.
  - rewrite H; [done|]. intros k _. apply not_elem_of_empty.
  - discriminate H. intros k _. apply not_elem_of_empty.
Qed.

(** A file, a path that does not exist, and a directory: the error is that
    of the missing path. *)
Lemma X3_BuildPlans_first_failure_witness :
  let paths := ["data.txt"; "missing.txt"; "d"] in
  let pre := [Resolved (FilePlan.mk "data.txt" "artifact/data.txt" 3)] in
  let err := wrapError "failed to stat missing.txt: no such file or directory"
               Unix.ENOENT in
  let post := drop 2 (traversal (lib := Unix.lib) exampleDisk paths "artifact") in
  traversal (lib := Unix.lib) exampleDisk paths "artifact" = pre ++ Failed err :: post
  ∧ BuildPlans (lib := Unix.lib) exampleDisk paths "artifact" = (None, Some err).
Proof.
  intros paths pre err post.
  assert (traversal (lib := Unix.lib) exampleDisk paths "artifact"
          = pre ++ Failed err :: post) as Htrav by (vm_compute; reflexivity).
  split; [exact Htrav|].
  apply (X3_BuildPlans_first_failure (lib := Unix.lib) exampleDisk paths "artifact"
           pre post err Htrav).
  - repeat constructor.
  - compute_done.
Defined.

(** X4. Planning composes: when two path lists are planned without an error
    under the same prefix, planning their concatenation returns the
    concatenation of the two plan lists exactly when no key of the first
    list is a key of the second. *)
Theorem X4_BuildPlans_app {lib : GoLib} (disk : Disk) (paths1 paths2 : list string)
  (prefix : string) (plans1 plans2 : list FilePlan.t) :
  BuildPlans disk paths1 prefix = (Some plans1, None) →
  BuildPlans disk paths2 prefix = (Some plans2, None) →
  (BuildPlans disk (paths1 ++ paths2) prefix = (Some (plans1 ++ plans2), None)
   ↔ ∀ k, k ∈ map FilePlan.Key plans1 → k ∉ map FilePlan.Key plans2).
Proof.
  intros (Hne1 & Hok1 & Hnd1 & [= ->])%PlanBuilderMoreFacts.BuildPlans_success_inv.
  intros (Hne2 & Hok2 & Hnd2 & [= ->])%PlanBuilderMoreFacts.BuildPlans_success_inv.
  split.
  - intros (_ & _ & Hnd & _)%PlanBuilderMoreFacts.BuildPlans_success_inv.
    rewrite PlanBuilderMoreFacts.traversal_app in Hnd.
    unfold resolved in Hnd. rewrite omap_app, map_app in Hnd.
    apply NoDup_app in Hnd as (_ & Hdisj & _). exact Hdisj.
  - intros Hdisj.
    assert (resolved (traversal disk paths1 prefix)
            ++ resolved (traversal disk paths2 prefix)
            = resolved (traversal disk (paths1 ++ paths2) prefix)) as ->.
    { rewrite PlanBuilderMoreFacts.traversal_app. unfold resolved.
      by rewrite omap_app. }
    apply PlanBuilderMoreFacts.BuildPlans_success_intro.
    + by destruct paths1.
    + rewrite PlanBuilderMoreFacts.traversal_app. by apply Forall_app.
    + rewrite PlanBuilderMoreFacts.traversal_app. unfold resolved.
      rewrite omap_app, map_app. apply NoDup_app. by repeat split.
Qed.

(** A file and a directory tree whose keys differ. *)
Lemma X4_BuildPlans_app_witness :
  let plans1 := [FilePlan.mk "data.txt" "artifact/data.txt" 3] in
  let plans2 := [FilePlan.mk "d/sub/x.bin" "artifact/x.bin" 3] in
  BuildPlans (lib := Unix.lib) exampleDisk ["data.txt"] "artifact"
  = (Some plans1, None)
  ∧ BuildPlans (lib := Unix.lib) exampleDisk ["d/sub"] "artifact"
    = (Some plans2, None)
  ∧ (BuildPlans (lib := Unix.lib) exampleDisk (["data.txt"] ++ ["d/sub"]) "artifact"
     = (Some (plans1 ++ plans2), None)
     ↔ ∀ k, k ∈ map FilePlan.Key plans1 → k ∉ map FilePlan.Key plans2).
Proof.
  intros plans1 plans2.
  assert (BuildPlans (lib := Unix.lib) exampleDisk ["data.txt"] "artifact"
          = (Some plans1, None)) as H1 by (vm_compute; reflexivity).
  assert (BuildPlans (lib := Unix.lib) exampleDisk ["d/sub"] "artifact"
          = (Some plans2, None)) as H2 by (vm_compute; reflexivity).
  split; [exact H1|]. split; [exact H2|].
  exact (X4_BuildPlans_app (lib := Unix.lib) exampleDisk ["data.txt"] ["d/sub"]
           "artifact" plans1 plans2 H1 H2).
Defined.

(** ** Key Builder and Plan Builder: the shape of the planned keys *)

Module KeyShapeFacts.
Import GoStrings KeyBuilderFacts.

Lemma bytes_nonempty s : s ≠ "" → bytes s ≠ [].
Proof. intros Hne E. apply Hne. by apply bytes_inj. Qed.

Lemma slash_prefix_app (a b : list ascii) :
  a ≠ [] → ["/"%char] `prefix_of` a ++ b → ["/"%char] `prefix_of` a.
Proof.
  destruct a as [|c a]; [done|]. intros _ [k Hk]. injection Hk as -> _.
  by exists a.
Qed.

Lemma slash_suffix_app (a b : list ascii) :
  b ≠ [] → ["/"%char] `suffix_of` a ++ b → ["/"%char] `suffix_of` b.
Proof.
  intros Hb [k Hk]. apply (f_equal last) in Hk.
  rewrite last_snoc, last_app in Hk.
  destruct (last b) as [c|] eqn:Hl; [|by apply last_None in Hl].
  apply last_Some in Hl as [b' ->]. injection Hk as ->. by exists b'.
Qed.

Lemma Trim_slash_outer s :
  ¬ ["/"%char] `prefix_of` bytes (Trim s "/")
  ∧ ¬ ["/"%char] `suffix_of` bytes (Trim s "/").
Proof.
  destruct (Trim_spec s "/") as (l & r & _ & _ & _ & Hp & Hs).
  split; [apply Hp|apply Hs]; by left.
Qed.

(** A key built on a normalized prefix neither starts nor ends with ['/']. *)
Lemma joinKey_outer prefix rel :
  ¬ ["/"%char] `prefix_of` bytes (joinKey (normalizePrefix prefix) rel)
  ∧ ¬ ["/"%char] `suffix_of` bytes (joinKey (normalizePrefix prefix) rel).
Proof.
  unfold joinKey.
  destruct (Trim_slash_outer (TrimSpace prefix)) as [Hpp Hps].
  destruct (Trim_slash_outer (TrimSpace rel)) as [Hrp Hrs].
  fold (normalizePrefix prefix) in Hpp, Hps.
  destruct (decide (Trim (TrimSpace rel) "/" = "")) as [|Hr]; [done|].
  destruct (decide (normalizePrefix prefix = "")) as [|Hp]; [done|].
  rewrite !bytes_app. split.
  - intros H. apply Hpp. by eapply slash_prefix_app; [apply bytes_nonempty|].
  - intros H. apply Hrs. rewrite app_assoc in H.
    by eapply slash_suffix_app; [apply bytes_nonempty|].
Qed.

(** A key built on a normalized prefix is the prefix itself (when the
    relative path is empty after trimming) or lies under the scope that
    [Cleanup] lists for the same prefix argument. *)
Lemma joinKey_scope prefix rel :
  joinKey (normalizePrefix prefix) rel = normalizePrefix prefix
  ∨ underScope (stringPointer (Transport.resolvePrefix prefix))
      (Some (joinKey (normalizePrefix prefix) rel)).
Proof.
  unfold joinKey.
  destruct (decide (Trim (TrimSpace rel) "/" = "")) as [|Hr]; [by left|].
  right. destruct (decide (normalizePrefix prefix = "")) as [Hp|Hp].
  - by rewrite (ScopeFacts.scope_empty prefix Hp).
  - rewrite (ScopeFacts.scope_folder prefix Hp). eexists. split; [done|].
    rewrite !bytes_app. rewrite app_assoc. by eexists.
Qed.

Section WithDisk.
Context {lib : GoLib} (disk : Disk).

(** Every plan of a call that succeeded has a key built by [joinKey] on the
    normalized prefix. *)
Lemma BuildPlans_keys paths prefix plans p :
  BuildPlans disk paths prefix = (Some plans, None) → p ∈ plans →
  ∃ rel, FilePlan.Key p = joinKey (normalizePrefix prefix) rel.
Proof.
  intros (_ & _ & _ & [= ->])%PlanBuilderMoreFacts.BuildPlans_success_inv Hin.
  apply list_elem_of_omap in Hin as (e & Hin & He).
  destruct e as [p'| |]; try done. injection He as ->.
  by eapply PlanBuilderMoreFacts.traversal_keys.
Qed.

End WithDisk.
End KeyShapeFacts.

(** X5. No planned key starts or ends with ['/'], whatever the prefix and
    whatever the library returns for the relative paths. *)
Theorem X5_planned_keys_no_outer_slash {lib : GoLib} (disk : Disk)
  (paths : list string) (prefix : string) (plans : list FilePlan.t) :
  BuildPlans disk paths prefix = (Some plans, None) →
  Forall (λ p, ¬ ["/"%char] `prefix_of` bytes (FilePlan.Key p)
               ∧ ¬ ["/"%char] `suffix_of` bytes (FilePlan.Key p)) plans.
Proof.
  intros Hb. apply Forall_forall. intros p Hin.
  destruct (KeyShapeFacts.BuildPlans_keys disk _ _ _ _ Hb Hin) as [rel ->].
  apply KeyShapeFacts.joinKey_outer.
Qed.

Lemma X5_planned_keys_no_outer_slash_witness :
  let plans := [FilePlan.mk "d/data.txt" "artifact/data.txt" 5;
                FilePlan.mk "d/sub/x.bin" "artifact/sub/x.bin" 3] in
  BuildPlans (lib := Unix.lib) exampleDisk ["d"] " /artifact/ " = (Some plans, None)
  ∧ Forall (λ p, ¬ ["/"%char] `prefix_of` bytes (FilePlan.Key p)
                 ∧ ¬ ["/"%char] `suffix_of` bytes (FilePlan.Key p)) plans.
Proof.
  intros plans.
  assert (BuildPlans (lib := Unix.lib) exampleDisk ["d"] " /artifact/ "
          = (Some plans, None)) as Hb by (vm_compute; reflexivity).
  split; [exact Hb|].
  exact (X5_planned_keys_no_outer_slash (lib := Unix.lib) exampleDisk ["d"]
           " /artifact/ " plans Hb).
Defined.

(** X6. Planning and cleanup agree on the folder: every key that
    [BuildPlans] plans under a prefix is the normalized prefix itself or
    lies under the scope that [Cleanup] lists for the same prefix, so a
    cleanup of the prefix covers the objects an upload of the plans would
    write. *)
Theorem X6_planned_keys_in_cleanup_scope {lib : GoLib} (disk : Disk)
  (paths : list string) (prefix : string) (plans : list FilePlan.t) :
  BuildPlans disk paths prefix = (Some plans, None) →
  Forall (λ p, FilePlan.Key p = normalizePrefix prefix
               ∨ underScope (stringPointer (Transport.resolvePrefix prefix))
                   (Some (FilePlan.Key p))) plans.
Proof.
  intros Hb. apply Forall_forall. intros p Hin.
  destruct (KeyShapeFacts.BuildPlans_keys disk _ _ _ _ Hb Hin) as [rel ->].
  apply KeyShapeFacts.joinKey_scope.
Qed.

Lemma X6_planned_keys_in_cleanup_scope_witness :
  let plans := [FilePlan.mk "d/data.txt" "artifact/data.txt" 5;
                FilePlan.mk "d/sub/x.bin" "artifact/sub/x.bin" 3] in
  BuildPlans (lib := Unix.lib) exampleDisk ["d"] "artifact" = (Some plans, None)
  ∧ Forall (λ p, FilePlan.Key p = normalizePrefix "artifact"
                 ∨ underScope (stringPointer (Transport.resolvePrefix "artifact"))
                     (Some (FilePlan.Key p))) plans.
Proof.
  intros plans.
  assert (BuildPlans (lib := Unix.lib) exampleDisk ["d"] "artifact"
          = (Some plans, None)) as Hb by (vm_compute; reflexivity).
  split; [exact Hb|].
  exact (X6_planned_keys_in_cleanup_scope (lib := Unix.lib) exampleDisk ["d"]
           "artifact" plans Hb).
Defined.

(** ** Cleanup Engine: the calls it makes *)

Module CleanupMoreFacts.

Lemma steps_calls bucket scope cursor count new ending :
  CleanupSteps bucket scope cursor count new ending →
  Forall (cleanupCall bucket) new.
Proof. induction 1; repeat constructor; done. Qed.

Lemma steps_cursors bucket scope cursor count new ending :
  CleanupSteps bucket scope cursor count new ending →
  map ListObjectsV2Input.ContinuationToken (listRequests new)
  `prefix_of` cursor :: map ListObjectsV2Output.NextContinuationToken (listedPages new).
Proof.
  induction 1 as [cursor count|cursor count cause|cursor count page Hc Hn
    |cursor count page next calls ending Hc Hn Hrest IH
    |cursor count page cause Hc|cursor count page Hc Hn
    |cursor count page next calls ending Hc Hn Hrest IH]; cbn.
  - apply prefix_nil.
  - done.
  - by apply prefix_cons, prefix_nil.
  - apply prefix_cons. by rewrite Hn.
  - by apply prefix_cons, prefix_nil.
  - by apply prefix_cons, prefix_nil.
  - apply prefix_cons. by rewrite Hn.
Qed.

Lemma steps_deletes bucket scope cursor count new ending :
  CleanupSteps bucket scope cursor count new ending →
  (length (deleteRequests new) ≤ length (listedPages new))%nat.
Proof.
  induction 1; unfold deleteRequests, listedPages in *; simpl in *; unfold omap in *; lia.
Qed.

End CleanupMoreFacts.

(** X7. [Cleanup] only lists and deletes: whatever the client answers and
    however many rounds are run, every call it makes is a listing of the
    bucket of the transport or a quiet batch-delete request on that bucket
    (never a probe, a put or a file operation), and it makes at most one
    delete request per page listed. *)
Theorem X7_Cleanup_only_lists_and_deletes {C U : Type} {client_ops : Client C}
  (fuel : nat) (prefix : string) (st : Transport.State (C := C) (U := U)) :
  ∃ new,
    snd (Transport.stateOf (Transport.Cleanup fuel prefix st)) = snd st ++ new
    ∧ Forall (cleanupCall (Transport.bucket (fst st))) new
    ∧ (length (deleteRequests new) ≤ length (listedPages new))%nat.
Proof.
  destruct (CleanupFacts.cleanupLoop_steps fuel (Transport.resolvePrefix prefix)
              0 None st) as (new & Hcalls & Hsteps).
  exists new. split; [done|]. split.
  - by eapply CleanupMoreFacts.steps_calls.
  - by eapply CleanupMoreFacts.steps_deletes.
Qed.

(** X8. [Cleanup] follows the cursors: its first listing carries no
    continuation token, and every later listing carries the token that the
    page listed just before it returned. *)
Theorem X8_Cleanup_cursor_chain {C U : Type} {client_ops : Client C}
  (fuel : nat) (prefix : string) (st : Transport.State (C := C) (U := U)) :
  ∃ new,
    snd (Transport.stateOf (Transport.Cleanup fuel prefix st)) = snd st ++ new
    ∧ map ListObjectsV2Input.ContinuationToken (listRequests new)
      `prefix_of`
      None :: map ListObjectsV2Output.NextContinuationToken (listedPages new).
Proof.
  destruct (CleanupFacts.cleanupLoop_steps fuel (Transport.resolvePrefix prefix)
              0 None st) as (new & Hcalls & Hsteps).
  exists new. split; [done|]. by eapply CleanupMoreFacts.steps_cursors.
Qed.

(** Against [fakeClient], from any count, cursor and position in the
    script. *)
Lemma cleanupLoop_fakeClient_total {U : Type} (fuel : nat) (resolved : string) :
  ∀ (c0 : Z) (token : option string)
    (tr : Transport.t (C := fakeClient.t) (U := U)) (calls : list Call),
    let f := Transport.client tr in
    let pages :=
      visitedPages (drop (fakeClient.listCallIndex f) (fakeClient.listOutputs f)) in
    (length (fakeClient.listOutputs f) - fakeClient.listCallIndex f < fuel)%nat →
    ∃ st',
      Transport.cleanupLoop fuel resolved (wrapInt c0) token (tr, calls)
      = Transport.Returned (wrapInt (c0 + totalSize pages)) None st'
      ∧ fakeClient.deleteInputs (Transport.client (fst st'))
        = fakeClient.deleteInputs f
          ++ map (deleteRequest (Transport.bucket tr)) (filter nonEmptyPage pages).
Proof.
  induction fuel as [|fuel IH]; intros c0 token tr calls f pages Hlt; [lia|].
  subst pages f. cbn [Transport.cleanupLoop].
  unfold Transport.cleanupRound, Transport.listObjectsV2. cbn [fst snd].
  cbn [ListObjectsV2 fakeClient_Client]. unfold fakeClient.ListObjectsV2.
  destruct (fakeClient.listOutputs (Transport.client tr)
              !! fakeClient.listCallIndex (Transport.client tr))
    as [page|] eqn:Hpage.
  - rewrite (drop_S _ _ _ Hpage). cbn [visitedPages].
    apply lookup_lt_Some in Hpage.
    destruct (decide (length (ListObjectsV2Output.Contents page) = O)) as [Hz|Hnz].
    + assert (pageSize page = 0) as Hsz by (unfold pageSize; lia).
      destruct (ListObjectsV2Output.NextContinuationToken page) as [next|].
      * match goal with |- context [Transport.cleanupLoop fuel resolved _ _ (?t, ?cs)] =>
          destruct (IH c0 (Some next) t cs) as (st' & Hrun & Hdel)
        end.
        { cbn. lia. }
        exists st'. split.
        -- rewrite Hrun.
           cbn [Transport.client fakeClient.listCallIndex fakeClient.listOutputs].
           cbn [totalSize foldr]. do 2 f_equal. unfold totalSize. lia.
        -- rewrite Hdel.
           cbn [Transport.client fakeClient.listCallIndex fakeClient.listOutputs
                fakeClient.deleteInputs Transport.bucket].
           f_equal. f_equal.
           rewrite filter_cons_False; [done|]. unfold nonEmptyPage. lia.
      * eexists. split; [|cbn [fst Transport.client fakeClient.deleteInputs]].
        -- cbn [totalSize foldr]. do 2 f_equal. lia.
        -- rewrite filter_cons_False by (unfold nonEmptyPage; lia).
           cbn. by rewrite app_nil_r.
    + unfold Transport.deleteObjects. cbn [fst snd Transport.client Transport.bucket
        Transport.uploader Transport.overwrite DeleteObjects fakeClient_Client].
      unfold fakeClient.DeleteObjects. cbn [errOf]. rewrite length_map.
      fold (pageSize page). rewrite CleanupFacts.int_add_wrapInt.
      destruct (ListObjectsV2Output.NextContinuationToken page) as [next|].
      * match goal with |- context [Transport.cleanupLoop fuel resolved _ _ (?t, ?cs)] =>
          destruct (IH (c0 + pageSize page) (Some next) t cs) as (st' & Hrun & Hdel)
        end.
        { cbn. lia. }
        exists st'. split.
        -- rewrite Hrun.
           cbn [Transport.client fakeClient.listCallIndex fakeClient.listOutputs].
           cbn [totalSize foldr]. do 2 f_equal. unfold totalSize. lia.
        -- rewrite Hdel.
           cbn [Transport.client fakeClient.listCallIndex fakeClient.listOutputs
                fakeClient.deleteInputs Transport.bucket].
           rewrite filter_cons_True by done. cbn [map].
           rewrite <- app_assoc. reflexivity.
      * eexists. split; [|cbn [fst Transport.client fakeClient.deleteInputs]].
        -- cbn [totalSize foldr]. do 2 f_equal. lia.
        -- rewrite (filter_cons_True nonEmptyPage page) by exact Hnz. reflexivity.
  - apply lookup_ge_None_1 in Hpage. rewrite (drop_ge _ _ Hpage). cbn.
    eexists. split; [do 2 f_equal; lia|]. cbn. by rewrite app_nil_r.
Qed.

(** X9. Against the [fakeClient] of the tests, [Cleanup] returns within one
    round more than the script has pages, without an error; the count is the
    number of objects of the pages it visited (the pages from the current
    one up to the first page without a continuation token), and the client
    has recorded one delete request for each visited page that has objects,
    in order, naming the objects of the page. *)
Theorem X9_Cleanup_fakeClient_total {U : Type} (prefix : string)
  (tr : Transport.t (C := fakeClient.t) (U := U)) (calls : list Call) :
  let f := Transport.client tr in
  let pages :=
    visitedPages (drop (fakeClient.listCallIndex f) (fakeClient.listOutputs f)) in
  ∃ st',
    Transport.Cleanup (S (length (fakeClient.listOutputs f))) prefix (tr, calls)
    = Transport.Returned (wrapInt (totalSize pages)) None st'
    ∧ fakeClient.deleteInputs (Transport.client (fst st'))
      = fakeClient.deleteInputs f
        ++ map (deleteRequest (Transport.bucket tr)) (filter nonEmptyPage pages).
Proof.
  intros f pages. unfold Transport.Cleanup.
  destruct (cleanupLoop_fakeClient_total (S (length (fakeClient.listOutputs f)))
              (Transport.resolvePrefix prefix) 0 None tr calls) as (st' & Hrun & Hdel).
  { subst f. lia. }
  exists st'. split; [|done]. exact Hrun.
Qed.

(** [TestTransportCleanupDeletesObjects], with a second page. *)
Example Cleanup_fakeClient_two_pages_total :
  ∃ st',
    Transport.Cleanup 3 "prefix"
      (Transport.mk
         (fakeClient.mk None []
            [ ListObjectsV2Output.mk
                [Object.mk (Some "prefix/file1"); Object.mk (Some "prefix/file2")]
                (Some "next");
              ListObjectsV2Output.mk [Object.mk (Some "prefix/file3")] None;
              ListObjectsV2Output.mk [Object.mk (Some "prefix/never")] None ]
            [] O)
         (stubUploader.mk [] None) "bucket" true, [])
    = Transport.Returned 3 None st'
    ∧ length (fakeClient.deleteInputs (Transport.client (fst st'))) = 2%nat.
Proof.
  eexists. split; [vm_compute; reflexivity|]. vm_compute. reflexivity.
Qed.

(** ** Transfer Engine: files, calls and results *)

Module UploadMoreFacts.
Section WithDisk.
Context {lib : GoLib} (disk : Disk) (bucket : string) (overwrite : bool).

Lemma SeekStart_name file body :
  File.SeekStart file = Ok body → File.name body = File.name file.
Proof.
  unfold File.SeekStart. destruct (FileData.seekFault (File.file file)); [done|].
  by intros [= <-].
Qed.

(** The body of a put is the handle of the source file of the plan. *)
Lemma body_name plan file body :
  Open disk (FilePlan.Source plan) = Ok file →
  File.SeekStart (snd (detectContentType (FilePlan.Source plan) file)) = Ok body →
  File.name body = FilePlan.Source plan.
Proof.
  intros (data & _ & ->)%DetectFacts.Open_fresh Hseek.
  rewrite (SeekStart_name _ _ Hseek).
  by destruct (DetectFacts.detectContentType_file (FilePlan.Source plan)
                 (File.mk (FilePlan.Source plan) data 0)) as [_ ->].
Qed.

Lemma TransferSteps_handles plan calls outcome rest :
  TransferSteps disk bucket plan calls outcome →
  handlesFrom None rest → handlesFrom None (calls ++ rest).
Proof.
  destruct 1 as [cause Ho|file cause Ho Hs|file body cause Ho Hs|file body out Ho Hs];
    intros Hrest; cbn [app handlesFrom putRequest PutObjectInput.Body]; try done.
  - by rewrite (body_name plan file body Ho Hs).
  - by rewrite (body_name plan file body Ho Hs).
Qed.

Lemma PlanSteps_handles plan calls outcome rest :
  PlanSteps disk bucket overwrite plan calls outcome →
  handlesFrom None rest → handlesFrom None (calls ++ rest).
Proof.
  destruct 1 as [_|cause _ Hnf|cause calls outcome _ Hnf Ht|calls outcome Hov Ht];
    intros Hrest; cbn [app handlesFrom]; try done.
  - split; [done|]. by eapply TransferSteps_handles.
  - by eapply TransferSteps_handles.
Qed.

Lemma BatchSteps_handles plans calls transferred err :
  BatchSteps disk bucket overwrite plans calls transferred err →
  handlesFrom None calls.
Proof.
  induction 1 as [|plan plans calls r calls' transferred err Hplan Hbatch IH
                  |plan plans calls e Hplan].
  - done.
  - by eapply PlanSteps_handles.
  - rewrite <- (app_nil_r calls). by eapply PlanSteps_handles.
Qed.

(** The calls of one plan: at most one probe, at most one put, none of the
    Cleanup Engine; a plan that was uploaded has the fields of its plan and
    the token of the answer to its put. *)
Lemma TransferSteps_calls plan calls outcome :
  TransferSteps disk bucket plan calls outcome →
  probeRequests calls = []
  ∧ (length (putRequests calls) ≤ 1)%nat
  ∧ Forall (λ c, isCleanupCall c = false) calls
  ∧ match outcome with
    | Uploaded r =>
        resultOfPlan plan r
        ∧ ∃ out, putOutputs calls = [out]
                 ∧ UploadResult.ETag r = ToString (UploadOutput.ETag out)
    | Aborted _ => putOutputs calls = []
    end.
Proof.
  destruct 1; cbn; repeat split; try lia; try (by repeat constructor).
  by eexists.
Qed.

Lemma PlanSteps_calls plan calls outcome :
  PlanSteps disk bucket overwrite plan calls outcome →
  (length (probeRequests calls) ≤ 1)%nat
  ∧ (length (putRequests calls) ≤ 1)%nat
  ∧ Forall (λ c, isCleanupCall c = false) calls
  ∧ match outcome with
    | Uploaded r =>
        resultOfPlan plan r
        ∧ ∃ out, putOutputs calls = [out]
                 ∧ UploadResult.ETag r = ToString (UploadOutput.ETag out)
    | Aborted _ => putOutputs calls = []
    end.
Proof.
  destruct 1 as [_|cause _ Hnf|cause calls outcome _ Hnf Ht|calls outcome Hov Ht].
  - cbn. repeat split; try lia. by repeat constructor.
  - cbn. repeat split; try lia. by repeat constructor.
  - destruct (TransferSteps_calls plan calls outcome Ht) as (Hp & Hn & Hc & Ho).
    unfold probeRequests, putRequests, putOutputs in *. cbn [omap list_omap].
    unfold omap in *. rewrite Hp. cbn [length]. repeat split; try lia; try done.
    by constructor.
  - destruct (TransferSteps_calls plan calls outcome Ht) as (Hp & Hn & Hc & Ho).
    rewrite Hp. cbn [length]. repeat split; try lia; done.
Qed.

Lemma BatchSteps_calls plans calls transferred err :
  BatchSteps disk bucket overwrite plans calls transferred err →
  (length (probeRequests calls) ≤ length plans)%nat
  ∧ (length (putRequests calls) ≤ length plans)%nat
  ∧ Forall (λ c, isCleanupCall c = false) calls
  ∧ Forall2 resultOfPlan (take (length transferred) plans) transferred
  ∧ map UploadResult.ETag transferred
    = map (λ out, ToString (UploadOutput.ETag out)) (putOutputs calls).
Proof.
  induction 1 as [|plan plans calls r calls' transferred err Hplan Hbatch IH
                  |plan plans calls e Hplan].
  - cbn. repeat split; try lia; constructor.
  - destruct (PlanSteps_calls plan calls _ Hplan) as (Hp & Hn & Hc & Hr & out & Ho & He).
    destruct IH as (IHp & IHn & IHc & IHr & IHe).
    unfold probeRequests, putRequests, putOutputs in *.
    rewrite !omap_app, !length_app, Ho. cbn [length take map app].
    repeat split; try lia.
    + by apply Forall_app.
    + by constructor.
    + by rewrite He, IHe.
  - destruct (PlanSteps_calls plan calls _ Hplan) as (Hp & Hn & Hc & Ho).
    cbn [length take map]. rewrite Ho. repeat split; try lia; try done.
Qed.

End WithDisk.
End UploadMoreFacts.

Module UploadRunFacts.
Section WithCapabilities.
Context {C U : Type} {client_ops : Client C} {uploader_ops : PutUploader U}.
Context {lib : GoLib} (disk : Disk).
Implicit Types st : Transport.State (C := C) (U := U).

(** The puts of a batch that was not aborted carry the keys of the plans, in
    order. *)
Lemma BatchSteps_put_keys bucket overwrite plans calls transferred :
  BatchSteps disk bucket overwrite plans calls transferred None →
  map PutObjectInput.Key (putRequests calls)
  = map (λ plan, Some (FilePlan.Key plan)) plans.
Proof.
  remember None as err eqn:Herr.
  induction 1 as [|plan plans' calls r calls' transferred err Hplan Hbatch IH
                  |plan plans' calls e Hplan]; [done| |done].
  unfold putRequests in *. rewrite omap_app, map_app, (IH Herr). cbn [map].
  clear IH Hbatch.
  inversion Hplan as [| |cause tcalls o _ _ Ht|tcalls o _ Ht]; subst;
    inversion Ht; subst; reflexivity.
Qed.

(** A call of [Upload] that returns results has put every plan, in order:
    one result per plan with its source, key and size and the token of the
    answer to its put. *)
Lemma Upload_success plans st st' results :
  Transport.Upload disk plans st = (results, None, st') →
  ∃ transferred new,
    results = Some transferred
    ∧ elems plans ≠ []
    ∧ Forall2 resultOfPlan (elems plans) transferred
    ∧ snd st' = snd st ++ new
    ∧ Forall (λ c, isCleanupCall c = false) new
    ∧ handlesFrom None new
    ∧ map PutObjectInput.Key (putRequests new)
      = map (λ plan, Some (FilePlan.Key plan)) (elems plans)
    ∧ map UploadResult.ETag transferred
      = map (λ out, ToString (UploadOutput.ETag out)) (putOutputs new).
Proof.
  unfold Transport.Upload. destruct (decide (len plans = O)) as [Hz|Hnz]; [done|].
  destruct (UploadFacts.uploadLoop_steps disk (elems plans) [] st)
    as (new & transferred & Hcalls & Hbatch & Hret).
  intros Hup. rewrite Hup in Hcalls, Hbatch, Hret. cbn [fst snd] in *.
  subst results.
  destruct (UploadMoreFacts.BatchSteps_calls _ _ _ _ _ _ _ Hbatch)
    as (_ & _ & Hcl & Hres & Hetag).
  destruct (BatchFacts.BatchSteps_order _ _ _ _ _ _ _ Hbatch) as (_ & Hkeys & Hlen).
  rewrite Hlen, firstn_all in Hres.
  exists transferred, new. split; [done|]. split.
  { intros Hnil. apply Hnz. destruct plans as [l|]; [|done]. cbn in *. by subst. }
  split; [done|]. split; [done|]. split; [done|]. split.
  { by eapply UploadMoreFacts.BatchSteps_handles. }
  split; [|done]. by eapply BatchSteps_put_keys.
Qed.

(** The calls of any call of [Upload]. *)
Lemma Upload_calls plans st :
  ∃ new,
    snd (snd (Transport.Upload disk plans st)) = snd st ++ new
    ∧ Forall (λ c, isCleanupCall c = false) new
    ∧ handlesFrom None new
    ∧ (length (probeRequests new) ≤ len plans)%nat
    ∧ (length (putRequests new) ≤ len plans)%nat
    ∧ Forall (faithfulPut disk (elems plans)) new.
Proof.
  unfold Transport.Upload. destruct (decide (len plans = O)) as [Hz|Hnz].
  { exists []. cbn [fst snd]. rewrite app_nil_r. repeat split; try done.
    all: cbn; lia. }
  destruct (UploadFacts.uploadLoop_steps disk (elems plans) [] st)
    as (new & transferred & Hcalls & Hbatch & Hret).
  exists new. split; [done|].
  destruct (UploadMoreFacts.BatchSteps_calls _ _ _ _ _ _ _ Hbatch)
    as (Hp & Hn & Hc & _).
  assert (length (elems plans) = len plans) as <- by (by destruct plans).
  split; [done|]. split; [by eapply UploadMoreFacts.BatchSteps_handles|].
  split; [done|]. split; [done|].
  by eapply GuardFacts.BatchSteps_faithful.
Qed.

End WithCapabilities.
End UploadRunFacts.

(** X10. [Upload] holds at most one file open at a time and leaves none
    open: whatever the outcome, a file is opened only while no file is open,
    a put streams the file that is open (the source file of its plan), every
    file opened is closed before the next probe or open, and no file is open
    when the call returns. *)
Theorem X10_Upload_one_file_open {C U : Type} {client_ops : Client C}
  {uploader_ops : PutUploader U} {lib : GoLib} (disk : Disk)
  (plans : slice FilePlan.t) (st : Transport.State (C := C) (U := U)) :
  ∃ new,
    snd (snd (Transport.Upload disk plans st)) = snd st ++ new
    ∧ handlesFrom None new.
Proof.
  destruct (UploadRunFacts.Upload_calls disk plans st) as (new & Hcalls & _ & Hh & _).
  by exists new.
Qed.

(** X11. [Upload] never lists or deletes, and makes at most one probe and
    at most one put per plan, whatever the outcome. *)
Theorem X11_Upload_call_budget {C U : Type} {client_ops : Client C}
  {uploader_ops : PutUploader U} {lib : GoLib} (disk : Disk)
  (plans : slice FilePlan.t) (st : Transport.State (C := C) (U := U)) :
  ∃ new,
    snd (snd (Transport.Upload disk plans st)) = snd st ++ new
    ∧ Forall (λ c, isCleanupCall c = false) new
    ∧ (length (probeRequests new) ≤ len plans)%nat
    ∧ (length (putRequests new) ≤ len plans)%nat.
Proof.
  destruct (UploadRunFacts.Upload_calls disk plans st)
    as (new & Hcalls & Hc & _ & Hp & Hn & _).
  by exists new.
Qed.

(** X12. When [Upload] returns results, there is one result per plan, in the
    order of the plans, with the source, key and size of its plan; the puts
    made were exactly one per plan, in order, under the planned keys; and
    the entity tag of each result is the one the uploader answered to the
    put of its plan (empty when the answer carried none). *)
Theorem X12_Upload_results_match_plans {C U : Type} {client_ops : Client C}
  {uploader_ops : PutUploader U} {lib : GoLib} (disk : Disk)
  (plans : slice FilePlan.t) (st st' : Transport.State (C := C) (U := U))
  (results : list UploadResult.t) :
  Transport.Upload disk plans st = (Some results, None, st') →
  Forall2 resultOfPlan (elems plans) results
  ∧ ∃ new,
      snd st' = snd st ++ new
      ∧ map PutObjectInput.Key (putRequests new)
        = map (λ plan, Some (FilePlan.Key plan)) (elems plans)
      ∧ map UploadResult.ETag results
        = map (λ out, ToString (UploadOutput.ETag out)) (putOutputs new).
Proof.
  intros Hup.
  destruct (UploadRunFacts.Upload_success disk _ _ _ _ Hup)
    as (transferred & new & [= <-] & _ & Hres & Hcalls & _ & _ & Hkeys & Hetag).
  split; [done|]. by exists new.
Qed.

(** Two plans against the test doubles. *)
Lemma X12_Upload_results_match_plans_witness :
  let plans := [FilePlan.mk "data.txt" "artifact/data.txt" 3;
                FilePlan.mk "d/sub/x.bin" "artifact/x.bin" 3] in
  let results := [UploadResult.mk "data.txt" "artifact/data.txt" 3 "etag";
                  UploadResult.mk "d/sub/x.bin" "artifact/x.bin" 3 "etag"] in
  let st' := snd (Transport.Upload (lib := Unix.lib) exampleDisk (Some plans)
                    (exampleTransport true)) in
  Transport.Upload (lib := Unix.lib) exampleDisk (Some plans) (exampleTransport true)
  = (Some results, None, st')
  ∧ Forall2 resultOfPlan plans results
  ∧ ∃ new,
      snd st' = snd (exampleTransport true) ++ new
      ∧ map PutObjectInput.Key (putRequests new)
        = map (λ plan, Some (FilePlan.Key plan)) plans
      ∧ map UploadResult.ETag results
        = map (λ out, ToString (UploadOutput.ETag out)) (putOutputs new).
Proof.
  intros plans results st'.
  assert (Transport.Upload (lib := Unix.lib) exampleDisk (Some plans)
            (exampleTransport true) = (Some results, None, st')) as Hup
    by (vm_compute; reflexivity).
  split; [exact Hup|].
  exact (X12_Upload_results_match_plans (lib := Unix.lib) exampleDisk (Some plans)
           (exampleTransport true) st' results Hup).
Defined.

(** X13. A source whose content cannot be read is still put, without a
    content type: when the extension of the source decides no type and
    reading the file fails with an error other than the end of the file (a
    directory, for one), the transfer does not fail there; it rewinds, puts
    the file with a nil content type, and closes it. *)
Theorem X13_unreadable_source_put_untyped {C U : Type}
  {uploader_ops : PutUploader U} {lib : GoLib} (disk : Disk) (plan : FilePlan.t)
  (data : FileData.t) (cause : error) (st : Transport.State (C := C) (U := U)) :
  Lookup disk (FilePlan.Source plan) = Ok data →
  ToLower (Ext (FilePlan.Source plan)) = ""
  ∨ TypeByExtension (ToLower (Ext (FilePlan.Source plan))) = "" →
  FileData.readFault data = Some cause →
  errorsIs cause EOF = false →
  FileData.seekFault data = None →
  let request :=
    PutObjectInput.mk (Some (Transport.bucket (fst st))) (Some (FilePlan.Key plan))
      (File.mk (FilePlan.Source plan) data 0) None in
  snd (snd (Transport.transfer disk plan st))
  = snd st ++ [CallOpen (FilePlan.Source plan);
               CallUpload request
                 (fst (PutUpload (Transport.uploader (fst st)) request));
               CallClose (FilePlan.Source plan)].
Proof.
  intros Hlook Hext Hread Heof Hseek request. subst request.
  destruct st as [tr calls]. unfold Transport.transfer, Open. rewrite Hlook.
  rewrite (DetectFacts.detectContentType_sniff _ _ Hext). cbn [File.file].
  rewrite Hread, Heof. unfold File.SeekStart. cbn [File.file File.name].
  rewrite Hseek. unfold Transport.putUpload, Transport.logCall.
  cbn [fst snd Transport.uploader Transport.bucket].
  change (stringPointer "") with (@None string).
  destruct (PutUpload (Transport.uploader tr) _) as [[out|e] u]; cbn [fst snd];
    by rewrite <- !app_assoc.
Qed.

(** A plan whose source is a directory. *)
Lemma X13_unreadable_source_put_untyped_witness :
  let plan := FilePlan.mk "d" "artifact/d" 4096 in
  let data := FileData.mk [] (Some Unix.EISDIR) None in
  let st := exampleTransport true in
  let request :=
    PutObjectInput.mk (Some "bucket") (Some "artifact/d") (File.mk "d" data 0) None in
  Lookup exampleDisk "d" = Ok data
  ∧ snd (snd (Transport.transfer (lib := Unix.lib) exampleDisk plan st))
    = snd st ++ [CallOpen "d";
                 CallUpload request
                   (fst (PutUpload (Transport.uploader (fst st)) request));
                 CallClose "d"].
Proof.
  intros plan data st request.
  assert (Lookup exampleDisk "d" = Ok data) as Hlook by (vm_compute; reflexivity).
  split; [exact Hlook|].
  apply (X13_unreadable_source_put_untyped (lib := Unix.lib) exampleDisk plan data
           Unix.EISDIR st Hlook).
  - left. vm_compute. reflexivity.
  - reflexivity.
  - vm_compute. reflexivity.
  - reflexivity.
Defined.

(** ** Configuration: what [FromSettingsMap] leaves *)

Module ConfigFacts.
Import GoStrings GoStringsFacts KeyBuilderFacts.

(** Trimming leaves alone what starts with no rune of the set. *)
Lemma trimLeft_fixed toks bs :
  (∀ tok, tok ∈ toks → ¬ tok `prefix_of` bs) → trimLeft toks bs = bs.
Proof.
  intros Hp. unfold trimLeft. destruct (length bs); [done|].
  cbn [trimLeftRunes]. by apply stripAny_None in Hp as ->.
Qed.

Lemma trimRight_fixed toks bs :
  (∀ tok, tok ∈ toks → ¬ tok `suffix_of` bs) → trimRight toks bs = bs.
Proof.
  intros Hs. unfold trimRight. rewrite trimLeft_fixed; [apply reverse_involutive|].
  intros tok (t & -> & Ht)%list_elem_of_fmap [k Hk]. apply (Hs t Ht).
  exists (reverse k). apply (f_equal reverse) in Hk.
  by rewrite reverse_involutive, reverse_app, reverse_involutive in Hk.
Qed.

Lemma TrimSpace_idempotent s : TrimSpace (TrimSpace s) = TrimSpace s.
Proof.
  destruct (TrimSpace_spec s) as (l & r & _ & _ & _ & Hp & Hs).
  unfold TrimSpace at 1.
  by rewrite (trimLeft_fixed _ _ Hp), (trimRight_fixed _ _ Hs), str_bytes.
Qed.

Lemma cleanSources_filter values cleaned :
  Config.cleanSources values cleaned
  = cleaned ++ filter (λ s, s ≠ "") (map TrimSpace values).
Proof.
  revert cleaned. induction values as [|candidate values IH]; intros cleaned;
    cbn [Config.cleanSources map].
  - by rewrite app_nil_r.
  - destruct (decide (TrimSpace candidate ≠ "")) as [Hne|He].
    + rewrite IH, filter_cons_True by done. by rewrite <- app_assoc.
    + by rewrite IH, filter_cons_False.
Qed.

Lemma normalizeSources_filter values :
  Config.normalizeSources values
  = match filter (λ s, s ≠ "") (map TrimSpace (elems values)) with
    | [] => None
    | cleaned => Some cleaned
    end.
Proof.
  unfold Config.normalizeSources. rewrite cleanSources_filter, app_nil_l.
  destruct (decide (len values = O)) as [Hz|Hnz].
  - destruct values as [[|v values]|]; done.
  - by destruct (filter _ _).
Qed.

Lemma filter_trimmed (l : list string) :
  Forall (λ s, s ≠ "" ∧ TrimSpace s = s) l →
  filter (λ s, s ≠ "") (map TrimSpace l) = l.
Proof.
  induction 1 as [|s l [Hne Hs] _ IH]; [done|].
  cbn [map]. rewrite Hs. rewrite filter_cons_True by done. by rewrite IH.
Qed.

Lemma cleaned_trimmed (l : list string) :
  Forall (λ s, s ≠ "" ∧ TrimSpace s = s) (filter (λ s, s ≠ "") (map TrimSpace l)).
Proof.
  apply Forall_forall. intros s [Hne (v & -> & _)%list_elem_of_fmap]%list_elem_of_filter.
  split; [done|]. apply TrimSpace_idempotent.
Qed.

Lemma normalizeSources_Normalized values :
  match Config.normalizeSources values with
  | None => True
  | Some l => l ≠ [] ∧ Forall (λ s, s ≠ "" ∧ TrimSpace s = s) l
  end.
Proof.
  rewrite normalizeSources_filter.
  pose proof (cleaned_trimmed (elems values)) as H.
  by destruct (filter _ _).
Qed.

(** What [FromSettingsMap] returns without an error is normalized. *)
Lemma FromSettingsMap_Normalized {V : Type} (decode : V → Decoding)
  (values : option V) (cfg : Config.t) :
  Config.FromSettingsMap decode values = (Some cfg, None) → Config.Normalized cfg.
Proof.
  unfold Config.FromSettingsMap. destruct values as [values|].
  - destruct (decode values) as [| |raw]; [done|done|]. intros [= <-].
    unfold Config.Normalized.
    cbn [Config.Bucket Config.Region Config.Endpoint Config.Profile
         Config.ContextPath Config.Sources].
    rewrite !TrimSpace_idempotent. unfold Config.normalizeContextPath.
    destruct (KeyShapeFacts.Trim_slash_outer (TrimSpace (rawSettings.ContextPath raw)))
      as [Hp Hs].
    repeat split; try done. apply normalizeSources_Normalized.
  - intros [= <-]. unfold Config.Normalized. cbn. repeat split; try done.
    all: by intros [k Hk]; destruct k.
Qed.

End ConfigFacts.

(** X14. [normalizeSources] keeps, in order, the trimmed form of every
    entry that is not blank, and returns nil when nothing is left; applying
    it again changes nothing. *)
Theorem X14_normalizeSources_clean (values : slice string) :
  let cleaned := filter (λ s, s ≠ "") (map GoStrings.TrimSpace (elems values)) in
  Config.normalizeSources values = (if decide (cleaned = []) then None else Some cleaned)
  ∧ Config.normalizeSources (Config.normalizeSources values)
    = Config.normalizeSources values.
Proof.
  intros cleaned. subst cleaned. rewrite !ConfigFacts.normalizeSources_filter.
  pose proof (ConfigFacts.cleaned_trimmed (elems values)) as Hc.
  destruct (filter _ (map _ (elems values))) as [|s l] eqn:E; [done|].
  split; [done|]. cbn [elems]. by rewrite (ConfigFacts.filter_trimmed _ Hc).
Qed.

(** X15. [FromSettingsMap] returns a configuration and no error, or no
    configuration and an error; a configuration it returns is normalized:
    bucket, region, endpoint and profile have no white space around them,
    the context path neither starts nor ends with ['/'], and the sources
    are nil or a non-empty list of trimmed, non-empty paths. *)
Theorem X15_FromSettingsMap_normalized {V : Type} (decode : V → Decoding)
  (values : option V) :
  (∃ cfg, Config.FromSettingsMap decode values = (Some cfg, None)
          ∧ Config.Normalized cfg)
  ∨ (∃ err, Config.FromSettingsMap decode values = (None, Some err)).
Proof.
  destruct (Config.FromSettingsMap decode values) as [[cfg|] [err|]] eqn:E.
  - exfalso. unfold Config.FromSettingsMap in E. destruct values as [values|]; [|done].
    by destruct (decode values).
  - left. exists cfg. split; [done|]. by eapply ConfigFacts.FromSettingsMap_Normalized.
  - right. by eexists.
  - exfalso. unfold Config.FromSettingsMap in E. destruct values as [values|]; [|done].
    by destruct (decode values).
Qed.

(** [TestLoadFromHost_WithSettings]: the sources are trimmed. *)
Example FromSettingsMap_trims :
  Config.Sources <$>
    fst (Config.FromSettingsMap Decoded
           (Some (rawSettings.mk " my-bucket " "us-east-2" "/artifacts/build/"
                    (Some [" ./dist "; "   "; "reports/output"]) (Some true)
                    (Some false) "https://minio.internal" (Some true) ""
                    (Some (Some true)) None)))
  = Some (Some ["./dist"; "reports/output"]).
Proof. vm_compute. reflexivity. Qed.

(** X16. On the sources of a configuration that [FromSettingsMap] returned,
    [BuildPlans] never fails with the empty-entry error, whatever the disk
    holds, and it fails with the no-source-path error exactly when the
    configuration has no sources (they are nil when none is configured or
    all are blank). *)
Theorem X16_configured_sources_not_blank {V : Type} {lib : GoLib} (disk : Disk)
  (decode : V → Decoding) (values : option V) (cfg : Config.t) (prefix : string) :
  Config.FromSettingsMap decode values = (Some cfg, None) →
  snd (BuildPlans disk (elems (Config.Sources cfg)) prefix)
  ≠ Some (Errorf "encountered empty source path entry")
  ∧ (snd (BuildPlans disk (elems (Config.Sources cfg)) prefix)
     = Some (Errorf "at least one source path must be specified")
     ↔ Config.Sources cfg = None).
Proof.
  intros Hcfg. apply ConfigFacts.FromSettingsMap_Normalized in Hcfg.
  destruct Hcfg as (_ & _ & _ & _ & _ & _ & Hs).
  destruct (Config.Sources cfg) as [sources|]; cbn [elems].
  - destruct Hs as [Hne Hall].
    rewrite (PlanBuilderFacts.BuildPlans_scan disk sources prefix Hne).
    destruct (scanEntries _ _) as [st' [err|]] eqn:Hscan; cbn [snd]; [|done].
    apply PlanBuilderMoreFacts.scanEntries_error in Hscan as [Hin|[key ->]]; [|done].
    apply (PlanBuilderMoreFacts.traversal_failures disk) in Hin as (msg & cause & ->).
    + done.
    + eapply Forall_impl; [exact Hall|]. intros s [Hn Ht]. by rewrite Ht.
  - by split.
Qed.

Lemma X16_configured_sources_not_blank_witness :
  let raw := rawSettings.mk "bucket" "" "artifact" (Some [" d "; " "; "missing.txt"])
               None None "" None "" None None in
  let cfg := Config.mk "bucket" "" "artifact" (Some ["d"; "missing.txt"]) false true
               "" false false "" (Credentials.mk "" "" "") "" in
  Config.FromSettingsMap Decoded (Some raw) = (Some cfg, None)
  ∧ snd (BuildPlans (lib := Unix.lib) exampleDisk (elems (Config.Sources cfg))
           "artifact")
    ≠ Some (Errorf "encountered empty source path entry")
  ∧ (snd (BuildPlans (lib := Unix.lib) exampleDisk (elems (Config.Sources cfg))
            "artifact")
     = Some (Errorf "at least one source path must be specified")
     ↔ Config.Sources cfg = None).
Proof.
  intros raw cfg.
  assert (Config.FromSettingsMap Decoded (Some raw) = (Some cfg, None)) as Hcfg
    by (vm_compute; reflexivity).
  split; [exact Hcfg|].
  exact (X16_configured_sources_not_blank (lib := Unix.lib) exampleDisk Decoded (Some raw) cfg "artifact"
           Hcfg).
Defined.

(** A settings map whose sources are all blank: the configuration has no
    sources, and planning them fails for want of a path. *)
Example blank_sources_no_path :
  let raw := rawSettings.mk "bucket" "" "" (Some [" "; ""]) None None "" None ""
               None None in
  ∃ cfg, Config.FromSettingsMap Decoded (Some raw) = (Some cfg, None)
         ∧ Config.Sources cfg = None
         ∧ BuildPlans (lib := Unix.lib) exampleDisk (elems (Config.Sources cfg)) ""
           = (None, Some (Errorf "at least one source path must be specified")).
Proof. eexists. split; [vm_compute; reflexivity|]. by split. Qed.

(** X23. For a configuration that [FromSettingsMap] returned, [Validate]
    tests the fields as they are: it succeeds exactly when the bucket is not
    empty and, if the verification of certificates is skipped, the endpoint
    is not empty (a bucket or endpoint of white space only was decoded to
    the empty string).  The configuration of the nil settings map never
    validates: its bucket is missing. *)
Theorem X23_decoded_configuration_validates {V : Type} (decode : V → Decoding)
  (values : option V) (cfg : Config.t) :
  Config.FromSettingsMap decode values = (Some cfg, None) →
  (Config.Validate cfg = None
   ↔ Config.Bucket cfg ≠ ""
     ∧ (Config.SkipTLSVerify cfg = true → Config.Endpoint cfg ≠ ""))
  ∧ (values = None → Config.Validate cfg = Some (Errorf "bucket is required")).
Proof.
  intros Hcfg. split.
  - apply ConfigFacts.FromSettingsMap_Normalized in Hcfg.
    destruct Hcfg as (Hb & _ & He & _). unfold Config.Validate. rewrite Hb, He.
    destruct (decide (Config.Bucket cfg = "")) as [Hz|Hnz].
    { split; [done|]. by intros [? _]. }
    destruct (Config.SkipTLSVerify cfg); cbn [andb].
    + destruct (bool_decide_reflect (Config.Endpoint cfg = "")) as [Hez|Hen].
      * split; [done|]. intros [_ H]. by destruct H.
      * by split.
    + split; [|done]. intros _. by split.
  - intros ->. by injection Hcfg as <-.
Qed.

(** A bucket with white space around it, and a blank endpoint with the
    verification of certificates skipped. *)
Lemma X23_decoded_configuration_validates_witness :
  let raw := rawSettings.mk " bucket " "" "" None None None "   " None ""
               (Some (Some true)) None in
  let cfg := Config.mk "bucket" "" "" None false true "" false true ""
               (Credentials.mk "" "" "") "" in
  Config.FromSettingsMap Decoded (Some raw) = (Some cfg, None)
  ∧ (Config.Validate cfg = None
     ↔ Config.Bucket cfg ≠ ""
       ∧ (Config.SkipTLSVerify cfg = true → Config.Endpoint cfg ≠ ""))
  ∧ (Some raw = None → Config.Validate cfg = Some (Errorf "bucket is required")).
Proof.
  intros raw cfg.
  assert (Config.FromSettingsMap Decoded (Some raw) = (Some cfg, None)) as Hcfg
    by (vm_compute; reflexivity).
  split; [exact Hcfg|].
  exact (X23_decoded_configuration_validates Decoded (Some raw) cfg Hcfg).
Defined.

(** ** The upload operation: what a run does to the storage *)

Module PluginFacts.
Section WithCapabilities.
Context {C U : Type} {client_ops : Client C} {uploader_ops : PutUploader U}.
Context {lib : GoLib} (disk : Disk).
Context (parse : Config.t → list string → Parsed).
Context (connect : Config.t → result (C * U)).
Context (marshalIndent : uploadSummary.t → result string).
Implicit Types st : Transport.State (C := C) (U := U).
Implicit Types run : Plugin.Run (C := C) (U := U).

Lemma cleanupCall_isCleanupCall bucket c :
  cleanupCall bucket c → isCleanupCall c = true.
Proof. by destruct c. Qed.

Lemma deletedCount_upload calls :
  Forall (λ c, isCleanupCall c = false) calls → deletedCount calls = 0.
Proof.
  induction 1 as [|c calls Hc _ IH]; [done|].
  destruct c as [| |input [e|]| | |]; cbn [deletedCount]; try done.
Qed.

(** The calls of the cleanup phase of a run. *)
Lemma cleanup_phase fuel (merged : Config.t) st removed cerr st1 :
  (if Config.Cleanup merged
   then Transport.Cleanup fuel (Config.ContextPath merged) st
   else Transport.Returned 0 None st) = Transport.Returned removed cerr st1 →
  ∃ cleanupCalls,
    snd st1 = snd st ++ cleanupCalls
    ∧ Forall (cleanupCall (Transport.bucket (fst st))) cleanupCalls
    ∧ Forall (λ input,
                ListObjectsV2Input.Prefix input
                = stringPointer (Transport.resolvePrefix (Config.ContextPath merged)))
        (listRequests cleanupCalls)
    ∧ removed = wrapInt (deletedCount cleanupCalls)
    ∧ (Config.Cleanup merged = false → cleanupCalls = []).
Proof.
  destruct (Config.Cleanup merged).
  - unfold Transport.Cleanup. intros Hrun.
    destruct (CleanupFacts.cleanupLoop_steps fuel
                (Transport.resolvePrefix (Config.ContextPath merged)) 0 None st)
      as (new & Hcalls & Hsteps).
    rewrite Hrun in Hcalls, Hsteps. cbn [Transport.stateOf endingOf] in *.
    exists new. split; [done|].
    split; [by eapply CleanupMoreFacts.steps_calls|].
    split; [by eapply CleanupStepsFacts.steps_scoped|]. split; [|done].
    by apply (CleanupStepsFacts.steps_count _ _ _ _ _ _ 0 Hsteps).
  - intros [= <- <- <-]. exists []. rewrite app_nil_r. by repeat split.
Qed.

(** What a run of [handleUpload] from [BuildPlans] on has done and returned:
    the calls of [Cleanup] and then those of [Upload]; no call unless the
    plans were built; and the result. *)
Lemma runTransfer_run fuel (merged : Config.t) sources st run :
  Plugin.runTransfer disk marshalIndent fuel merged sources st = Some run →
  ∃ st' cleanupCalls uploadCalls,
    Plugin.transport run = Some st'
    ∧ snd st' = snd st ++ cleanupCalls ++ uploadCalls
    ∧ Forall (cleanupCall (Transport.bucket (fst st))) cleanupCalls
    ∧ Forall (λ input,
                ListObjectsV2Input.Prefix input
                = stringPointer (Transport.resolvePrefix (Config.ContextPath merged)))
        (listRequests cleanupCalls)
    ∧ (Config.Cleanup merged = false → cleanupCalls = [])
    ∧ Forall (λ c, isCleanupCall c = false) uploadCalls
    ∧ handlesFrom None uploadCalls
    ∧ (cleanupCalls ++ uploadCalls ≠ [] →
       ∃ plans,
         BuildPlans disk sources (Config.ContextPath merged) = (Some plans, None)
         ∧ Forall (faithfulPut disk plans) uploadCalls)
    ∧ (ExecutionResult.ExitCode (Plugin.result run) = 1
       ∧ ExecutionResult.Stdout (Plugin.result run) = ""
       ∨ ∃ plans results payload,
           BuildPlans disk sources (Config.ContextPath merged) = (Some plans, None)
           ∧ plans ≠ []
           ∧ Forall2 resultOfPlan plans results
           ∧ map PutObjectInput.Key (putRequests uploadCalls)
             = map (λ plan, Some (FilePlan.Key plan)) plans
           ∧ map UploadResult.ETag results
             = map (λ out, ToString (UploadOutput.ETag out)) (putOutputs uploadCalls)
           ∧ marshalIndent
               (uploadSummary.mk (Config.Bucket merged) (Config.Region merged)
                  (Config.ContextPath merged) (Config.Cleanup merged)
                  (wrapInt (deletedCount cleanupCalls)) (Some results))
             = Ok payload
           ∧ Plugin.result run
             = ExecutionResult.mk (payload +:+ String "010" "") "" 0 "").
Proof.
  unfold Plugin.runTransfer. intros Hrun.
  destruct (BuildPlans disk sources _) as [plans [perr|]] eqn:Hplans.
  { injection Hrun as <-. exists st, [], []. cbn [Plugin.transport Plugin.result].
    rewrite !app_nil_r.
    split_and!; [done|done|constructor|constructor|done|constructor|done|done|by left]. }
  apply PlanBuilderMoreFacts.BuildPlans_success_inv in Hplans as Hinv.
  destruct Hinv as (_ & _ & _ & ->).
  destruct (if Config.Cleanup merged then _ else _)
    as [removed [cerr|] st1|] eqn:Hclean; [| |done].
  - destruct (cleanup_phase _ _ _ _ _ _ Hclean) as (cl & Hcalls & Hcc & Hpre & _ & Hoff).
    injection Hrun as <-. exists st1, cl, []. cbn [Plugin.transport Plugin.result].
    rewrite !app_nil_r.
    split_and!; [done|done|done|done|done|constructor|done| |by left].
    intros _. eexists. split; [done|]. constructor.
  - destruct (cleanup_phase _ _ _ _ _ _ Hclean) as (cl & Hcalls & Hcc & Hpre & Hrem & Hoff).
    destruct (Transport.Upload disk _ st1) as [[results [uerr|]] st2] eqn:Hup.
    + destruct (UploadRunFacts.Upload_calls disk
                  (Some (resolved (traversal disk sources (Config.ContextPath merged))))
                  st1) as (new & Hnew & Hc & Hh & _ & _ & Hf).
      rewrite Hup in Hnew. cbn [fst snd elems] in Hnew, Hf.
      injection Hrun as <-. exists st2, cl, new. cbn [Plugin.transport Plugin.result].
      split_and!; [done| |done|done|done|done|done| |by left].
      * by rewrite Hnew, Hcalls, <- app_assoc.
      * intros _. eexists. by split.
    + destruct (UploadRunFacts.Upload_success disk _ _ _ _ Hup)
        as (transferred & new & -> & Hne & Hres & Hnew & Hc & Hh & Hkeys & Hetag).
      destruct (UploadRunFacts.Upload_calls disk
                  (Some (resolved (traversal disk sources (Config.ContextPath merged))))
                  st1) as (new' & Hnew' & _ & _ & _ & _ & Hf).
      rewrite Hup in Hnew'. cbn [fst snd elems] in Hnew', Hf, Hne, Hres, Hkeys.
      rewrite Hnew in Hnew'. apply app_inv_head in Hnew'. subst new'.
      exists st2, cl, new.
      destruct (marshalIndent _) as [payload|err] eqn:Hm; injection Hrun as <-;
        cbn [Plugin.transport Plugin.result].
      * split_and!; [done| |done|done|done|done|done| |].
        -- by rewrite Hnew, Hcalls, <- app_assoc.
        -- intros _. eexists. by split.
        -- right. exists (resolved (traversal disk sources (Config.ContextPath merged))),
             transferred, payload. rewrite <- Hrem. by split_and!.
      * split_and!; [done| |done|done|done|done|done| |by left].
        -- by rewrite Hnew, Hcalls, <- app_assoc.
        -- intros _. eexists. by split.
Qed.

(** A run that built a transport has parsed the flags, has a source,
    validated the merged configuration and made the capabilities. *)
Lemma handleUpload_transport fuel baseCfg args run st' :
  Plugin.handleUpload disk parse connect marshalIndent fuel baseCfg args = Some run →
  Plugin.transport run = Some st' →
  ∃ flags client uploader,
    Plugin.asksHelp args = false
    ∧ parse baseCfg args = ParseOk flags
    ∧ Plugin.sourcesOf (Config.Clone baseCfg) flags ≠ []
    ∧ Config.Validate (Plugin.mergeFlags baseCfg flags) = None
    ∧ connect (Plugin.mergeFlags baseCfg flags) = Ok (client, uploader)
    ∧ Plugin.runTransfer disk marshalIndent fuel (Plugin.mergeFlags baseCfg flags)
        (Plugin.sourcesOf (Config.Clone baseCfg) flags)
        (NewTransport client uploader
           (Config.Bucket (Plugin.mergeFlags baseCfg flags))
           (Config.Overwrite (Plugin.mergeFlags baseCfg flags)), [])
      = Some run.
Proof.
  unfold Plugin.handleUpload. intros Hrun Htr.
  destruct (Plugin.asksHelp args); [by injection Hrun as <-|].
  destruct (parse baseCfg args) as [stderr err|flags]; [by injection Hrun as <-|].
  destruct (decide (length (Plugin.sourcesOf (Config.Clone baseCfg) flags) = O))
    as [|Hne]; [by injection Hrun as <-|].
  destruct (Config.Validate _) as [err|] eqn:Hv; [by injection Hrun as <-|].
  destruct (connect _) as [[client uploader]|err] eqn:Hc; [|by injection Hrun as <-].
  exists flags, client, uploader. repeat split; try done.
  intros Hnil. apply Hne. by rewrite Hnil.
Qed.

(** A run that built no transport ended before [BuildPlans]: it printed the
    usage, or failed with exit code 1 and nothing on the standard output. *)
Lemma handleUpload_no_transport fuel baseCfg args run :
  Plugin.handleUpload disk parse connect marshalIndent fuel baseCfg args = Some run →
  Plugin.transport run = None →
  Plugin.asksHelp args = true
  ∧ Plugin.result run = ExecutionResult.mk Plugin.uploadUsage "" 0 ""
  ∨ Plugin.asksHelp args = false
    ∧ ExecutionResult.ExitCode (Plugin.result run) = 1
    ∧ ExecutionResult.Stdout (Plugin.result run) = "".
Proof.
  unfold Plugin.handleUpload. intros Hrun Htr.
  destruct (Plugin.asksHelp args); [injection Hrun as <-; by left|]. right.
  destruct (parse baseCfg args) as [stderr err|flags]; [by injection Hrun as <-|].
  destruct (decide (length (Plugin.sourcesOf (Config.Clone baseCfg) flags) = O))
    as [|Hne]; [by injection Hrun as <-|].
  destruct (Config.Validate _) as [err|] eqn:Hv; [by injection Hrun as <-|].
  destruct (connect _) as [[client uploader]|err] eqn:Hc; [|by injection Hrun as <-].
  destruct (runTransfer_run _ _ _ _ _ Hrun) as (st' & ? & ? & Hsome & _).
  congruence.
Qed.

Lemma putRequests_cleanup bucket calls :
  Forall (cleanupCall bucket) calls → putRequests calls = [].
Proof.
  induction 1 as [|c calls Hc _ IH]; [done|]. by destruct c.
Qed.

Lemma listRequests_upload calls :
  Forall (λ c, isCleanupCall c = false) calls → listRequests calls = [].
Proof.
  induction 1 as [|c calls Hc _ IH]; [done|]. by destruct c.
Qed.

Lemma listRequests_app calls1 calls2 :
  listRequests (calls1 ++ calls2) = listRequests calls1 ++ listRequests calls2.
Proof. apply omap_app. Qed.

Lemma putRequests_app calls1 calls2 :
  putRequests (calls1 ++ calls2) = putRequests calls1 ++ putRequests calls2.
Proof. apply omap_app. Qed.

Lemma faithfulPut_cleanup plans bucket calls :
  Forall (cleanupCall bucket) calls → Forall (faithfulPut disk plans) calls.
Proof.
  intros H. eapply Forall_impl; [exact H|]. by intros [].
Qed.

End WithCapabilities.
End PluginFacts.

(** X17. [handleUpload] touches the storage only after everything local
    succeeded: a run that made any storage or file call has parsed its
    flags, validated the merged configuration and planned every source
    without an error; and every put of the run streams a planned file, from
    its start, under its planned key. *)
Theorem X17_handleUpload_calls_after_validation {C U : Type} {client_ops : Client C}
  {uploader_ops : PutUploader U} {lib : GoLib} (disk : Disk)
  (parse : Config.t → list string → Parsed)
  (connect : Config.t → result (C * U))
  (marshalIndent : uploadSummary.t → result string)
  (fuel : nat) (baseCfg : Config.t) (args : list string) (run : Plugin.Run (C := C) (U := U))
  (st' : Transport.State (C := C) (U := U)) :
  Plugin.handleUpload disk parse connect marshalIndent fuel baseCfg args = Some run →
  Plugin.transport run = Some st' →
  snd st' ≠ [] →
  ∃ flags plans,
    parse baseCfg args = ParseOk flags
    ∧ Config.Validate (Plugin.mergeFlags baseCfg flags) = None
    ∧ BuildPlans disk (Plugin.sourcesOf (Config.Clone baseCfg) flags)
        (Config.ContextPath (Plugin.mergeFlags baseCfg flags))
      = (Some plans, None)
    ∧ Forall (faithfulPut disk plans) (snd st').
Proof.
  intros Hrun Htr Hcalls.
  destruct (PluginFacts.handleUpload_transport _ _ _ _ _ _ _ _ _ Hrun Htr)
    as (flags & client & uploader & _ & Hparse & _ & Hv & _ & Hrt).
  destruct (PluginFacts.runTransfer_run _ _ _ _ _ _ _ Hrt)
    as (st1 & cl & up & Htr' & Hlog & Hcc & _ & _ & _ & _ & Hplans & _).
  rewrite Htr in Htr'. injection Htr' as <-. cbn [snd app] in Hlog.
  rewrite Hlog in Hcalls. destruct (Hplans Hcalls) as (plans & Hb & Hf).
  exists flags, plans. split_and!; [done|done|done|]. rewrite Hlog.
  apply Forall_app. split; [|done]. by eapply PluginFacts.faithfulPut_cleanup.
Qed.

(** A run on a directory with two files, against the test doubles. *)
Lemma X17_handleUpload_calls_after_validation_witness :
  ∃ run st',
    Plugin.handleUpload (lib := Unix.lib) exampleDisk parsePaths connectDoubles
     marshalKeys 2 exampleConfig ["d"] = Some run
    ∧ Plugin.transport run = Some st'
    ∧ snd st' ≠ []
    ∧ ∃ flags plans,
        parsePaths exampleConfig ["d"] = ParseOk flags
        ∧ Config.Validate (Plugin.mergeFlags exampleConfig flags) = None
        ∧ BuildPlans (lib := Unix.lib) exampleDisk
            (Plugin.sourcesOf (Config.Clone exampleConfig) flags)
            (Config.ContextPath (Plugin.mergeFlags exampleConfig flags))
          = (Some plans, None)
        ∧ Forall (faithfulPut (lib := Unix.lib) exampleDisk plans) (snd st').
Proof.
  eexists _, _.
  split; [vm_compute; reflexivity|]. split; [reflexivity|]. split; [discriminate|].
  eapply (X17_handleUpload_calls_after_validation (lib := Unix.lib) exampleDisk
           parsePaths connectDoubles marshalKeys 2 exampleConfig ["d"] _ _).
  - vm_compute. reflexivity.
  - reflexivity.
  - discriminate.
Defined.


(** X18. In a run of [handleUpload] every listing and deletion comes before
    every probe, file operation and put: the calls are those of the cleanup
    (listings and quiet batch-deletes on the bucket of the merged
    configuration; none at all when the cleanup flag is off) followed by
    those of the upload, during which at most one file is open at a time and
    after which none is. *)
Theorem X18_handleUpload_cleanup_before_upload {C U : Type} {client_ops : Client C}
  {uploader_ops : PutUploader U} {lib : GoLib} (disk : Disk)
  (parse : Config.t → list string → Parsed)
  (connect : Config.t → result (C * U))
  (marshalIndent : uploadSummary.t → result string)
  (fuel : nat) (baseCfg : Config.t) (args : list string) (run : Plugin.Run (C := C) (U := U))
  (st' : Transport.State (C := C) (U := U)) :
  Plugin.handleUpload disk parse connect marshalIndent fuel baseCfg args = Some run →
  Plugin.transport run = Some st' →
  ∃ flags cleanupCalls uploadCalls,
    parse baseCfg args = ParseOk flags
    ∧ snd st' = cleanupCalls ++ uploadCalls
    ∧ Forall (cleanupCall (Config.Bucket (Plugin.mergeFlags baseCfg flags)))
        cleanupCalls
    ∧ (Flags.cleanup flags = false → cleanupCalls = [])
    ∧ Forall (λ c, isCleanupCall c = false) uploadCalls
    ∧ handlesFrom None uploadCalls.
Proof.
  intros Hrun Htr.
  destruct (PluginFacts.handleUpload_transport _ _ _ _ _ _ _ _ _ Hrun Htr)
    as (flags & client & uploader & _ & Hparse & _ & Hv & _ & Hrt).
  destruct (PluginFacts.runTransfer_run _ _ _ _ _ _ _ Hrt)
    as (st1 & cl & up & Htr' & Hlog & Hcc & _ & Hoff & Hup & Hh & _).
  rewrite Htr in Htr'. injection Htr' as <-.
  exists flags, cl, up. by split_and!.
Qed.

Lemma X18_handleUpload_cleanup_before_upload_witness :
  ∃ run st',
    Plugin.handleUpload (lib := Unix.lib) exampleDisk parsePaths connectDoubles
     marshalKeys 2 exampleConfig ["d"] = Some run
    ∧ Plugin.transport run = Some st'
    ∧ ∃ flags cleanupCalls uploadCalls,
        parsePaths exampleConfig ["d"] = ParseOk flags
        ∧ snd st' = cleanupCalls ++ uploadCalls
        ∧ Forall (cleanupCall (Config.Bucket (Plugin.mergeFlags exampleConfig flags)))
            cleanupCalls
        ∧ (Flags.cleanup flags = false → cleanupCalls = [])
        ∧ Forall (λ c, isCleanupCall c = false) uploadCalls
        ∧ handlesFrom None uploadCalls.
Proof.
  eexists _, _.
  split; [vm_compute; reflexivity|]. split; [reflexivity|].
  eapply (X18_handleUpload_cleanup_before_upload (lib := Unix.lib) exampleDisk
           parsePaths connectDoubles marshalKeys 2 exampleConfig ["d"] _ _).
  - vm_compute. reflexivity.
  - reflexivity.
Defined.


(** X19. A run of [handleUpload] that does not ask for help and exits with
    code 0 has put every planned file: the plan list is not empty, the puts
    of the run are one per plan, in order, under the planned keys, and the
    standard output is the encoding, followed by a line feed, of the summary
    that holds the bucket, region, context path and cleanup flag of the
    merged configuration, the number of objects named by the batch-deletes
    that succeeded, and one result per plan. *)
Theorem X19_handleUpload_success_report {C U : Type} {client_ops : Client C}
  {uploader_ops : PutUploader U} {lib : GoLib} (disk : Disk)
  (parse : Config.t → list string → Parsed)
  (connect : Config.t → result (C * U))
  (marshalIndent : uploadSummary.t → result string)
  (fuel : nat) (baseCfg : Config.t) (args : list string) (run : Plugin.Run (C := C) (U := U)) :
  Plugin.handleUpload disk parse connect marshalIndent fuel baseCfg args = Some run →
  Plugin.asksHelp args = false →
  ExecutionResult.ExitCode (Plugin.result run) = 0 →
  ∃ flags st' plans results payload,
    parse baseCfg args = ParseOk flags
    ∧ Plugin.transport run = Some st'
    ∧ BuildPlans disk (Plugin.sourcesOf (Config.Clone baseCfg) flags)
        (Config.ContextPath (Plugin.mergeFlags baseCfg flags))
      = (Some plans, None)
    ∧ plans ≠ []
    ∧ Forall2 resultOfPlan plans results
    ∧ map PutObjectInput.Key (putRequests (snd st'))
      = map (λ plan, Some (FilePlan.Key plan)) plans
    ∧ marshalIndent
        (uploadSummary.mk (Config.Bucket (Plugin.mergeFlags baseCfg flags))
           (Config.Region (Plugin.mergeFlags baseCfg flags))
           (Config.ContextPath (Plugin.mergeFlags baseCfg flags))
           (Flags.cleanup flags)
           (wrapInt (deletedCount (snd st'))) (Some results))
      = Ok payload
    ∧ Plugin.result run = ExecutionResult.mk (payload +:+ String "010" "") "" 0 "".
Proof.
  intros Hrun Hhelp Hexit.
  destruct (Plugin.transport run) as [st'|] eqn:Htr.
  2:{ destruct (PluginFacts.handleUpload_no_transport _ _ _ _ _ _ _ _ Hrun Htr)
        as [[Hh _]|(_ & Hone & _)]; [congruence|]. rewrite Hone in Hexit. done. }
  destruct (PluginFacts.handleUpload_transport _ _ _ _ _ _ _ _ _ Hrun Htr)
    as (flags & client & uploader & _ & Hparse & _ & Hv & _ & Hrt).
  destruct (PluginFacts.runTransfer_run _ _ _ _ _ _ _ Hrt)
    as (st1 & cl & up & Htr' & Hlog & Hcc & _ & _ & Hup & _ & _ & Hres).
  rewrite Htr in Htr'. injection Htr' as <-. cbn [snd app] in Hlog.
  destruct Hres as [[Hone _]|(plans & results & payload & Hb & Hne & Hr & Hk & _ & Hm & Hres)].
  { rewrite Hone in Hexit. done. }
  exists flags, st', plans, results, payload.
  split_and!; try done.
  - rewrite Hlog, PluginFacts.putRequests_app.
    by rewrite (PluginFacts.putRequests_cleanup _ _ Hcc).
  - rewrite Hlog, CleanupFacts.deletedCount_app.
    rewrite (PluginFacts.deletedCount_upload _ Hup), Z.add_0_r. exact Hm.
Qed.

Lemma X19_handleUpload_success_report_witness :
  ∃ run,
    Plugin.handleUpload (lib := Unix.lib) exampleDisk parsePaths connectDoubles
     marshalKeys 2 exampleConfig ["d"] = Some run
    ∧ Plugin.asksHelp ["d"] = false
    ∧ ExecutionResult.ExitCode (Plugin.result run) = 0
    ∧ ∃ flags st' plans results payload,
        parsePaths exampleConfig ["d"] = ParseOk flags
        ∧ Plugin.transport run = Some st'
        ∧ BuildPlans (lib := Unix.lib) exampleDisk
            (Plugin.sourcesOf (Config.Clone exampleConfig) flags)
            (Config.ContextPath (Plugin.mergeFlags exampleConfig flags))
          = (Some plans, None)
        ∧ plans ≠ []
        ∧ Forall2 resultOfPlan plans results
        ∧ map PutObjectInput.Key (putRequests (snd st'))
          = map (λ plan, Some (FilePlan.Key plan)) plans
        ∧ marshalKeys
            (uploadSummary.mk (Config.Bucket (Plugin.mergeFlags exampleConfig flags))
               (Config.Region (Plugin.mergeFlags exampleConfig flags))
               (Config.ContextPath (Plugin.mergeFlags exampleConfig flags))
               (Flags.cleanup flags)
               (wrapInt (deletedCount (snd st'))) (Some results))
          = Ok payload
        ∧ Plugin.result run
          = ExecutionResult.mk (payload +:+ String "010" "") "" 0 "".
Proof.
  eexists.
  split; [vm_compute; reflexivity|]. split; [vm_compute; reflexivity|].
  split; [reflexivity|].
  eapply (X19_handleUpload_success_report (lib := Unix.lib) exampleDisk
           parsePaths connectDoubles marshalKeys 2 exampleConfig ["d"] _).
  - vm_compute. reflexivity.
  - vm_compute. reflexivity.
  - reflexivity.
Defined.


(** X20. With cleanup enabled, sources that hold no file do not stop the
    cleanup: when the flags parse, the merged configuration validates, the
    capabilities are made and the plan list is empty, [handleUpload] first
    runs [Cleanup] on the context path and, when that returned without an
    error, fails with the no-files error and exit code 1; the objects under
    the context path are deleted although nothing is uploaded, and their
    number is not reported. *)
Theorem X20_handleUpload_cleans_before_empty_plan {C U : Type} {client_ops : Client C}
  {uploader_ops : PutUploader U} {lib : GoLib} (disk : Disk)
  (parse : Config.t → list string → Parsed)
  (connect : Config.t → result (C * U))
  (marshalIndent : uploadSummary.t → result string)
  (fuel : nat) (baseCfg : Config.t) (args : list string) (flags : Flags.t)
  (client : C) (uploader : U) (removed : Z)
  (st1 : Transport.State (C := C) (U := U)) :
  let merged := Plugin.mergeFlags baseCfg flags in
  Plugin.asksHelp args = false →
  parse baseCfg args = ParseOk flags →
  Config.Validate merged = None →
  connect merged = Ok (client, uploader) →
  BuildPlans disk (Plugin.sourcesOf (Config.Clone baseCfg) flags)
    (Config.ContextPath merged) = (Some [], None) →
  Flags.cleanup flags = true →
  Transport.Cleanup fuel (Config.ContextPath merged)
    (NewTransport client uploader (Config.Bucket merged) (Flags.overwrite flags), [])
  = Transport.Returned removed None st1 →
  Plugin.handleUpload disk parse connect marshalIndent fuel baseCfg args
  = Some (Plugin.mkRun (Plugin.failure "no files provided for upload") (Some st1)).
Proof.
  intros merged Hhelp Hparse Hv Hc Hb Hflag Hclean. unfold Plugin.handleUpload.
  rewrite Hhelp, Hparse. fold merged.
  apply PlanBuilderMoreFacts.BuildPlans_success_inv in Hb as Hinv.
  destruct Hinv as (Hne & _).
  rewrite decide_False by (by destruct (Plugin.sourcesOf _ _)).
  rewrite Hv, Hc. unfold Plugin.runTransfer. rewrite Hb.
  change (Config.Cleanup merged) with (Flags.cleanup flags).
  change (Config.Overwrite merged) with (Flags.overwrite flags).
  by rewrite Hflag, Hclean.
Qed.

(** A directory tree without files, with cleanup enabled: the object under
    the context path is deleted, and the run fails. *)
Lemma X20_handleUpload_cleans_before_empty_plan_witness :
  let flags := Flags.mk "" "" "" true false "" false false "" ["empty"] in
  let client :=
    fakeClient.mk (Some (stubAPIError "NotFound")) []
      [ListObjectsV2Output.mk [Object.mk (Some "artifact/old.txt")] None] [] O in
  let uploader := stubUploader.mk [] None in
  let st0 : Transport.State := (NewTransport client uploader "bucket" false, []) in
  let st1 := Transport.stateOf (Transport.Cleanup 2 "artifact" st0) in
  parsePaths exampleConfig ["empty"] = ParseOk flags
  ∧ BuildPlans (lib := Unix.lib) exampleDisk ["empty"] "artifact" = (Some [], None)
  ∧ Transport.Cleanup 2 "artifact" st0 = Transport.Returned 1 None st1
  ∧ length (fakeClient.deleteInputs (Transport.client (fst st1))) = 1%nat
  ∧ Plugin.handleUpload (lib := Unix.lib) exampleDisk parsePaths connectDoubles
     marshalKeys 2 exampleConfig ["empty"]
    = Some (Plugin.mkRun (Plugin.failure "no files provided for upload") (Some st1)).
Proof.
  intros flags client uploader st0 st1.
  split; [reflexivity|]. split; [vm_compute; reflexivity|].
  split; [vm_compute; reflexivity|]. split; [vm_compute; reflexivity|].
  apply (X20_handleUpload_cleans_before_empty_plan (lib := Unix.lib) exampleDisk
           parsePaths connectDoubles marshalKeys 2 exampleConfig ["empty"] flags
           client uploader 1 st1).
  - vm_compute. reflexivity.
  - reflexivity.
  - vm_compute. reflexivity.
  - reflexivity.
  - vm_compute. reflexivity.
  - reflexivity.
  - vm_compute. reflexivity.
Defined.


(** X21. In a run of [handleUpload] the cleanup and the upload work on the
    same folder: every listing asks for the scope of the context path of
    the merged configuration (the whole bucket when the context path is
    empty after normalization), and every put writes a key that is the
    normalized context path or lies under that scope. *)
Theorem X21_handleUpload_one_scope {C U : Type} {client_ops : Client C}
  {uploader_ops : PutUploader U} {lib : GoLib} (disk : Disk)
  (parse : Config.t → list string → Parsed)
  (connect : Config.t → result (C * U))
  (marshalIndent : uploadSummary.t → result string)
  (fuel : nat) (baseCfg : Config.t) (args : list string) (run : Plugin.Run (C := C) (U := U))
  (st' : Transport.State (C := C) (U := U)) :
  Plugin.handleUpload disk parse connect marshalIndent fuel baseCfg args = Some run →
  Plugin.transport run = Some st' →
  ∃ flags,
    parse baseCfg args = ParseOk flags
    ∧ let context := Config.ContextPath (Plugin.mergeFlags baseCfg flags) in
      let scope := stringPointer (Transport.resolvePrefix context) in
      Forall (λ input, ListObjectsV2Input.Prefix input = scope)
        (listRequests (snd st'))
      ∧ Forall (λ input,
                  ∃ key, PutObjectInput.Key input = Some key
                         ∧ (key = normalizePrefix context
                            ∨ underScope scope (Some key)))
          (putRequests (snd st')).
Proof.
  intros Hrun Htr.
  destruct (PluginFacts.handleUpload_transport _ _ _ _ _ _ _ _ _ Hrun Htr)
    as (flags & client & uploader & _ & Hparse & _ & Hv & _ & Hrt).
  destruct (PluginFacts.runTransfer_run _ _ _ _ _ _ _ Hrt)
    as (st1 & cl & up & Htr' & Hlog & Hcc & Hpre & _ & Hup & _ & Hplans & _).
  rewrite Htr in Htr'. injection Htr' as <-. cbn [snd app] in Hlog.
  exists flags. split; [done|]. intros context scope. rewrite Hlog. split.
  - rewrite PluginFacts.listRequests_app, (PluginFacts.listRequests_upload _ Hup).
    by rewrite app_nil_r.
  - rewrite PluginFacts.putRequests_app, (PluginFacts.putRequests_cleanup _ _ Hcc).
    cbn [app]. apply Forall_forall. intros input Hin.
    apply list_elem_of_omap in Hin as (c & Hc & Hinput).
    destruct c as [| | |input' out| |]; try done. injection Hinput as ->.
    destruct Hplans as (plans & Hb & Hf).
    { intros Hnil. apply app_eq_nil in Hnil as [_ ->]. by apply elem_of_nil in Hc. }
    rewrite Forall_forall in Hf.
    destruct (Hf _ Hc) as (plan & data & Hplan & _ & Hkey & _).
    exists (FilePlan.Key plan). split; [done|].
    destruct (KeyShapeFacts.BuildPlans_keys disk _ _ _ _ Hb Hplan) as [rel ->].
    apply KeyShapeFacts.joinKey_scope.
Qed.

Lemma X21_handleUpload_one_scope_witness :
  ∃ run st',
    Plugin.handleUpload (lib := Unix.lib) exampleDisk parsePaths connectDoubles
     marshalKeys 2 exampleConfig ["d"] = Some run
    ∧ Plugin.transport run = Some st'
    ∧ ∃ flags,
        parsePaths exampleConfig ["d"] = ParseOk flags
        ∧ let context := Config.ContextPath (Plugin.mergeFlags exampleConfig flags) in
          let scope := stringPointer (Transport.resolvePrefix context) in
          Forall (λ input, ListObjectsV2Input.Prefix input = scope)
            (listRequests (snd st'))
          ∧ Forall (λ input,
                      ∃ key, PutObjectInput.Key input = Some key
                             ∧ (key = normalizePrefix context
                                ∨ underScope scope (Some key)))
              (putRequests (snd st')).
Proof.
  eexists _, _.
  split; [vm_compute; reflexivity|]. split; [reflexivity|].
  eapply (X21_handleUpload_one_scope (lib := Unix.lib) exampleDisk
           parsePaths connectDoubles marshalKeys 2 exampleConfig ["d"] _ _).
  - vm_compute. reflexivity.
  - reflexivity.
Defined.


(** X22. [handleUpload] exits with code 0 or 1, and a run that exits with
    code 1 writes nothing on the standard output: no summary is reported on
    a failure, also when objects were deleted or put before it. *)
Theorem X22_handleUpload_failure_prints_nothing {C U : Type} {client_ops : Client C}
  {uploader_ops : PutUploader U} {lib : GoLib} (disk : Disk)
  (parse : Config.t → list string → Parsed)
  (connect : Config.t → result (C * U))
  (marshalIndent : uploadSummary.t → result string)
  (fuel : nat) (baseCfg : Config.t) (args : list string) (run : Plugin.Run (C := C) (U := U)) :
  Plugin.handleUpload disk parse connect marshalIndent fuel baseCfg args = Some run →
  ExecutionResult.ExitCode (Plugin.result run) = 0
  ∨ ExecutionResult.ExitCode (Plugin.result run) = 1
    ∧ ExecutionResult.Stdout (Plugin.result run) = "".
Proof.
  intros Hrun.
  destruct (Plugin.transport run) as [st'|] eqn:Htr.
  - destruct (PluginFacts.handleUpload_transport _ _ _ _ _ _ _ _ _ Hrun Htr)
      as (flags & client & uploader & _ & Hparse & _ & Hv & _ & Hrt).
    destruct (PluginFacts.runTransfer_run _ _ _ _ _ _ _ Hrt)
      as (st1 & cl & up & _ & _ & _ & _ & _ & _ & _ & _ & Hres).
    destruct Hres as [H|(plans & results & payload & _ & _ & _ & _ & _ & _ & ->)];
      [by right|by left].
  - destruct (PluginFacts.handleUpload_no_transport _ _ _ _ _ _ _ _ Hrun Htr)
      as [[_ ->]|(_ & H)]; [by left|by right].
Qed.

(** A path that does not exist. *)
Lemma X22_handleUpload_failure_prints_nothing_witness :
  ∃ run,
    Plugin.handleUpload (lib := Unix.lib) exampleDisk parsePaths connectDoubles
     marshalKeys 2 exampleConfig ["missing.txt"] = Some run
    ∧ (ExecutionResult.ExitCode (Plugin.result run) = 0
       ∨ ExecutionResult.ExitCode (Plugin.result run) = 1
         ∧ ExecutionResult.Stdout (Plugin.result run) = "").
Proof.
  eexists.
  split; [vm_compute; reflexivity|].
  eapply (X22_handleUpload_failure_prints_nothing (lib := Unix.lib) exampleDisk
           parsePaths connectDoubles marshalKeys 2 exampleConfig ["missing.txt"] _).
  vm_compute. reflexivity.
Defined.

(** X24. A context flag made only of ['/'] (and white space between them)
    does not keep the context path of the configuration: it sets the context
    path to one that is empty after normalization, so that every listing of
    the cleanup of the run asks for the whole bucket (a nil prefix). *)
Theorem X24_handleUpload_slash_context_whole_bucket {C U : Type}
  {client_ops : Client C} {uploader_ops : PutUploader U} {lib : GoLib} (disk : Disk)
  (parse : Config.t → list string → Parsed)
  (connect : Config.t → result (C * U))
  (marshalIndent : uploadSummary.t → result string)
  (fuel : nat) (baseCfg : Config.t) (args : list string) (flags : Flags.t)
  (run : Plugin.Run (C := C) (U := U))
  (st' : Transport.State (C := C) (U := U)) :
  Plugin.handleUpload disk parse connect marshalIndent fuel baseCfg args = Some run →
  Plugin.transport run = Some st' →
  parse baseCfg args = ParseOk flags →
  Flags.contextPath flags ≠ "" →
  normalizePrefix (GoStrings.Trim (Flags.contextPath flags) "/") = "" →
  Forall (λ input, ListObjectsV2Input.Prefix input = None) (listRequests (snd st')).
Proof.
  intros Hrun Htr Hparse Hflag Hempty.
  destruct (PluginFacts.handleUpload_transport _ _ _ _ _ _ _ _ _ Hrun Htr)
    as (flags' & client & uploader & _ & Hparse' & _ & Hv & _ & Hrt).
  rewrite Hparse in Hparse'. injection Hparse' as <-.
  destruct (PluginFacts.runTransfer_run _ _ _ _ _ _ _ Hrt)
    as (st1 & cl & up & Htr' & Hlog & _ & Hpre & _ & Hup & _).
  rewrite Htr in Htr'. injection Htr' as <-. cbn [snd app] in Hlog.
  rewrite Hlog, PluginFacts.listRequests_app, (PluginFacts.listRequests_upload _ Hup).
  rewrite app_nil_r.
  assert (Config.ContextPath (Plugin.mergeFlags baseCfg flags)
          = GoStrings.Trim (Flags.contextPath flags) "/") as Hctx.
  { unfold Plugin.mergeFlags. cbn [Config.ContextPath]. by rewrite decide_True. }
  rewrite Hctx, (ScopeFacts.scope_empty _ Hempty) in Hpre. exact Hpre.
Qed.

(** The flags [--context / --cleanup] over a configuration whose context
    path is [artifact]. *)
Lemma X24_handleUpload_slash_context_whole_bucket_witness :
  let flags := Flags.mk "" "" "/" true false "" false false "" ["d"] in
  let parse := λ (_ : Config.t) (_ : list string), ParseOk flags in
  ∃ run st',
    Plugin.handleUpload (lib := Unix.lib) exampleDisk parse connectDoubles
      marshalKeys 2 exampleConfig ["--context"; "/"; "--cleanup"; "d"] = Some run
    ∧ Plugin.transport run = Some st'
    ∧ listRequests (snd st') ≠ []
    ∧ Forall (λ input, ListObjectsV2Input.Prefix input = None)
        (listRequests (snd st')).
Proof.
  intros flags parse. eexists _, _.
  split; [vm_compute; reflexivity|]. split; [reflexivity|].
  split; [discriminate|].
  eapply (X24_handleUpload_slash_context_whole_bucket (lib := Unix.lib) exampleDisk
            parse connectDoubles marshalKeys 2 exampleConfig
            ["--context"; "/"; "--cleanup"; "d"] flags _ _).
  - vm_compute. reflexivity.
  - reflexivity.
  - reflexivity.
  - discriminate.
  - vm_compute. reflexivity.
Defined.
